(** * The VirtualServer cert-manager shim of kubernetes-ingress

    A shallow embedding of the reconciliation logic found in
    [internal/certmanager/helper.go] (annotation translation, the controller's
    event handlers) and in the sync file of the same package
    ([SyncFnFor], [buildCertificates], [findCertificatesToBeRemoved],
    [certNeedsUpdate], [issuerForIngressLike]), followed by the properties of
    the specification that concern them.

    Conventions of the embedding:
    - a Go pointer that the code may receive as [nil] is an [option]; reading a
      field through a [nil] pointer is a run-time panic, which is an explicit
      outcome ([Panics]);
    - a Go result list [(v, err)] is a tuple whose last component is an
      [option error] ([None] is Go's [nil] error);
    - a Go [map[string]string] is a [gmap string string]; a map that may be
      [nil] and is compared with [reflect.DeepEqual] is an [option] of one;
    - a struct mutated through a pointer is returned in its final state;
    - the API server, the lister cache, the event recorder and the work queue
      are threaded through explicitly;
    - the log lines of the sync file are part of what a pass produces;
      [runtime.HandleError] in the handlers only reports and is left out. *)

From Stdlib Require Import ZArith Ascii String SpecFloat Lia.
From stdpp Require Import base option strings list gmap.

Local Open Scope string_scope.
Local Open Scope list_scope.
Local Open Scope stdpp_scope.

(** ** Outcomes of a Go function call *)

(** A call either returns its results or panics. *)
Inductive outcome (A : Type) : Type :=
| Returns (a : A)
| Panics (reason : string).
Arguments Returns {A} a.
Arguments Panics {A} reason.

Definition outcome_bind {A B : Type} (f : A -> outcome B) (o : outcome A) : outcome B :=
  match o with
  | Returns a => f a
  | Panics r => Panics r
  end.

#[global] Instance outcome_mbind : MBind outcome := @outcome_bind.
#[global] Instance outcome_mret : MRet outcome := @Returns.

(** The run-time error raised when a field is read through a nil pointer. *)
Definition nilPointerDereference : string :=
  "runtime error: invalid memory address or nil pointer dereference".

(** [p.Field] for a pointer [p]: the pointee, or the panic. *)
Definition deref {A : Type} (p : option A) : outcome A :=
  match p with
  | Some a => Returns a
  | None => Panics nilPointerDereference
  end.

(** ** Errors *)

(** The error values the package builds or receives: [errorsNew] is
    [errors.New], [fmtErrorf] is [fmt.Errorf] kept with its format string and
    its arguments, [StatusError] is an API error of
    [k8s.io/apimachinery/pkg/api/errors] with its reason. *)
Inductive error : Type :=
| errorsNew (text : string)
| fmtErrorf (format : string) (args : list fmtArg)
| StatusError (reason : string) (message : string)

(** An argument of a format string. *)
with fmtArg : Type :=
| ArgError (err : error)
| ArgString (s : string).

Definition StatusReasonNotFound : string := "NotFound".

(** [apierrors.IsNotFound]; it answers [false] on the nil error. *)
Definition IsNotFound (err : option error) : bool :=
  match err with
  | Some (StatusError reason _) => String.eqb reason StatusReasonNotFound
  | _ => false
  end.

(** ** Strings *)

Definition doubleQuote : string := String "034"%char EmptyString.

(** [%q] of the [fmt] verbs, on the annotation keys: they hold printable ASCII
    with neither a quote nor a backslash, so [strconv.Quote] only surrounds
    them with double quotes. *)
Definition quote (s : string) : string := doubleQuote +:+ s +:+ doubleQuote.

(** [strings.Join]. *)
Fixpoint Join (elems : list string) (sep : string) : string :=
  match elems with
  | [] => ""
  | [e] => e
  | e :: rest => e +:+ sep +:+ Join rest sep
  end.

(** [strings.Split(s, sep)] for a one-byte separator: always at least one
    piece, an empty one around a leading, trailing or doubled separator. *)
Fixpoint Split (s : string) (sep : ascii) : list string :=
  match s with
  | EmptyString => [EmptyString]
  | String c rest =>
      if Ascii.eqb c sep then EmptyString :: Split rest sep
      else match Split rest sep with
           | piece :: pieces => String c piece :: pieces
           | [] => [String c EmptyString]
           end
  end.

Fixpoint TrimLeft (s : string) (cut : ascii) : string :=
  match s with
  | String c rest => if Ascii.eqb c cut then TrimLeft rest cut else s
  | EmptyString => EmptyString
  end.

Fixpoint TrimRight (s : string) (cut : ascii) : string :=
  match s with
  | EmptyString => EmptyString
  | String c rest =>
      match TrimRight rest cut with
      | EmptyString => if Ascii.eqb c cut then EmptyString else String c EmptyString
      | rest' => String c rest'
      end
  end.

(** [strings.Trim(s, cutset)] for a one-byte cutset. *)
Definition Trim (s : string) (cut : ascii) : string :=
  TrimRight (TrimLeft s cut) cut.

(** [sub] occurs in [s]. *)
Definition Contains (s sub : string) : Prop :=
  exists before after : string, s = before +:+ sub +:+ after.

(** ** Data model *)

(** The structs of [k8s.io/apimachinery/pkg/apis/meta/v1] the code reads. *)
Module metav1.

Module OwnerReference.
Record t : Type := Build {
  APIVersion : string;
  Kind : string;
  Name : string;
  UID : string;
  Controller : option bool;
  BlockOwnerDeletion : option bool
}.
End OwnerReference.

Module ObjectMeta.
Record t : Type := Build {
  Name : string;
  Namespace : string;
  UID : string;
  ResourceVersion : string;
  Labels : option (gmap string string);
  Annotations : option (gmap string string);
  OwnerReferences : list OwnerReference.t
}.
End ObjectMeta.

End metav1.

(** [github.com/jetstack/cert-manager/pkg/apis/meta/v1]. *)
Module cmmeta.

Module ObjectReference.
Record t : Type := Build {
  Name : string;
  Kind : string;
  Group : string
}.
End ObjectReference.

End cmmeta.

(** [github.com/jetstack/cert-manager/pkg/apis/certmanager/v1]: the
    Certificate (the fields of its spec that the shim sets or compares, all
    others keep their zero value) and the constants the shim uses.  The
    annotation keys are the ones listed in the comments of
    [translateAnnotations] and [issuerForIngressLike]. *)
Module cmapi.

Definition KeyUsage : Type := string.

Module CertificateSpec.
Record t : Type := Build {
  CommonName : string;
  Duration : option Z;
  RenewBefore : option Z;
  DNSNames : list string;
  SecretName : string;
  IssuerRef : cmmeta.ObjectReference.t;
  Usages : list KeyUsage
}.
End CertificateSpec.

Module Certificate.
Record t : Type := Build {
  ObjectMeta : metav1.ObjectMeta.t;
  Spec : CertificateSpec.t
}.
End Certificate.

Definition CommonNameAnnotationKey : string := "cert-manager.io/common-name".
Definition DurationAnnotationKey : string := "cert-manager.io/duration".
Definition RenewBeforeAnnotationKey : string := "cert-manager.io/renew-before".
Definition UsagesAnnotationKey : string := "cert-manager.io/usages".
Definition IngressIssuerNameAnnotationKey : string := "cert-manager.io/issuer".
Definition IngressClusterIssuerNameAnnotationKey : string := "cert-manager.io/cluster-issuer".
Definition IssuerKindAnnotationKey : string := "cert-manager.io/issuer-kind".
Definition IssuerGroupAnnotationKey : string := "cert-manager.io/issuer-group".

Definition IssuerKind : string := "Issuer".
Definition ClusterIssuerKind : string := "ClusterIssuer".

End cmapi.

(** [github.com/nginxinc/kubernetes-ingress/pkg/apis/configuration/v1]: the
    VirtualServer, with the fields the shim reads.  [CertManager] is the
    pointer [*vsapi.CertManager] that [convertVsCmSpecToAnnotations] and its
    siblings receive. *)
Module vsapi.

Module CertManager.
Record t : Type := Build {
  ClusterIssuer : string;
  Issuer : string;
  IssuerKind : string;
  IssuerGroup : string;
  CommonName : string;
  Duration : string;
  RenewBefore : string;
  Usages : string
}.
End CertManager.

Module TLS.
Record t : Type := Build {
  Secret : string;
  CertManager : option CertManager.t
}.
End TLS.

Module VirtualServerSpec.
Record t : Type := Build {
  Host : string;
  TLS : TLS.t
}.
End VirtualServerSpec.

Module VirtualServer.
Record t : Type := Build {
  ObjectMeta : metav1.ObjectMeta.t;
  Spec : VirtualServerSpec.t
}.
End VirtualServer.

End vsapi.

(** [k8s.io/apimachinery/pkg/runtime/schema]. *)
Module schema.

Module GroupVersionKind.
Record t : Type := Build {
  Group : string;
  Version : string;
  Kind : string
}.
End GroupVersionKind.

(** [gvk.GroupVersion().String()]. *)
Definition GroupVersionString (gvk : GroupVersionKind.t) : string :=
  if String.eqb (GroupVersionKind.Group gvk) ""
  then GroupVersionKind.Version gvk
  else GroupVersionKind.Group gvk +:+ "/" +:+ GroupVersionKind.Version gvk.

End schema.

(** ** The [metav1.Object] interface and the owner-reference helpers *)

Class Object (A : Type) : Type := { GetObjectMeta : A -> metav1.ObjectMeta.t }.

#[global] Instance Certificate_Object : Object cmapi.Certificate.t :=
  {| GetObjectMeta := cmapi.Certificate.ObjectMeta |}.

#[global] Instance VirtualServer_Object : Object vsapi.VirtualServer.t :=
  {| GetObjectMeta := vsapi.VirtualServer.ObjectMeta |}.

Section ObjectAccessors.
Context {A : Type} `{Object A}.

Definition GetName (o : A) : string := metav1.ObjectMeta.Name (GetObjectMeta o).
Definition GetNamespace (o : A) : string := metav1.ObjectMeta.Namespace (GetObjectMeta o).
Definition GetUID (o : A) : string := metav1.ObjectMeta.UID (GetObjectMeta o).
Definition GetLabels (o : A) : option (gmap string string) :=
  metav1.ObjectMeta.Labels (GetObjectMeta o).
Definition GetOwnerReferences (o : A) : list metav1.OwnerReference.t :=
  metav1.ObjectMeta.OwnerReferences (GetObjectMeta o).
End ObjectAccessors.

(** The loop of [metav1.GetControllerOf]: the first owner reference whose
    [Controller] pointer is set and true. *)
Fixpoint firstControllerRef (refs : list metav1.OwnerReference.t)
  : option metav1.OwnerReference.t :=
  match refs with
  | [] => None
  | ref :: rest =>
      match metav1.OwnerReference.Controller ref with
      | Some true => Some ref
      | _ => firstControllerRef rest
      end
  end.

Definition GetControllerOf {A : Type} `{Object A} (controllee : A)
  : option metav1.OwnerReference.t :=
  firstControllerRef (GetOwnerReferences controllee).

(** [metav1.IsControlledBy]: the controller reference carries the owner's UID. *)
Definition IsControlledBy {A B : Type} `{Object A} `{Object B} (obj : A) (owner : B) : bool :=
  match GetControllerOf obj with
  | None => false
  | Some ref => String.eqb (metav1.OwnerReference.UID ref) (GetUID owner)
  end.

(** [metav1.NewControllerRef]. *)
Definition NewControllerRef {A : Type} `{Object A} (owner : A)
    (gvk : schema.GroupVersionKind.t) : metav1.OwnerReference.t :=
  {| metav1.OwnerReference.APIVersion := schema.GroupVersionString gvk;
     metav1.OwnerReference.Kind := schema.GroupVersionKind.Kind gvk;
     metav1.OwnerReference.Name := GetName owner;
     metav1.OwnerReference.UID := GetUID owner;
     metav1.OwnerReference.Controller := Some true;
     metav1.OwnerReference.BlockOwnerDeletion := Some true |}.

(** ** Field assignments through a pointer *)

Definition setSpec (crt : cmapi.Certificate.t) (spec : cmapi.CertificateSpec.t)
  : cmapi.Certificate.t :=
  {| cmapi.Certificate.ObjectMeta := cmapi.Certificate.ObjectMeta crt;
     cmapi.Certificate.Spec := spec |}.

Definition setLabels (crt : cmapi.Certificate.t) (labels : option (gmap string string))
  : cmapi.Certificate.t :=
  let m := cmapi.Certificate.ObjectMeta crt in
  {| cmapi.Certificate.ObjectMeta :=
       {| metav1.ObjectMeta.Name := metav1.ObjectMeta.Name m;
          metav1.ObjectMeta.Namespace := metav1.ObjectMeta.Namespace m;
          metav1.ObjectMeta.UID := metav1.ObjectMeta.UID m;
          metav1.ObjectMeta.ResourceVersion := metav1.ObjectMeta.ResourceVersion m;
          metav1.ObjectMeta.Labels := labels;
          metav1.ObjectMeta.Annotations := metav1.ObjectMeta.Annotations m;
          metav1.ObjectMeta.OwnerReferences := metav1.ObjectMeta.OwnerReferences m |};
     cmapi.Certificate.Spec := cmapi.Certificate.Spec crt |}.

Definition setCommonName (crt : cmapi.Certificate.t) (commonName : string)
  : cmapi.Certificate.t :=
  let s := cmapi.Certificate.Spec crt in
  setSpec crt
    {| cmapi.CertificateSpec.CommonName := commonName;
       cmapi.CertificateSpec.Duration := cmapi.CertificateSpec.Duration s;
       cmapi.CertificateSpec.RenewBefore := cmapi.CertificateSpec.RenewBefore s;
       cmapi.CertificateSpec.DNSNames := cmapi.CertificateSpec.DNSNames s;
       cmapi.CertificateSpec.SecretName := cmapi.CertificateSpec.SecretName s;
       cmapi.CertificateSpec.IssuerRef := cmapi.CertificateSpec.IssuerRef s;
       cmapi.CertificateSpec.Usages := cmapi.CertificateSpec.Usages s |}.

Definition setDuration (crt : cmapi.Certificate.t) (duration : option Z)
  : cmapi.Certificate.t :=
  let s := cmapi.Certificate.Spec crt in
  setSpec crt
    {| cmapi.CertificateSpec.CommonName := cmapi.CertificateSpec.CommonName s;
       cmapi.CertificateSpec.Duration := duration;
       cmapi.CertificateSpec.RenewBefore := cmapi.CertificateSpec.RenewBefore s;
       cmapi.CertificateSpec.DNSNames := cmapi.CertificateSpec.DNSNames s;
       cmapi.CertificateSpec.SecretName := cmapi.CertificateSpec.SecretName s;
       cmapi.CertificateSpec.IssuerRef := cmapi.CertificateSpec.IssuerRef s;
       cmapi.CertificateSpec.Usages := cmapi.CertificateSpec.Usages s |}.

Definition setRenewBefore (crt : cmapi.Certificate.t) (renewBefore : option Z)
  : cmapi.Certificate.t :=
  let s := cmapi.Certificate.Spec crt in
  setSpec crt
    {| cmapi.CertificateSpec.CommonName := cmapi.CertificateSpec.CommonName s;
       cmapi.CertificateSpec.Duration := cmapi.CertificateSpec.Duration s;
       cmapi.CertificateSpec.RenewBefore := renewBefore;
       cmapi.CertificateSpec.DNSNames := cmapi.CertificateSpec.DNSNames s;
       cmapi.CertificateSpec.SecretName := cmapi.CertificateSpec.SecretName s;
       cmapi.CertificateSpec.IssuerRef := cmapi.CertificateSpec.IssuerRef s;
       cmapi.CertificateSpec.Usages := cmapi.CertificateSpec.Usages s |}.

Definition setUsages (crt : cmapi.Certificate.t) (usages : list cmapi.KeyUsage)
  : cmapi.Certificate.t :=
  let s := cmapi.Certificate.Spec crt in
  setSpec crt
    {| cmapi.CertificateSpec.CommonName := cmapi.CertificateSpec.CommonName s;
       cmapi.CertificateSpec.Duration := cmapi.CertificateSpec.Duration s;
       cmapi.CertificateSpec.RenewBefore := cmapi.CertificateSpec.RenewBefore s;
       cmapi.CertificateSpec.DNSNames := cmapi.CertificateSpec.DNSNames s;
       cmapi.CertificateSpec.SecretName := cmapi.CertificateSpec.SecretName s;
       cmapi.CertificateSpec.IssuerRef := cmapi.CertificateSpec.IssuerRef s;
       cmapi.CertificateSpec.Usages := usages |}.

(** [reflect.DeepEqual] on two [*vsapi.CertManager]: both nil, or both set
    with equal fields. *)
#[global] Instance CertManager_eq_dec : EqDecision vsapi.CertManager.t.
Proof. solve_decision. Defined.

(** [github.com/jetstack/cert-manager/pkg/controller]: the defaults handed to
    the shim at start-up. *)
Module controller.

Module IngressShimOptions.
Record t : Type := Build {
  DefaultIssuerName : string;
  DefaultIssuerKind : string;
  DefaultIssuerGroup : string
}.
End IngressShimOptions.

End controller.

(** ** The collaborators of a reconciliation pass *)

(** The certificate lister (reads of the informer cache), the VirtualServer
    lister and the cert-manager client (writes to the API server), over a state
    [W] of the cluster that the writes transform. *)
Class Cluster (W : Type) : Type := {
  (** [cmLister.Certificates(namespace).Get(name)] *)
  CertificatesGet : W -> string -> string -> option cmapi.Certificate.t * option error;
  (** [cmLister.Certificates(namespace).List(labels.Everything())] *)
  CertificatesList : W -> string -> list cmapi.Certificate.t * option error;
  (** [vsLister.VirtualServers(namespace).Get(name)] *)
  VirtualServersGet : W -> string -> string -> option vsapi.VirtualServer.t * option error;
  (** [cmClient.CertmanagerV1().Certificates(namespace).Create(ctx, crt, opts)] *)
  CertificatesCreate : W -> string -> cmapi.Certificate.t -> W * option error;
  (** [cmClient.CertmanagerV1().Certificates(namespace).Update(ctx, crt, opts)] *)
  CertificatesUpdate : W -> string -> cmapi.Certificate.t -> W * option error;
  (** [cmClient.CertmanagerV1().Certificates(namespace).Delete(ctx, name, opts)] *)
  CertificatesDelete : W -> string -> string -> W * option error
}.

(** A write request sent to the API server. *)
Inductive StoreCall : Type :=
| CreateCall (namespace : string) (crt : cmapi.Certificate.t)
| UpdateCall (namespace : string) (crt : cmapi.Certificate.t)
| DeleteCall (namespace : string) (name : string).

(** A call [rec.Eventf(object, eventtype, reason, messageFmt, args...)]. *)
Record Event : Type := Eventf {
  object : vsapi.VirtualServer.t;
  eventtype : string;
  reason : string;
  messageFmt : string;
  args : list fmtArg
}.

Definition EventTypeNormal : string := "Normal".
Definition EventTypeWarning : string := "Warning".

(** A line written through the logger: [log.Error(err, msg)] or
    [log.V(level).Info(msg)]. *)
Inductive LogLevel : Type := InfoLevel | DebugLevel.

Inductive LogLine : Type :=
| LogError (err : error) (msg : string)
| LogInfo (level : LogLevel) (msg : string).

(** What a pass has done so far: the cluster as the writes left it, the write
    requests in the order they were sent (a failed one included), the events
    recorded and the lines logged. *)
Record Pass (W : Type) : Type := Build_Pass {
  cluster : W;
  calls : list StoreCall;
  events : list Event;
  logs : list LogLine
}.
Arguments Build_Pass {W} cluster calls events logs.
Arguments cluster {W} p.
Arguments calls {W} p.
Arguments events {W} p.
Arguments logs {W} p.

Definition startPass {W : Type} (w : W) : Pass W := Build_Pass w [] [] [].

Definition recorded {W : Type} (p : Pass W) (e : Event) : Pass W :=
  Build_Pass (cluster p) (calls p) (events p ++ [e]) (logs p).

Definition sent {W : Type} (p : Pass W) (w' : W) (c : StoreCall) : Pass W :=
  Build_Pass w' (calls p ++ [c]) (events p) (logs p).

Definition logged {W : Type} (p : Pass W) (lines : list LogLine) : Pass W :=
  Build_Pass (cluster p) (calls p) (events p) (logs p ++ lines).

(** ** The work queue and the notifications *)

(** What the handlers hand to [queue.Add]: a ["namespace/name"] key, or the
    pointer to a VirtualServer object. *)
Inductive QueueItem : Type :=
| KeyItem (key : string)
| VirtualServerItem (vs : vsapi.VirtualServer.t).

(** The dynamic type of the [interface{}] an informer hands to a handler. *)
Inductive Obj : Type :=
| CertificateObj (crt : cmapi.Certificate.t)
| VirtualServerObj (vs : vsapi.VirtualServer.t)
| DeletedFinalStateUnknownObj (key : string) (inner : Obj)
| OtherObj.

Definition failedTypeAssertion : string :=
  "interface conversion: interface {} is not *v1.VirtualServer".

(** ** Library functions the shim calls *)

(** Functions and values of other packages whose results the shim only passes
    on: [time.ParseDuration] (nanoseconds, or an error), the two look-ups of
    cert-manager's [pkg/api/util] that say whether a name is a key usage or an
    extended key usage, [cmapi.DefaultKeyUsages()], and the group and version
    under which the VirtualServer type is registered
    ([vsapi.SchemeGroupVersion]). *)
Class GoLibraries : Type := {
  ParseDuration : string -> Z * option error;
  KeyUsageType : cmapi.KeyUsage -> Z * bool;
  ExtKeyUsageType : cmapi.KeyUsage -> Z * bool;
  DefaultKeyUsages : list cmapi.KeyUsage;
  SchemeGroup : string;
  SchemeVersion : string
}.

(** * helper.go *)

Definition errNilCertificate : error :=
  errorsNew "the supplied Certificate pointer was nil".
Definition errInvalidIngressAnnotation : error :=
  errorsNew "invalid ingress annotation".

Section Translate.
Context `{GoLibraries}.

(** One [if ..., found := ingLikeAnnotations[key]; found] block of
    [translateAnnotations]: the certificate as the block leaves it, and the
    error it returns with, if any. *)
Definition block : Type := cmapi.Certificate.t -> cmapi.Certificate.t * option error.

(** Run [next] unless [first] has returned an error. *)
Definition andThen (first next : block) : block :=
  fun crt =>
    let '(crt', err) := first crt in
    match err with
    | Some _ => (crt', err)
    | None => next crt'
    end.

Definition commonNameBlock (ingLikeAnnotations : gmap string string) : block :=
  fun crt =>
    match ingLikeAnnotations !! cmapi.CommonNameAnnotationKey with
    | Some commonName => (setCommonName crt commonName, None)
    | None => (crt, None)
    end.

Definition durationBlock (ingLikeAnnotations : gmap string string) : block :=
  fun crt =>
    match ingLikeAnnotations !! cmapi.DurationAnnotationKey with
    | Some duration =>
        match ParseDuration duration with
        | (_, Some err) =>
            (crt, Some (fmtErrorf "%w %q: %v"
                          [ArgError errInvalidIngressAnnotation;
                           ArgString cmapi.DurationAnnotationKey;
                           ArgError err]))
        | (duration, None) => (setDuration crt (Some duration), None)
        end
    | None => (crt, None)
    end.

Definition renewBeforeBlock (ingLikeAnnotations : gmap string string) : block :=
  fun crt =>
    match ingLikeAnnotations !! cmapi.RenewBeforeAnnotationKey with
    | Some renewBefore =>
        match ParseDuration renewBefore with
        | (_, Some err) =>
            (crt, Some (fmtErrorf "%w %q: %v"
                          [ArgError errInvalidIngressAnnotation;
                           ArgString cmapi.RenewBeforeAnnotationKey;
                           ArgError err]))
        | (duration, None) => (setRenewBefore crt (Some duration), None)
        end
    | None => (crt, None)
    end.

(** The loop over [strings.Split(usages, ",")]: [newUsages] grows by one
    trimmed name per round; an unknown name ends the loop with an error. *)
Fixpoint usagesLoop (usageNames : list string) (newUsages : list cmapi.KeyUsage)
  : list cmapi.KeyUsage * option error :=
  match usageNames with
  | [] => (newUsages, None)
  | usageName :: rest =>
      let usage : cmapi.KeyUsage := Trim usageName " " in
      let '(_, isKU) := KeyUsageType usage in
      let '(_, isEKU) := ExtKeyUsageType usage in
      if negb isKU && negb isEKU
      then (newUsages,
            Some (fmtErrorf "%w %q: invalid key usage name %q"
                    [ArgError errInvalidIngressAnnotation;
                     ArgString cmapi.UsagesAnnotationKey;
                     ArgString usageName]))
      else usagesLoop rest (newUsages ++ [usage])
  end.

Definition usagesBlock (ingLikeAnnotations : gmap string string) : block :=
  fun crt =>
    match ingLikeAnnotations !! cmapi.UsagesAnnotationKey with
    | Some usages =>
        match usagesLoop (Split usages ",") [] with
        | (_, Some err) => (crt, Some err)
        | (newUsages, None) => (setUsages crt newUsages, None)
        end
    | None => (crt, None)
    end.

(** [translateAnnotations(crt, ingLikeAnnotations)]: the certificate behind
    [crt] after the call, and the returned error. *)
Definition translateAnnotations (crt : option cmapi.Certificate.t)
    (ingLikeAnnotations : gmap string string)
  : option cmapi.Certificate.t * option error :=
  match crt with
  | None => (None, Some errNilCertificate)
  | Some crt =>
      let '(crt', err) :=
        andThen (commonNameBlock ingLikeAnnotations)
          (andThen (durationBlock ingLikeAnnotations)
             (andThen (renewBeforeBlock ingLikeAnnotations)
                (usagesBlock ingLikeAnnotations))) crt in
      (Some crt', err)
  end.

End Translate.

(** [m[key] = value] when [value != ""]. *)
Definition setIfNonEmpty (key value : string) (m : gmap string string)
  : gmap string string :=
  if String.eqb value "" then m else <[key := value]> m.

(** [convertVsCmSpecToAnnotations]; the three last assignments all write
    [cmapi.DurationAnnotationKey], as in the source. *)
Definition convertVsCmSpecToAnnotations (vsCmSpec : option vsapi.CertManager.t)
  : outcome (gmap string string * option error) :=
  spec ← deref vsCmSpec;
  let ingLikeAnnotations : gmap string string := ∅ in
  let ingLikeAnnotations :=
    setIfNonEmpty cmapi.CommonNameAnnotationKey (vsapi.CertManager.CommonName spec)
      ingLikeAnnotations in
  let ingLikeAnnotations :=
    setIfNonEmpty cmapi.DurationAnnotationKey (vsapi.CertManager.Duration spec)
      ingLikeAnnotations in
  let ingLikeAnnotations :=
    setIfNonEmpty cmapi.DurationAnnotationKey (vsapi.CertManager.RenewBefore spec)
      ingLikeAnnotations in
  let ingLikeAnnotations :=
    setIfNonEmpty cmapi.DurationAnnotationKey (vsapi.CertManager.Usages spec)
      ingLikeAnnotations in
  Returns (ingLikeAnnotations, None).

Definition getVsCmSpecShimAnnotations (vsCmSpec : option vsapi.CertManager.t)
  : outcome (gmap string string * option error) :=
  spec ← deref vsCmSpec;
  let ingLikeAnnotations : gmap string string := ∅ in
  let ingLikeAnnotations :=
    setIfNonEmpty cmapi.IngressClusterIssuerNameAnnotationKey
      (vsapi.CertManager.ClusterIssuer spec) ingLikeAnnotations in
  let ingLikeAnnotations :=
    setIfNonEmpty cmapi.IngressIssuerNameAnnotationKey
      (vsapi.CertManager.Issuer spec) ingLikeAnnotations in
  Returns (ingLikeAnnotations, None).

(** [getVsCmSpecIssuerAnnotations]: a nil map goes back with the error of
    [getVsCmSpecShimAnnotations], which is [None] here. *)
Definition getVsCmSpecIssuerAnnotations (vsCmSpec : option vsapi.CertManager.t)
  : outcome (option (gmap string string) * option error) :=
  '(ingLikeAnnotations, err) ← getVsCmSpecShimAnnotations vsCmSpec;
  match err with
  | Some err => Returns (None, Some err)
  | None =>
      spec ← deref vsCmSpec;
      let ingLikeAnnotations :=
        setIfNonEmpty cmapi.IssuerKindAnnotationKey
          (vsapi.CertManager.IssuerKind spec) ingLikeAnnotations in
      let ingLikeAnnotations :=
        setIfNonEmpty cmapi.IssuerGroupAnnotationKey
          (vsapi.CertManager.IssuerGroup spec) ingLikeAnnotations in
      Returns (Some ingLikeAnnotations, None)
  end.

(** [cache.SplitMetaNamespaceKey]: ["name"], ["namespace/name"], or an error
    (reported here by [None], its text is never read). *)
Definition SplitMetaNamespaceKey (key : string) : option (string * string) :=
  match Split key "/" with
  | [name] => Some ("", name)
  | [namespace; name] => Some (namespace, name)
  | _ => None
  end.

(** The function [certificateHandler(queue)] returns, as the list of the
    [queue.Add] calls it makes on a notification. *)
Definition certificateHandler (obj : Obj) : list QueueItem :=
  match obj with
  | CertificateObj crt =>
      match GetControllerOf crt with
      | None => []
      | Some ref =>
          if negb (String.eqb (metav1.OwnerReference.Kind ref) "VirtualServer")
          then []
          else [KeyItem (GetNamespace crt +:+ "/" +:+ metav1.OwnerReference.Name ref)]
      end
  | _ => []
  end.

(** [cache.ResourceEventHandlerFuncs], each function as the list of its
    [queue.Add] calls; an unchecked type assertion on another type panics. *)
Record ResourceEventHandlerFuncs : Type := {
  AddFunc : Obj -> outcome (list QueueItem);
  UpdateFunc : Obj -> Obj -> outcome (list QueueItem);
  DeleteFunc : Obj -> outcome (list QueueItem)
}.

(** The unchecked type assertion of [obj] to a VirtualServer pointer. *)
Definition assertVirtualServer (obj : Obj) : outcome vsapi.VirtualServer.t :=
  match obj with
  | VirtualServerObj vs => Returns vs
  | _ => Panics failedTypeAssertion
  end.

Definition createVirtualServerHandlers : ResourceEventHandlerFuncs :=
  {| AddFunc := fun obj =>
       vs ← assertVirtualServer obj;
       Returns [VirtualServerItem vs];
     DeleteFunc := fun obj =>
       match obj with
       | VirtualServerObj vs => Returns [VirtualServerItem vs]
       | DeletedFinalStateUnknownObj _ (VirtualServerObj vs) =>
           Returns [VirtualServerItem vs]
       | _ => Returns []
       end;
     UpdateFunc := fun old cur =>
       curVs ← assertVirtualServer cur;
       oldVs ← assertVirtualServer old;
       if negb (bool_decide
                  (vsapi.TLS.CertManager
                     (vsapi.VirtualServerSpec.TLS (vsapi.VirtualServer.Spec oldVs))
                   = vsapi.TLS.CertManager
                       (vsapi.VirtualServerSpec.TLS (vsapi.VirtualServer.Spec curVs))))
       then Returns [VirtualServerItem curVs]
       else Returns [] |}.

(** * The sync file *)

(** [p != nil], and the [ok] of a map read kept as an [option]. *)
Definition notNil {A : Type} (p : option A) : bool :=
  match p with
  | Some _ => true
  | None => false
  end.


Definition reasonBadConfig : string := "BadConfig".
Definition reasonCreateCertificate : string := "CreateCertificate".
Definition reasonUpdateCertificate : string := "UpdateCertificate".
Definition reasonDeleteCertificate : string := "DeleteCertificate".

(** [vsapi.SchemeGroupVersion.WithKind("VirtualServer")]. *)
Definition vsGVK `{GoLibraries} : schema.GroupVersionKind.t :=
  {| schema.GroupVersionKind.Group := SchemeGroup;
     schema.GroupVersionKind.Version := SchemeVersion;
     schema.GroupVersionKind.Kind := "VirtualServer" |}.

(** [fmt.Sprintf("both %q and %q may not be set", first, second)]. *)
Definition bothMayNotBeSet (first second : string) : string :=
  "both " +:+ quote first +:+ " and " +:+ quote second +:+ " may not be set".

(** [errs = append(errs, msg)] when [cond] holds. *)
Definition appendIf (cond : bool) (msg : string) (errs : list string) : list string :=
  if cond then errs ++ [msg] else errs.

(** [issuerForIngressLike(defaults, vs)]: the results [name, kind, group, err]. *)
Definition issuerForIngressLike (defaults : controller.IngressShimOptions.t)
    (vs : vsapi.VirtualServer.t) : outcome (string * string * string * option error) :=
  let errs : list string := [] in
  let name := controller.IngressShimOptions.DefaultIssuerName defaults in
  let kind := controller.IngressShimOptions.DefaultIssuerKind defaults in
  let group := controller.IngressShimOptions.DefaultIssuerGroup defaults in
  '(annotations, err) ← getVsCmSpecIssuerAnnotations
      (vsapi.TLS.CertManager (vsapi.VirtualServerSpec.TLS (vsapi.VirtualServer.Spec vs)));
  match err with
  | Some err => Returns ("", "", "", Some err)
  | None =>
      let annotations : gmap string string :=
        match annotations with
        | None => ∅
        | Some annotations => annotations
        end in
      let issuerName := annotations !! cmapi.IngressIssuerNameAnnotationKey in
      let issuerNameOK := notNil issuerName in
      let '(name, kind) :=
        match issuerName with
        | Some issuerName => (issuerName, cmapi.IssuerKind)
        | None => (name, kind)
        end in
      let clusterIssuerName := annotations !! cmapi.IngressClusterIssuerNameAnnotationKey in
      let clusterIssuerNameOK := notNil clusterIssuerName in
      let '(name, kind) :=
        match clusterIssuerName with
        | Some clusterIssuerName => (clusterIssuerName, cmapi.ClusterIssuerKind)
        | None => (name, kind)
        end in
      let kindName := annotations !! cmapi.IssuerKindAnnotationKey in
      let kindNameOK := notNil kindName in
      let kind :=
        match kindName with
        | Some kindName => kindName
        | None => kind
        end in
      let groupName := annotations !! cmapi.IssuerGroupAnnotationKey in
      let groupNameOK := notNil groupName in
      let group :=
        match groupName with
        | Some groupName => groupName
        | None => group
        end in
      let errs :=
        appendIf (Nat.eqb (String.length name) 0)
          "failed to determine issuer name to be used for virtualserver resource" errs in
      let errs :=
        appendIf (issuerNameOK && clusterIssuerNameOK)
          (bothMayNotBeSet cmapi.IngressIssuerNameAnnotationKey
             cmapi.IngressClusterIssuerNameAnnotationKey) errs in
      let errs :=
        appendIf (clusterIssuerNameOK && groupNameOK)
          (bothMayNotBeSet cmapi.IngressClusterIssuerNameAnnotationKey
             cmapi.IssuerGroupAnnotationKey) errs in
      let errs :=
        appendIf (clusterIssuerNameOK && kindNameOK)
          (bothMayNotBeSet cmapi.IngressClusterIssuerNameAnnotationKey
             cmapi.IssuerKindAnnotationKey) errs in
      if Nat.ltb 0 (length errs)
      then Returns ("", "", "", Some (errorsNew (Join errs ", ")))
      else Returns (name, kind, group, None)
  end.

(** The loop of [certNeedsUpdate] over the indices of [a.Spec.DNSNames], run
    once the two lengths are known to be equal. *)
Fixpoint dnsNamesDiffer (a b : list string) : bool :=
  match a, b with
  | x :: a', y :: b' => if negb (String.eqb x y) then true else dnsNamesDiffer a' b'
  | _, _ => false
  end.

(** [certNeedsUpdate(a, b)]. *)
Definition certNeedsUpdate (a b : cmapi.Certificate.t) : bool :=
  let sa := cmapi.Certificate.Spec a in
  let sb := cmapi.Certificate.Spec b in
  if negb (String.eqb (GetName a) (GetName b)) then true
  else if negb (bool_decide (GetLabels a = GetLabels b)) then true
  else if negb (String.eqb (cmapi.CertificateSpec.CommonName sa)
                  (cmapi.CertificateSpec.CommonName sb)) then true
  else if negb (Nat.eqb (length (cmapi.CertificateSpec.DNSNames sa))
                  (length (cmapi.CertificateSpec.DNSNames sb))) then true
  else if dnsNamesDiffer (cmapi.CertificateSpec.DNSNames sa)
            (cmapi.CertificateSpec.DNSNames sb) then true
  else if negb (String.eqb (cmapi.CertificateSpec.SecretName sa)
                  (cmapi.CertificateSpec.SecretName sb)) then true
  else if negb (String.eqb
                  (cmmeta.ObjectReference.Name (cmapi.CertificateSpec.IssuerRef sa))
                  (cmmeta.ObjectReference.Name (cmapi.CertificateSpec.IssuerRef sb)))
       then true
  else if negb (String.eqb
                  (cmmeta.ObjectReference.Kind (cmapi.CertificateSpec.IssuerRef sa))
                  (cmmeta.ObjectReference.Kind (cmapi.CertificateSpec.IssuerRef sb)))
       then true
  else false.

(** [secretNameUsedIn(secretName, vs)]. *)
Definition secretNameUsedIn (secretName : string) (vs : vsapi.VirtualServer.t) : bool :=
  String.eqb secretName
    (vsapi.TLS.Secret (vsapi.VirtualServerSpec.TLS (vsapi.VirtualServer.Spec vs))).

(** The loop of [findCertificatesToBeRemoved], from a given [toBeRemoved]. *)
Fixpoint removalLoop (certs : list cmapi.Certificate.t) (vs : vsapi.VirtualServer.t)
    (toBeRemoved : list string) : list string :=
  match certs with
  | [] => toBeRemoved
  | crt :: rest =>
      if negb (IsControlledBy crt vs) then removalLoop rest vs toBeRemoved
      else if negb (secretNameUsedIn
                      (cmapi.CertificateSpec.SecretName (cmapi.Certificate.Spec crt)) vs)
           then removalLoop rest vs (toBeRemoved ++ [GetName crt])
           else removalLoop rest vs toBeRemoved
  end.

(** [findCertificatesToBeRemoved(certs, vs)]. *)
Definition findCertificatesToBeRemoved (certs : list cmapi.Certificate.t)
    (vs : vsapi.VirtualServer.t) : list string :=
  removalLoop certs vs [].

Section Sync.
Context `{GoLibraries} {W : Type} `{Cluster W}.

(** The certificate literal [buildCertificates] starts from. *)
Definition desiredCertificate (vs : vsapi.VirtualServer.t) (hosts : list string)
    (issuerName issuerKind issuerGroup : string) : cmapi.Certificate.t :=
  let secret :=
    vsapi.TLS.Secret (vsapi.VirtualServerSpec.TLS (vsapi.VirtualServer.Spec vs)) in
  {| cmapi.Certificate.ObjectMeta :=
       {| metav1.ObjectMeta.Name := secret;
          metav1.ObjectMeta.Namespace := GetNamespace vs;
          metav1.ObjectMeta.UID := "";
          metav1.ObjectMeta.ResourceVersion := "";
          metav1.ObjectMeta.Labels := GetLabels vs;
          metav1.ObjectMeta.Annotations := None;
          metav1.ObjectMeta.OwnerReferences := [NewControllerRef vs vsGVK] |};
     cmapi.Certificate.Spec :=
       {| cmapi.CertificateSpec.CommonName := "";
          cmapi.CertificateSpec.Duration := None;
          cmapi.CertificateSpec.RenewBefore := None;
          cmapi.CertificateSpec.DNSNames := hosts;
          cmapi.CertificateSpec.SecretName := secret;
          cmapi.CertificateSpec.IssuerRef :=
            {| cmmeta.ObjectReference.Name := issuerName;
               cmmeta.ObjectReference.Kind := issuerKind;
               cmmeta.ObjectReference.Group := issuerGroup |};
          cmapi.CertificateSpec.Usages := DefaultKeyUsages |} |}.

(** The lines logged in the [existingCrt != nil] branch. *)
Definition existingLogLines (existingCrt crt : cmapi.Certificate.t)
    (vs : vsapi.VirtualServer.t) : list LogLine :=
  [LogInfo DebugLevel
     "certificate already exists for this object, ensuring it is up to date"]
  ++ (if bool_decide (GetControllerOf existingCrt = None)
      then [LogInfo InfoLevel
              "certificate resource has no owner. refusing to update non-owned certificate resource for object"]
      else [])
  ++ (if negb (IsControlledBy existingCrt vs)
      then [LogInfo InfoLevel
              "certificate resource is not owned by this object. refusing to update non-owned certificate resource for object"]
      else [])
  ++ (if negb (certNeedsUpdate existingCrt crt)
      then [LogInfo DebugLevel "certificate resource is already up to date for object"]
      else []).

(** [buildCertificates(rec, log, cmLister, vs, issuerName, issuerKind,
    issuerGroup)] against the cluster [w]: the lines it logs and its results
    [new, update, err]. *)
Definition buildCertificates (w : W) (vs : vsapi.VirtualServer.t)
    (issuerName issuerKind issuerGroup : string)
  : outcome (list LogLine
             * (list cmapi.Certificate.t * list cmapi.Certificate.t * option error)) :=
  let newCrts : list cmapi.Certificate.t := [] in
  let updateCrts : list cmapi.Certificate.t := [] in
  let hosts : list string := [] ++ [vsapi.VirtualServerSpec.Host (vsapi.VirtualServer.Spec vs)] in
  let '(existingCrt, err) :=
    CertificatesGet w (GetNamespace vs)
      (vsapi.TLS.Secret (vsapi.VirtualServerSpec.TLS (vsapi.VirtualServer.Spec vs))) in
  if negb (IsNotFound err) && notNil err then Returns ([], ([], [], err))
  else
    let crt := desiredCertificate vs hosts issuerName issuerKind issuerGroup in
    '(a, err) ← convertVsCmSpecToAnnotations
        (vsapi.TLS.CertManager (vsapi.VirtualServerSpec.TLS (vsapi.VirtualServer.Spec vs)));
    match err with
    | Some err => Returns ([], ([], [], Some err))
    | None =>
        match translateAnnotations (Some crt) a with
        | (_, Some err) => Returns ([], ([], [], Some err))
        | (crt, None) =>
            crt ← deref crt;
            match existingCrt with
            | Some existingCrt =>
                let updateCrt := existingCrt in
                let updateCrt := setSpec updateCrt (cmapi.Certificate.Spec crt) in
                let updateCrt := setLabels updateCrt (GetLabels crt) in
                Returns (existingLogLines existingCrt crt vs,
                         (newCrts, updateCrts ++ [updateCrt], None))
            | None => Returns ([], (newCrts ++ [crt], updateCrts, None))
            end
        end
    end.

(** The three loops of the sync function; each stops at the first failed
    request and returns its error. *)
Fixpoint createLoop (vs : vsapi.VirtualServer.t) (newCrts : list cmapi.Certificate.t)
    (p : Pass W) : Pass W * option error :=
  match newCrts with
  | [] => (p, None)
  | crt :: rest =>
      let '(w', err) := CertificatesCreate (cluster p) (GetNamespace crt) crt in
      let p := sent p w' (CreateCall (GetNamespace crt) crt) in
      match err with
      | Some err => (p, Some err)
      | None =>
          createLoop vs rest
            (recorded p (Eventf vs EventTypeNormal reasonCreateCertificate
                           "Successfully created Certificate %q"
                           [ArgString (GetName crt)]))
      end
  end.

Fixpoint updateLoop (vs : vsapi.VirtualServer.t) (updateCrts : list cmapi.Certificate.t)
    (p : Pass W) : Pass W * option error :=
  match updateCrts with
  | [] => (p, None)
  | crt :: rest =>
      let '(w', err) := CertificatesUpdate (cluster p) (GetNamespace crt) crt in
      let p := sent p w' (UpdateCall (GetNamespace crt) crt) in
      match err with
      | Some err => (p, Some err)
      | None =>
          updateLoop vs rest
            (recorded p (Eventf vs EventTypeNormal reasonUpdateCertificate
                           "Successfully updated Certificate %q"
                           [ArgString (GetName crt)]))
      end
  end.

Fixpoint deleteLoop (vs : vsapi.VirtualServer.t) (unrequiredCertNames : list string)
    (p : Pass W) : Pass W * option error :=
  match unrequiredCertNames with
  | [] => (p, None)
  | certName :: rest =>
      let '(w', err) := CertificatesDelete (cluster p) (GetNamespace vs) certName in
      let p := sent p w' (DeleteCall (GetNamespace vs) certName) in
      match err with
      | Some err => (p, Some err)
      | None =>
          deleteLoop vs rest
            (recorded p (Eventf vs EventTypeNormal reasonDeleteCertificate
                           "Successfully deleted unrequired Certificate %q"
                           [ArgString certName]))
      end
  end.

(** The function [SyncFnFor(rec, log, cmClient, cmLister, defaults)]
    returns, run on the cluster [w]: what the pass did, and its error. *)
Definition SyncFnFor (defaults : controller.IngressShimOptions.t)
    (w : W) (vs : vsapi.VirtualServer.t) : outcome (Pass W * option error) :=
  let p := startPass w in
  '(issuerName, issuerKind, issuerGroup, err) ← issuerForIngressLike defaults vs;
  match err with
  | Some err =>
      let p :=
        logged p [LogError err "failed to determine issuer to be used for ingress resource"] in
      let p :=
        recorded p (Eventf vs EventTypeWarning reasonBadConfig
                      "Could not determine issuer for ingress due to bad annotations: %s"
                      [ArgError err]) in
      Returns (p, None)
  | None =>
      '(lines, (newCrts, updateCrts, err)) ←
        buildCertificates (cluster p) vs issuerName issuerKind issuerGroup;
      let p := logged p lines in
      match err with
      | Some err => Returns (p, Some err)
      | None =>
          match createLoop vs newCrts p with
          | (p, Some err) => Returns (p, Some err)
          | (p, None) =>
              match updateLoop vs updateCrts p with
              | (p, Some err) => Returns (p, Some err)
              | (p, None) =>
                  match CertificatesList (cluster p) (GetNamespace vs) with
                  | (_, Some err) => Returns (p, Some err)
                  | (certs, None) =>
                      let unrequiredCertNames := findCertificatesToBeRemoved certs vs in
                      Returns (deleteLoop vs unrequiredCertNames p)
                  end
              end
          end
      end
  end.

(** [(c *cmController) ProcessItem(ctx, key)] for a controller whose [sync]
    field is [sync]. *)
Definition ProcessItem (sync : W -> vsapi.VirtualServer.t -> outcome (Pass W * option error))
    (w : W) (key : string) : outcome (Pass W * option error) :=
  match SplitMetaNamespaceKey key with
  | None => Returns (startPass w, None)
  | Some (namespace, name) =>
      match VirtualServersGet w namespace name with
      | (_, Some err) =>
          if IsNotFound (Some err) then Returns (startPass w, None)
          else Returns (startPass w, Some err)
      | (crt, None) =>
          vs ← deref crt;
          sync w vs
      end
  end.

End Sync.

(** * Reference instances, for the examples *)

(** [time.ParseDuration] of the Go standard library, on the bytes of its
    argument.  The two [uint64] accumulators are integers that the bounds
    checks keep under [2^64]; the fraction of a term goes through [float64]
    arithmetic, which is IEEE 754 binary64 ([SpecFloat] at precision 53). *)
Module GoTime.
Local Open Scope Z_scope.

Definition float64 (n : Z) : spec_float := binary_normalize 53 1024 n 0 false.
Definition mul64 : spec_float -> spec_float -> spec_float := SFmul 53 1024.
Definition div64 : spec_float -> spec_float -> spec_float := SFdiv 53 1024.

(** The conversion [uint64(x)] of a float that is not negative: truncation. *)
Definition uint64 (x : spec_float) : Z :=
  match x with
  | S754_finite false m e => if 0 <=? e then Z.pos m * 2 ^ e else Z.pos m / 2 ^ (- e)
  | _ => 0
  end.

Definition code (c : ascii) : Z := Z.of_nat (nat_of_ascii c).
Definition isDigit (c : ascii) : bool := (48 <=? code c) && (code c <=? 57).
Definition digit (c : ascii) : Z := code c - 48.

Definition lowerhex (n : Z) : ascii :=
  ascii_of_nat (Z.to_nat (if n <? 10 then 48 + n else 87 + n)).

(** The body of the package's [quote]: bytes outside printable ASCII as
    [\xNN], a backslash before a quote or a backslash. *)
Fixpoint quoteBytes (s : string) : string :=
  match s with
  | EmptyString => EmptyString
  | String c rest =>
      if (128 <=? code c) || (code c <? 32)
      then String "\" (String "x" (String (lowerhex (code c / 16))
             (String (lowerhex (code c mod 16)) (quoteBytes rest))))
      else if (code c =? 34) || (code c =? 92)
      then String "\" (String c (quoteBytes rest))
      else String c (quoteBytes rest)
  end.

Definition quote (s : string) : string := doubleQuote +:+ quoteBytes s +:+ doubleQuote.

(** [leadingInt], from the value [x] read so far; [None] is
    [errLeadingInt]. *)
Fixpoint leadingInt (s : string) (x : Z) : option (Z * string) :=
  match s with
  | String c rest =>
      if isDigit c then
        if 2 ^ 63 / 10 <? x then None
        else let x := x * 10 + digit c in
             if 2 ^ 63 <? x then None else leadingInt rest x
      else Some (x, s)
  | EmptyString => Some (x, s)
  end.

(** [leadingFraction], from the state [x, scale, overflow] of its loop. *)
Fixpoint leadingFraction (s : string) (x : Z) (scale : spec_float) (overflow : bool)
  : Z * spec_float * string :=
  match s with
  | String c rest =>
      if isDigit c then
        if overflow then leadingFraction rest x scale overflow
        else if (2 ^ 63 - 1) / 10 <? x then leadingFraction rest x scale true
        else let y := x * 10 + digit c in
             if 2 ^ 63 <? y then leadingFraction rest x scale true
             else leadingFraction rest y (mul64 scale (float64 10)) false
      else (x, scale, s)
  | EmptyString => (x, scale, s)
  end.

(** The unit of a term: the bytes up to the next digit or period. *)
Fixpoint unitOf (s : string) : string * string :=
  match s with
  | String c rest =>
      if Ascii.eqb c "." || isDigit c then (EmptyString, s)
      else let '(u, s') := unitOf rest in (String c u, s')
  | EmptyString => (EmptyString, EmptyString)
  end.

Definition microSign : string := String (ascii_of_nat 194) (String (ascii_of_nat 181) "s").
Definition greekMu : string := String (ascii_of_nat 206) (String (ascii_of_nat 188) "s").

Definition unitMap : list (string * Z) :=
  [("ns", 1); ("us", 1000); (microSign, 1000); (greekMu, 1000);
   ("ms", 1000000); ("s", 1000000000); ("m", 60000000000); ("h", 3600000000000)].

Fixpoint lookup (u : string) (m : list (string * Z)) : option Z :=
  match m with
  | [] => None
  | (k, v) :: m' => if String.eqb k u then Some v else lookup u m'
  end.

Definition invalidDuration (orig : string) : Z * option error :=
  (0, Some (errorsNew ("time: invalid duration " +:+ quote orig))).

Definition lengthZ (s : string) : Z := Z.of_nat (String.length s).

(** The loop [for s != ""] over the terms, from the total [d].  The loop has
    no bound of its own in the source; here [fuel] bounds its rounds and [None]
    says that the bound was reached.  Every round consumes at least the first
    byte of its unit, so the length of [s] is fuel enough
    ([terms_enough_fuel] below). *)
Fixpoint terms (fuel : nat) (orig s : string) (d : Z) : option (Z * option error) :=
  match s with
  | EmptyString => Some (d, None)
  | String c _ =>
      match fuel with
      | O => None
      | S fuel =>
          if negb (Ascii.eqb c "." || isDigit c) then Some (invalidDuration orig)
          else
            match leadingInt s 0 with
            | None => Some (invalidDuration orig)
            | Some (v, s1) =>
                let pre := negb (lengthZ s =? lengthZ s1) in
                let '(f, scale, s2, post) :=
                  match s1 with
                  | String c1 s1' =>
                      if Ascii.eqb c1 "." then
                        let '(f, scale, s2) := leadingFraction s1' 0 (float64 1) false in
                        (f, scale, s2, negb (lengthZ s1' =? lengthZ s2))
                      else (0, float64 1, s1, false)
                  | EmptyString => (0, float64 1, s1, false)
                  end in
                if negb pre && negb post then Some (invalidDuration orig)
                else
                  let '(u, s3) := unitOf s2 in
                  if String.eqb u "" then
                    Some (0, Some (errorsNew ("time: missing unit in duration "
                                              +:+ quote orig)))
                  else
                    match lookup u unitMap with
                    | None =>
                        Some (0, Some (errorsNew ("time: unknown unit " +:+ quote u
                                                  +:+ " in duration " +:+ quote orig)))
                    | Some unit =>
                        if 2 ^ 63 / unit <? v then Some (invalidDuration orig)
                        else
                          let v := v * unit in
                          let v :=
                            if 0 <? f
                            then v + uint64 (mul64 (float64 f)
                                               (div64 (float64 unit) scale))
                            else v in
                          if (0 <? f) && (2 ^ 63 <? v) then Some (invalidDuration orig)
                          else
                            let d := (d + v) mod 2 ^ 64 in
                            if 2 ^ 63 <? d then Some (invalidDuration orig)
                            else terms fuel orig s3 d
                    end
            end
      end
  end.

Definition ParseDuration (s : string) : Z * option error :=
  let orig := s in
  let '(neg, s) :=
    match s with
    | String c rest =>
        if Ascii.eqb c "-" then (true, rest)
        else if Ascii.eqb c "+" then (false, rest)
        else (false, s)
    | EmptyString => (false, s)
    end in
  if String.eqb s "0" then (0, None)
  else if String.eqb s "" then invalidDuration orig
  else
    match terms (String.length s) orig s 0 with
    | None => invalidDuration orig
    | Some (_, Some err) => (0, Some err)
    | Some (d, None) =>
        if neg then (- d, None)
        else if 2 ^ 63 - 1 <? d then invalidDuration orig
        else (d, None)
    end.

End GoTime.

(** The names cert-manager's [pkg/api/util] knows, with the values of
    [crypto/x509] they stand for. *)
Module apiutil.

Definition keyUsages : list (cmapi.KeyUsage * Z) :=
  [("signing", 1); ("digital signature", 1); ("content commitment", 2);
   ("key encipherment", 4); ("key agreement", 16); ("data encipherment", 8);
   ("cert sign", 32); ("crl sign", 64); ("encipher only", 128);
   ("decipher only", 256)]%Z.

Definition extKeyUsages : list (cmapi.KeyUsage * Z) :=
  [("any", 0); ("server auth", 1); ("client auth", 2); ("code signing", 3);
   ("email protection", 4); ("s/mime", 4); ("ipsec end system", 5);
   ("ipsec tunnel", 6); ("ipsec user", 7); ("timestamping", 8);
   ("ocsp signing", 9); ("microsoft sgc", 10); ("netscape sgc", 11)]%Z.

(** A map read [v, ok := m[usage]]. *)
Definition commaOk (m : list (cmapi.KeyUsage * Z)) (usage : cmapi.KeyUsage) : Z * bool :=
  match GoTime.lookup usage m with
  | Some v => (v, true)
  | None => (0%Z, false)
  end.

Definition KeyUsageType : cmapi.KeyUsage -> Z * bool := commaOk keyUsages.
Definition ExtKeyUsageType : cmapi.KeyUsage -> Z * bool := commaOk extKeyUsages.

End apiutil.

Definition referenceLibraries : GoLibraries :=
  {| ParseDuration := GoTime.ParseDuration;
     KeyUsageType := apiutil.KeyUsageType;
     ExtKeyUsageType := apiutil.ExtKeyUsageType;
     DefaultKeyUsages := ["digital signature"; "key encipherment"];
     SchemeGroup := "k8s.nginx.org";
     SchemeVersion := "v1" |}.

(** An in-memory cluster in the manner of client-go's fake clientset: the
    listers read the objects the client has written. *)
Module Fake.

Record World : Type := Build {
  certificates : list cmapi.Certificate.t;
  virtualServers : list vsapi.VirtualServer.t
}.

Definition named {A : Type} `{Object A} (namespace name : string) (o : A) : bool :=
  String.eqb (GetNamespace o) namespace && String.eqb (GetName o) name.

Definition errNotFound (name : string) : error :=
  StatusError StatusReasonNotFound (quote name +:+ " not found").
Definition errAlreadyExists (name : string) : error :=
  StatusError "AlreadyExists" (quote name +:+ " already exists").

Definition get {A : Type} `{Object A} (objects : list A) (namespace name : string)
  : option A * option error :=
  match List.find (named namespace name) objects with
  | Some o => (Some o, None)
  | None => (None, Some (errNotFound name))
  end.

Definition withCertificates (w : World) (crts : list cmapi.Certificate.t) : World :=
  {| certificates := crts; virtualServers := virtualServers w |}.

Definition create (w : World) (namespace : string) (crt : cmapi.Certificate.t)
  : World * option error :=
  match List.find (named namespace (GetName crt)) (certificates w) with
  | Some _ => (w, Some (errAlreadyExists (GetName crt)))
  | None => (withCertificates w (certificates w ++ [crt]), None)
  end.

Definition update (w : World) (namespace : string) (crt : cmapi.Certificate.t)
  : World * option error :=
  match List.find (named namespace (GetName crt)) (certificates w) with
  | Some _ =>
      (withCertificates w
         (List.map (fun old => if named namespace (GetName crt) old then crt else old)
            (certificates w)), None)
  | None => (w, Some (errNotFound (GetName crt)))
  end.

Definition delete (w : World) (namespace name : string) : World * option error :=
  match List.find (named namespace name) (certificates w) with
  | Some _ =>
      (withCertificates w
         (List.filter (fun old => negb (named namespace name old)) (certificates w)), None)
  | None => (w, Some (errNotFound name))
  end.

Definition fakeCluster : Cluster World :=
  {| CertificatesGet := fun w => get (certificates w);
     CertificatesList := fun w namespace =>
       (List.filter (fun crt => String.eqb (GetNamespace crt) namespace)
          (certificates w), None);
     VirtualServersGet := fun w => get (virtualServers w);
     CertificatesCreate := create;
     CertificatesUpdate := update;
     CertificatesDelete := delete |}.

End Fake.

(** ** Example resources *)

Module Examples.

Definition defaults : controller.IngressShimOptions.t :=
  {| controller.IngressShimOptions.DefaultIssuerName := "letsencrypt";
     controller.IngressShimOptions.DefaultIssuerKind := "ClusterIssuer";
     controller.IngressShimOptions.DefaultIssuerGroup := "" |}.

(** A config block with every field empty. *)
Definition emptyConfig : vsapi.CertManager.t :=
  {| vsapi.CertManager.ClusterIssuer := "";
     vsapi.CertManager.Issuer := "";
     vsapi.CertManager.IssuerKind := "";
     vsapi.CertManager.IssuerGroup := "";
     vsapi.CertManager.CommonName := "";
     vsapi.CertManager.Duration := "";
     vsapi.CertManager.RenewBefore := "";
     vsapi.CertManager.Usages := "" |}.

(** The block of the comment above [convertVsCmSpecToAnnotations]. *)
Definition documentedConfig : vsapi.CertManager.t :=
  {| vsapi.CertManager.ClusterIssuer := "";
     vsapi.CertManager.Issuer := "";
     vsapi.CertManager.IssuerKind := "";
     vsapi.CertManager.IssuerGroup := "";
     vsapi.CertManager.CommonName := "example.com";
     vsapi.CertManager.Duration := "2160h";
     vsapi.CertManager.RenewBefore := "1440h";
     vsapi.CertManager.Usages := "digital signature,key encipherment" |}.

Definition conflictingConfig : vsapi.CertManager.t :=
  {| vsapi.CertManager.ClusterIssuer := "my-cluster-issuer";
     vsapi.CertManager.Issuer := "my-issuer";
     vsapi.CertManager.IssuerKind := "";
     vsapi.CertManager.IssuerGroup := "";
     vsapi.CertManager.CommonName := "";
     vsapi.CertManager.Duration := "";
     vsapi.CertManager.RenewBefore := "";
     vsapi.CertManager.Usages := "" |}.

Definition badDurationConfig : vsapi.CertManager.t :=
  {| vsapi.CertManager.ClusterIssuer := "";
     vsapi.CertManager.Issuer := "";
     vsapi.CertManager.IssuerKind := "";
     vsapi.CertManager.IssuerGroup := "";
     vsapi.CertManager.CommonName := "";
     vsapi.CertManager.Duration := "abc";
     vsapi.CertManager.RenewBefore := "";
     vsapi.CertManager.Usages := "" |}.

(** VirtualServer [default/vs1] for host [example.com] and secret
    [example-tls], with a given cert-manager block. *)
Definition vs1 (config : option vsapi.CertManager.t) : vsapi.VirtualServer.t :=
  {| vsapi.VirtualServer.ObjectMeta :=
       {| metav1.ObjectMeta.Name := "vs1";
          metav1.ObjectMeta.Namespace := "default";
          metav1.ObjectMeta.UID := "uid-vs1";
          metav1.ObjectMeta.ResourceVersion := "1";
          metav1.ObjectMeta.Labels := None;
          metav1.ObjectMeta.Annotations := None;
          metav1.ObjectMeta.OwnerReferences := [] |};
     vsapi.VirtualServer.Spec :=
       {| vsapi.VirtualServerSpec.Host := "example.com";
          vsapi.VirtualServerSpec.TLS :=
            {| vsapi.TLS.Secret := "example-tls";
               vsapi.TLS.CertManager := config |} |} |}.

Definition ownerRef (kind name uid : string) (isController : option bool)
  : metav1.OwnerReference.t :=
  {| metav1.OwnerReference.APIVersion := "k8s.nginx.org/v1";
     metav1.OwnerReference.Kind := kind;
     metav1.OwnerReference.Name := name;
     metav1.OwnerReference.UID := uid;
     metav1.OwnerReference.Controller := isController;
     metav1.OwnerReference.BlockOwnerDeletion := Some true |}.

(** A stored Certificate of namespace [default] for host [example.com],
    issued by the default issuer. *)
Definition certificate (name secretName : string)
    (owners : list metav1.OwnerReference.t) : cmapi.Certificate.t :=
  {| cmapi.Certificate.ObjectMeta :=
       {| metav1.ObjectMeta.Name := name;
          metav1.ObjectMeta.Namespace := "default";
          metav1.ObjectMeta.UID := "uid-" +:+ name;
          metav1.ObjectMeta.ResourceVersion := "7";
          metav1.ObjectMeta.Labels := None;
          metav1.ObjectMeta.Annotations := None;
          metav1.ObjectMeta.OwnerReferences := owners |};
     cmapi.Certificate.Spec :=
       {| cmapi.CertificateSpec.CommonName := "";
          cmapi.CertificateSpec.Duration := None;
          cmapi.CertificateSpec.RenewBefore := None;
          cmapi.CertificateSpec.DNSNames := ["example.com"];
          cmapi.CertificateSpec.SecretName := secretName;
          cmapi.CertificateSpec.IssuerRef :=
            {| cmmeta.ObjectReference.Name := "letsencrypt";
               cmmeta.ObjectReference.Kind := "ClusterIssuer";
               cmmeta.ObjectReference.Group := "" |};
          cmapi.CertificateSpec.Usages := ["digital signature"; "key encipherment"] |} |}.

Definition ownedByVs1 : list metav1.OwnerReference.t :=
  [ownerRef "VirtualServer" "vs1" "uid-vs1" (Some true)].
Definition ownedByVs2 : list metav1.OwnerReference.t :=
  [ownerRef "VirtualServer" "vs2" "uid-vs2" (Some true)].
Definition ownedByIngress : list metav1.OwnerReference.t :=
  [ownerRef "Ingress" "ing1" "uid-ing1" (Some true)].

Definition emptyWorld : Fake.World :=
  {| Fake.certificates := []; Fake.virtualServers := [] |}.

(** A cluster that already holds the Certificate [vs1] asks for. *)
Definition worldWithCertificate : Fake.World :=
  {| Fake.certificates := [certificate "example-tls" "example-tls" ownedByVs1];
     Fake.virtualServers := [] |}.

(** The three VirtualServers of the examples, the Certificate the builder
    aims at for them under the defaults, and the error of the translator for
    the duration "abc". *)
Definition vsEmptyBlock : vsapi.VirtualServer.t := vs1 (Some emptyConfig).
Definition vsBadDuration : vsapi.VirtualServer.t := vs1 (Some badDurationConfig).
Definition vsConflict : vsapi.VirtualServer.t := vs1 (Some conflictingConfig).

Definition storedCertificate : cmapi.Certificate.t :=
  certificate "example-tls" "example-tls" ownedByVs1.

Definition desiredFor (vs : vsapi.VirtualServer.t) : cmapi.Certificate.t :=
  @desiredCertificate referenceLibraries vs ["example.com"]
    "letsencrypt" "ClusterIssuer" "".

Definition invalidDurationAbc : error :=
  fmtErrorf "%w %q: %v"
    [ArgError errInvalidIngressAnnotation;
     ArgString cmapi.DurationAnnotationKey;
     ArgError (errorsNew ("time: invalid duration " +:+ GoTime.quote "abc"))].

End Examples.

(** * Notions used in the statements *)

(** The fields of a Certificate that [translateAnnotations] never writes. *)
Definition sameOutsideTranslation (crt crt' : cmapi.Certificate.t) : Prop :=
  cmapi.Certificate.ObjectMeta crt' = cmapi.Certificate.ObjectMeta crt
  /\ cmapi.CertificateSpec.DNSNames (cmapi.Certificate.Spec crt')
     = cmapi.CertificateSpec.DNSNames (cmapi.Certificate.Spec crt)
  /\ cmapi.CertificateSpec.SecretName (cmapi.Certificate.Spec crt')
     = cmapi.CertificateSpec.SecretName (cmapi.Certificate.Spec crt)
  /\ cmapi.CertificateSpec.IssuerRef (cmapi.Certificate.Spec crt')
     = cmapi.CertificateSpec.IssuerRef (cmapi.Certificate.Spec crt).

(** The VirtualServer has a cert-manager block, and the two translation steps
    of [buildCertificates] turn the certificate [crt] into [crt'] without an
    error. *)
Definition translatesTo `{GoLibraries} (vs : vsapi.VirtualServer.t)
    (crt crt' : cmapi.Certificate.t) : Prop :=
  exists a : gmap string string,
    convertVsCmSpecToAnnotations
      (vsapi.TLS.CertManager (vsapi.VirtualServerSpec.TLS (vsapi.VirtualServer.Spec vs)))
    = Returns (a, None)
    /\ translateAnnotations (Some crt) a = (Some crt', None).

(** The VirtualServer has a cert-manager block, and [translateAnnotations]
    returns the error [err] on its annotations and the certificate [crt]. *)
Definition translationFails `{GoLibraries} (vs : vsapi.VirtualServer.t)
    (crt : cmapi.Certificate.t) (err : error) : Prop :=
  exists (a : gmap string string) (crt' : option cmapi.Certificate.t),
    convertVsCmSpecToAnnotations
      (vsapi.TLS.CertManager (vsapi.VirtualServerSpec.TLS (vsapi.VirtualServer.Spec vs)))
    = Returns (a, None)
    /\ translateAnnotations (Some crt) a = (crt', Some err).

(** [err] is the error of some request to the listers or to the client. *)
Inductive storeFailure {W : Type} `{Cluster W} (err : error) : Prop :=
| GetFailed (w : W) (namespace name : string) :
    snd (CertificatesGet w namespace name) = Some err -> storeFailure err
| ListFailed (w : W) (namespace : string) :
    snd (CertificatesList w namespace) = Some err -> storeFailure err
| CreateFailed (w : W) (namespace : string) (crt : cmapi.Certificate.t) :
    snd (CertificatesCreate w namespace crt) = Some err -> storeFailure err
| UpdateFailed (w : W) (namespace : string) (crt : cmapi.Certificate.t) :
    snd (CertificatesUpdate w namespace crt) = Some err -> storeFailure err
| DeleteFailed (w : W) (namespace name : string) :
    snd (CertificatesDelete w namespace name) = Some err -> storeFailure err.

(** The secret and the host a VirtualServer declares. *)
Definition secretOf (vs : vsapi.VirtualServer.t) : string :=
  vsapi.TLS.Secret (vsapi.VirtualServerSpec.TLS (vsapi.VirtualServer.Spec vs)).
Definition hostOf (vs : vsapi.VirtualServer.t) : string :=
  vsapi.VirtualServerSpec.Host (vsapi.VirtualServer.Spec vs).
Definition configOf (vs : vsapi.VirtualServer.t) : option vsapi.CertManager.t :=
  vsapi.TLS.CertManager (vsapi.VirtualServerSpec.TLS (vsapi.VirtualServer.Spec vs)).

(** ** Further notions *)

(** A name of the usages annotation is known when, trimmed, it is a key usage
    or an extended key usage. *)
Definition knownUsage `{GoLibraries} (usageName : string) : bool :=
  snd (KeyUsageType (Trim usageName " ")) || snd (ExtKeyUsageType (Trim usageName " ")).

(** The values of the duration, renew-before and usages keys, where present,
    are all accepted. *)
Definition validAnnotations `{GoLibraries} (a : gmap string string) : Prop :=
  (forall duration : string,
      a !! cmapi.DurationAnnotationKey = Some duration ->
      snd (ParseDuration duration) = None)
  /\ (forall renewBefore : string,
        a !! cmapi.RenewBeforeAnnotationKey = Some renewBefore ->
        snd (ParseDuration renewBefore) = None)
  /\ (forall usages : string,
        a !! cmapi.UsagesAnnotationKey = Some usages ->
        forallb knownUsage (Split usages ",") = true).

(** [value], or [fallback] when [value] is empty. *)
Definition orElse (value fallback : string) : string :=
  if String.eqb value "" then fallback else value.

(** The requests the sync function sends for a certificate, and the event it
    records after a request has succeeded. *)
Definition createCallFor (crt : cmapi.Certificate.t) : StoreCall :=
  CreateCall (GetNamespace crt) crt.
Definition updateCallFor (crt : cmapi.Certificate.t) : StoreCall :=
  UpdateCall (GetNamespace crt) crt.

Definition eventFor (vs : vsapi.VirtualServer.t) (call : StoreCall) : Event :=
  match call with
  | CreateCall _ crt =>
      Eventf vs EventTypeNormal reasonCreateCertificate
        "Successfully created Certificate %q" [ArgString (GetName crt)]
  | UpdateCall _ crt =>
      Eventf vs EventTypeNormal reasonUpdateCertificate
        "Successfully updated Certificate %q" [ArgString (GetName crt)]
  | DeleteCall _ name =>
      Eventf vs EventTypeNormal reasonDeleteCertificate
        "Successfully deleted unrequired Certificate %q" [ArgString name]
  end.

(** The namespace a request is sent to. *)
Definition callNamespace (call : StoreCall) : string :=
  match call with
  | CreateCall namespace _ => namespace
  | UpdateCall namespace _ => namespace
  | DeleteCall namespace _ => namespace
  end.

(** The request [call] sent to the cluster [w]: the cluster after it, and the
    error the client returns. *)
Definition perform {W : Type} `{Cluster W} (w : W) (call : StoreCall) : W * option error :=
  match call with
  | CreateCall namespace crt => CertificatesCreate w namespace crt
  | UpdateCall namespace crt => CertificatesUpdate w namespace crt
  | DeleteCall namespace name => CertificatesDelete w namespace name
  end.

(** The requests [requests] sent one after the other from the cluster [w], up
    to the first one that fails. *)
Fixpoint performAll {W : Type} `{Cluster W} (w : W) (requests : list StoreCall)
  : W * option error :=
  match requests with
  | [] => (w, None)
  | call :: rest =>
      match perform w call with
      | (w', None) => performAll w' rest
      | failure => failure
      end
  end.

(** Further example resources. *)
Module Scenarios.

(** Annotation maps: one without any key of the translator, the map of the
    comment above [translateAnnotations], and three with one bad value. *)
Definition ingressClassAnnotations : gmap string string :=
  <["kubernetes.io/ingress.class" := "nginx"]> ∅.

Definition documentedAnnotations : gmap string string :=
  <[cmapi.CommonNameAnnotationKey := "example.com"]>
    (<[cmapi.DurationAnnotationKey := "2160h"]>
       (<[cmapi.RenewBeforeAnnotationKey := "1440h"]>
          (<[cmapi.UsagesAnnotationKey := "digital signature,key encipherment"]> ∅))).

Definition badDurationAnnotations : gmap string string :=
  <[cmapi.CommonNameAnnotationKey := "example.com"]>
    (<[cmapi.DurationAnnotationKey := "abc"]> ∅).

Definition badRenewBeforeAnnotations : gmap string string :=
  <[cmapi.DurationAnnotationKey := "2160h"]>
    (<[cmapi.RenewBeforeAnnotationKey := "soon"]> ∅).

Definition badUsagesAnnotations : gmap string string :=
  <[cmapi.UsagesAnnotationKey := "digital signature,bogus"]> ∅.

(** The stored Certificate after the translation of [documentedAnnotations]. *)
Definition documentedCertificate : cmapi.Certificate.t :=
  setUsages
    (setRenewBefore
       (setDuration (setCommonName Examples.storedCertificate "example.com")
          (Some 7776000000000000%Z))
       (Some 5184000000000000%Z))
    ["digital signature"; "key encipherment"].

(** Config blocks that set issuer overrides only. *)
Definition issuerConfig (clusterIssuer issuer issuerKind issuerGroup : string)
  : vsapi.CertManager.t :=
  {| vsapi.CertManager.ClusterIssuer := clusterIssuer;
     vsapi.CertManager.Issuer := issuer;
     vsapi.CertManager.IssuerKind := issuerKind;
     vsapi.CertManager.IssuerGroup := issuerGroup;
     vsapi.CertManager.CommonName := "";
     vsapi.CertManager.Duration := "";
     vsapi.CertManager.RenewBefore := "";
     vsapi.CertManager.Usages := "" |}.

Definition issuerOnly : vsapi.CertManager.t := issuerConfig "" "my-issuer" "" "".
Definition clusterIssuerWithGroup : vsapi.CertManager.t :=
  issuerConfig "my-cluster-issuer" "" "" "example.org".
Definition allOverrides : vsapi.CertManager.t :=
  issuerConfig "my-cluster-issuer" "my-issuer" "CustomIssuer" "example.org".

(** Defaults without an issuer name. *)
Definition noDefaultIssuer : controller.IngressShimOptions.t :=
  {| controller.IngressShimOptions.DefaultIssuerName := "";
     controller.IngressShimOptions.DefaultIssuerKind := "ClusterIssuer";
     controller.IngressShimOptions.DefaultIssuerGroup := "" |}.

(** A Certificate of vs1 for a secret it no longer declares, and a Certificate
    under the declared secret name that another VirtualServer controls. *)
Definition staleCertificate : cmapi.Certificate.t :=
  Examples.certificate "old-tls" "old-tls" Examples.ownedByVs1.
Definition foreignCertificate : cmapi.Certificate.t :=
  Examples.certificate "example-tls" "example-tls" Examples.ownedByVs2.

Definition worldWithStale : Fake.World :=
  {| Fake.certificates := [staleCertificate]; Fake.virtualServers := [] |}.
Definition worldWithForeign : Fake.World :=
  {| Fake.certificates := [foreignCertificate]; Fake.virtualServers := [] |}.
Definition worldWithVs1 : Fake.World :=
  {| Fake.certificates := [Examples.storedCertificate];
     Fake.virtualServers := [Examples.vsEmptyBlock] |}.

(** The pass for vs1 with an empty block on [worldWithStale]: the Certificate
    is created, then the stale one is deleted. *)
Definition desired : cmapi.Certificate.t := Examples.desiredFor Examples.vsEmptyBlock.

Definition afterCreate (w : Fake.World) : Fake.World :=
  Fake.withCertificates w (Fake.certificates w ++ [desired]).

Definition cleanupPass : Pass Fake.World :=
  {| cluster := Fake.withCertificates worldWithStale [desired];
     calls := [createCallFor desired; DeleteCall "default" "old-tls"];
     events := [eventFor Examples.vsEmptyBlock (createCallFor desired);
                eventFor Examples.vsEmptyBlock (DeleteCall "default" "old-tls")];
     logs := [] |}.

(** The Certificate the builder hands over for update when the cluster holds
    [existingCrt] under the secret name of vs1. *)
Definition updated (existingCrt : cmapi.Certificate.t) : cmapi.Certificate.t :=
  setLabels (setSpec existingCrt (cmapi.Certificate.Spec desired)) (GetLabels desired).

(** The pass for vs1 with an empty block on a cluster that holds example-tls
    of vs2 and the stale old-tls of vs1: example-tls is updated, old-tls is
    deleted. *)
Definition worldWithForeignAndStale : Fake.World :=
  {| Fake.certificates := [foreignCertificate; staleCertificate];
     Fake.virtualServers := [] |}.

Definition takeoverPass : Pass Fake.World :=
  {| cluster := Fake.withCertificates worldWithForeignAndStale [updated foreignCertificate];
     calls := [updateCallFor (updated foreignCertificate); DeleteCall "default" "old-tls"];
     events := [eventFor Examples.vsEmptyBlock (updateCallFor (updated foreignCertificate));
                eventFor Examples.vsEmptyBlock (DeleteCall "default" "old-tls")];
     logs := existingLogLines foreignCertificate desired Examples.vsEmptyBlock |}.

(** The errors of the duration parser on the two bad values. *)
Definition invalidDuration (value : string) : error :=
  errorsNew ("time: invalid duration " +:+ GoTime.quote value).



End Scenarios.

(** * Properties *)

(** ** Strings and annotation maps *)

Lemma append_cons (x : ascii) (a b : string) : String x a +:+ b = String x (a +:+ b).
Proof. reflexivity. Qed.

Lemma append_assoc (a b c : string) : (a +:+ b) +:+ c = a +:+ (b +:+ c).
Proof.
  induction a as [|x a IH]; [reflexivity|].
  rewrite !append_cons. now rewrite IH.
Qed.

Lemma append_empty_r (a : string) : a +:+ "" = a.
Proof.
  induction a as [|x a IH]; [reflexivity|].
  rewrite append_cons. now rewrite IH.
Qed.

Lemma Contains_refl (s : string) : Contains s s.
Proof. exists "", "". change ("" +:+ s +:+ "") with (s +:+ ""). now rewrite append_empty_r. Qed.

Lemma Contains_append_l (s t sub : string) : Contains s sub -> Contains (s +:+ t) sub.
Proof.
  intros (before & after & ->). exists before, (after +:+ t).
  now rewrite !append_assoc.
Qed.

Lemma Contains_append_r (s t sub : string) : Contains t sub -> Contains (s +:+ t) sub.
Proof.
  intros (before & after & ->). exists (s +:+ before), after.
  now rewrite !append_assoc.
Qed.

Lemma bothMayNotBeSet_names (first second : string) :
  Contains (bothMayNotBeSet first second) (quote first)
  /\ Contains (bothMayNotBeSet first second) (quote second).
Proof.
  unfold bothMayNotBeSet. split.
  - apply Contains_append_r, Contains_append_l, Contains_refl.
  - do 3 apply Contains_append_r. apply Contains_append_l, Contains_refl.
Qed.

Lemma eqb_empty_false (s : string) : s <> "" -> String.eqb s "" = false.
Proof. intros Hs. now apply String.eqb_neq. Qed.

Lemma lookup_setIfNonEmpty_ne (k k' v : string) (m : gmap string string) :
  k <> k' -> setIfNonEmpty k v m !! k' = m !! k'.
Proof.
  intros Hk. unfold setIfNonEmpty. destruct (String.eqb v ""); [reflexivity|].
  now apply lookup_insert_ne.
Qed.

Lemma lookup_setIfNonEmpty_eq (k v : string) (m : gmap string string) :
  setIfNonEmpty k v m !! k = if String.eqb v "" then m !! k else Some v.
Proof.
  unfold setIfNonEmpty. destruct (String.eqb v ""); [reflexivity|].
  apply lookup_insert_eq.
Qed.

(** Two distinct literal keys. *)
Ltac distinct_keys :=
  unfold cmapi.CommonNameAnnotationKey, cmapi.DurationAnnotationKey,
    cmapi.RenewBeforeAnnotationKey, cmapi.UsagesAnnotationKey,
    cmapi.IngressIssuerNameAnnotationKey, cmapi.IngressClusterIssuerNameAnnotationKey,
    cmapi.IssuerKindAnnotationKey, cmapi.IssuerGroupAnnotationKey;
  discriminate.

(** Rewrite the look-ups in a map built by [setIfNonEmpty] on literal keys. *)
Ltac lookup_annotations :=
  repeat first
    [ rewrite lookup_setIfNonEmpty_eq
    | rewrite lookup_setIfNonEmpty_ne by distinct_keys
    | rewrite lookup_empty ].

(** What [convertVsCmSpecToAnnotations] returns on a config block: only the
    common-name and the duration key are ever written. *)
Lemma convertVsCmSpecToAnnotations_keys (spec : vsapi.CertManager.t) :
  exists a : gmap string string,
    convertVsCmSpecToAnnotations (Some spec) = Returns (a, None)
    /\ a !! cmapi.CommonNameAnnotationKey
       = (if String.eqb (vsapi.CertManager.CommonName spec) "" then None
          else Some (vsapi.CertManager.CommonName spec))
    /\ a !! cmapi.RenewBeforeAnnotationKey = None
    /\ a !! cmapi.UsagesAnnotationKey = None.
Proof.
  eexists. split; [reflexivity|]. repeat split; now lookup_annotations.
Qed.

(** The four look-ups of [issuerForIngressLike], on a config block. *)
Lemma getVsCmSpecIssuerAnnotations_lookups (spec : vsapi.CertManager.t) :
  exists a : gmap string string,
    getVsCmSpecIssuerAnnotations (Some spec) = Returns (Some a, None)
    /\ a !! cmapi.IngressIssuerNameAnnotationKey
       = (if String.eqb (vsapi.CertManager.Issuer spec) "" then None
          else Some (vsapi.CertManager.Issuer spec))
    /\ a !! cmapi.IngressClusterIssuerNameAnnotationKey
       = (if String.eqb (vsapi.CertManager.ClusterIssuer spec) "" then None
          else Some (vsapi.CertManager.ClusterIssuer spec))
    /\ a !! cmapi.IssuerKindAnnotationKey
       = (if String.eqb (vsapi.CertManager.IssuerKind spec) "" then None
          else Some (vsapi.CertManager.IssuerKind spec))
    /\ a !! cmapi.IssuerGroupAnnotationKey
       = (if String.eqb (vsapi.CertManager.IssuerGroup spec) "" then None
          else Some (vsapi.CertManager.IssuerGroup spec)).
Proof.
  eexists. split; [reflexivity|]. repeat split; now lookup_annotations.
Qed.

(** ** The duration parser of the reference instance *)

(** The three scanners return a suffix of their input. *)
Lemma leadingInt_suffix (s : string) (x v : Z) (rest : string) :
  GoTime.leadingInt s x = Some (v, rest) -> (String.length rest <= String.length s)%nat.
Proof.
  revert x. induction s as [|c s IH]; intros x; simpl.
  - intros [= _ <-]. reflexivity.
  - destruct (GoTime.isDigit c).
    + destruct (_ <? x)%Z; [discriminate|].
      destruct (_ <? _)%Z; [discriminate|].
      intros Hrest. apply IH in Hrest. lia.
    + intros [= _ <-]. reflexivity.
Qed.

Lemma leadingFraction_suffix (s : string) (x : Z) (scale : spec_float) (overflow : bool)
    (f : Z) (scale' : spec_float) (rest : string) :
  GoTime.leadingFraction s x scale overflow = (f, scale', rest) ->
  (String.length rest <= String.length s)%nat.
Proof.
  revert x scale overflow. induction s as [|c s IH]; intros x scale overflow; simpl.
  - intros [= _ _ <-]. reflexivity.
  - destruct (GoTime.isDigit c).
    + destruct overflow; [intros H%IH; lia|].
      destruct (_ <? x)%Z; [intros H%IH; lia|].
      destruct (_ <? _)%Z; intros H%IH; lia.
    + intros [= _ _ <-]. reflexivity.
Qed.

Lemma unitOf_suffix (s u rest : string) :
  GoTime.unitOf s = (u, rest) -> (String.length u + String.length rest = String.length s)%nat.
Proof.
  revert u rest. induction s as [|c s IH]; intros u rest; simpl.
  - intros [= <- <-]. reflexivity.
  - destruct (_ || _).
    + intros [= <- <-]. reflexivity.
    + destruct (GoTime.unitOf s) as [u' rest'] eqn:Hs. intros [= <- <-].
      simpl. specialize (IH _ _ eq_refl). lia.
Qed.

(** The length of the input is fuel enough for the loop over the terms. *)
Lemma terms_enough_fuel (fuel : nat) (orig s : string) (d : Z) :
  (String.length s <= fuel)%nat -> GoTime.terms fuel orig s d <> None.
Proof.
  revert s d. induction fuel as [|fuel IH]; intros s d Hfuel.
  - destruct s; [discriminate | simpl in Hfuel; lia].
  - destruct s as [|c s']; [discriminate|].
    cbn [GoTime.terms].
    destruct (negb _); [discriminate|].
    destruct (GoTime.leadingInt (String c s') 0) as [[v s1]|] eqn:Hint; [|discriminate].
    apply leadingInt_suffix in Hint.
    destruct (match s1 with String _ _ => _ | EmptyString => _ end)
      as [[[f scale] s2] post] eqn:Hpost.
    assert (Hs2 : (String.length s2 <= String.length s1)%nat).
    { destruct s1 as [|c1 s1']; [injection Hpost as _ _ <- _; reflexivity|].
      destruct (Ascii.eqb c1 "."); [|injection Hpost as _ _ <- _; reflexivity].
      destruct (GoTime.leadingFraction _ _ _ _) as [[f' scale'] s2'] eqn:Hfr.
      injection Hpost as _ _ <- _. apply leadingFraction_suffix in Hfr. simpl. lia. }
    destruct (negb _ && negb _); [discriminate|].
    destruct (GoTime.unitOf s2) as [u s3] eqn:Hunit. apply unitOf_suffix in Hunit.
    destruct (String.eqb u "") eqn:Hu; [discriminate|].
    destruct (GoTime.lookup u GoTime.unitMap); [|discriminate].
    destruct (_ <? v)%Z; [discriminate|].
    destruct (_ && _); [discriminate|].
    destruct (_ <? _)%Z; [discriminate|].
    apply IH. apply String.eqb_neq in Hu. destruct u; [congruence|].
    simpl in *. lia.
Qed.

(** [GoTime.ParseDuration] never stops for lack of fuel. *)
Lemma ParseDuration_fuel (orig s : string) :
  GoTime.terms (String.length s) orig s 0 <> None.
Proof. apply terms_enough_fuel. reflexivity. Qed.

(** ** The translator *)

(** C10. On a nil Certificate pointer, whatever the annotation map holds and
    whatever the duration parser and the usage tables answer,
    [translateAnnotations] returns the error [errNilCertificate], whose text is
    "the supplied Certificate pointer was nil"; there is no certificate behind
    the pointer afterwards either, so nothing has been written, and no key of
    the map has had a say in the result. *)
Theorem translateAnnotations_nil_certificate
    (libraries : GoLibraries) (ingLikeAnnotations : gmap string string) :
  translateAnnotations None ingLikeAnnotations = (None, Some errNilCertificate)
  /\ errNilCertificate = errorsNew "the supplied Certificate pointer was nil".
Proof. split; reflexivity. Qed.

(** C1. On the config block of its own documentation (commonName example.com,
    duration 2160h, renewBefore 1440h, usages "digital signature,key
    encipherment") [convertVsCmSpecToAnnotations] returns a map of two keys:
    the common-name key, and the duration key holding the usages string.  The
    renew-before key and the usages key are absent although both fields are
    set, and the duration itself is lost. *)
Theorem convertVsCmSpecToAnnotations_documented_block :
  exists a : gmap string string,
    convertVsCmSpecToAnnotations (Some Examples.documentedConfig) = Returns (a, None)
    /\ a = {[ cmapi.CommonNameAnnotationKey := "example.com";
              cmapi.DurationAnnotationKey := "digital signature,key encipherment" ]}
    /\ a !! cmapi.RenewBeforeAnnotationKey = None
    /\ a !! cmapi.UsagesAnnotationKey = None
    /\ a !! cmapi.DurationAnnotationKey <> Some "2160h".
Proof.
  eexists. split; [reflexivity|].
  split; [vm_compute; reflexivity|].
  split; [now lookup_annotations|].
  split; [now lookup_annotations|].
  lookup_annotations. simpl. discriminate.
Qed.

(** ** The garbage collector *)

Lemma removalLoop_filter (certs : list cmapi.Certificate.t) (vs : vsapi.VirtualServer.t)
    (toBeRemoved : list string) :
  removalLoop certs vs toBeRemoved
  = toBeRemoved
    ++ List.map GetName
         (List.filter
            (fun crt =>
               IsControlledBy crt vs
               && negb (secretNameUsedIn
                          (cmapi.CertificateSpec.SecretName (cmapi.Certificate.Spec crt)) vs))
            certs).
Proof.
  revert toBeRemoved. induction certs as [|crt rest IH]; intros toBeRemoved; simpl.
  - now rewrite app_nil_r.
  - destruct (IsControlledBy crt vs); simpl; [|apply IH].
    destruct (secretNameUsedIn _ vs); simpl; [apply IH|].
    rewrite IH, <- app_assoc. reflexivity.
Qed.

(** C6. [findCertificatesToBeRemoved] returns, in the order of the list, the
    names of exactly the certificates that are controlled by the VirtualServer
    and whose secret name is not the one its TLS block declares.  So a name is
    returned if and only if some listed certificate of that name is
    controller-owned by the VirtualServer and has another secret name; and a
    list in which no certificate is controlled by the VirtualServer yields
    nothing, whatever the secret names. *)
Theorem findCertificatesToBeRemoved_owned_and_unused
    (certs : list cmapi.Certificate.t) (vs : vsapi.VirtualServer.t) :
  findCertificatesToBeRemoved certs vs
  = List.map GetName
      (List.filter
         (fun crt =>
            IsControlledBy crt vs
            && negb (secretNameUsedIn
                       (cmapi.CertificateSpec.SecretName (cmapi.Certificate.Spec crt)) vs))
         certs)
  /\ (forall name : string,
        In name (findCertificatesToBeRemoved certs vs)
        <-> exists crt : cmapi.Certificate.t,
              In crt certs /\ GetName crt = name
              /\ IsControlledBy crt vs = true
              /\ cmapi.CertificateSpec.SecretName (cmapi.Certificate.Spec crt)
                 <> vsapi.TLS.Secret
                      (vsapi.VirtualServerSpec.TLS (vsapi.VirtualServer.Spec vs)))
  /\ ((forall crt : cmapi.Certificate.t, In crt certs -> IsControlledBy crt vs = false)
      -> findCertificatesToBeRemoved certs vs = []).
Proof.
  unfold findCertificatesToBeRemoved. rewrite removalLoop_filter. simpl.
  split; [reflexivity|]. split.
  - intros name. rewrite in_map_iff. split.
    + intros (crt & Hname & Hin). apply filter_In in Hin as [Hin Hkeep].
      apply andb_prop in Hkeep as [Howned Hunused].
      exists crt. repeat split; try assumption.
      unfold secretNameUsedIn in Hunused.
      apply negb_true_iff, String.eqb_neq in Hunused. exact Hunused.
    + intros (crt & Hin & Hname & Howned & Hsecret).
      exists crt. split; [exact Hname|]. apply filter_In. split; [exact Hin|].
      rewrite Howned. simpl. apply negb_true_iff.
      unfold secretNameUsedIn. now apply String.eqb_neq.
  - intros Hforeign. induction certs as [|crt rest IH]; [reflexivity|].
    simpl. rewrite (Hforeign crt) by (left; reflexivity). simpl.
    apply IH. intros crt' Hin. apply Hforeign. right. exact Hin.
Qed.

(** ** The change correlator *)

(** C8. On a notification about a Certificate, [certificateHandler] adds
    nothing to the queue when the Certificate has no controller reference, and
    nothing when the controller's kind is not "VirtualServer"; otherwise it
    adds one item, the key made of the Certificate's namespace, "/" and the
    controller's name. *)
Theorem certificateHandler_enqueues_owner (crt : cmapi.Certificate.t) :
  (GetControllerOf crt = None -> certificateHandler (CertificateObj crt) = [])
  /\ (forall ref : metav1.OwnerReference.t,
        GetControllerOf crt = Some ref ->
        metav1.OwnerReference.Kind ref <> "VirtualServer" ->
        certificateHandler (CertificateObj crt) = [])
  /\ (forall ref : metav1.OwnerReference.t,
        GetControllerOf crt = Some ref ->
        metav1.OwnerReference.Kind ref = "VirtualServer" ->
        certificateHandler (CertificateObj crt)
        = [KeyItem (GetNamespace crt +:+ "/" +:+ metav1.OwnerReference.Name ref)]).
Proof.
  repeat split.
  - intros Hnone. simpl. now rewrite Hnone.
  - intros ref Hsome Hkind. simpl. rewrite Hsome.
    apply String.eqb_neq in Hkind. now rewrite Hkind.
  - intros ref Hsome Hkind. simpl. rewrite Hsome, Hkind. reflexivity.
Qed.

(** The update handler adds the current VirtualServer exactly when the
    cert-manager block of the old object and that of the new one differ. *)
Lemma UpdateFunc_gate (oldVs curVs : vsapi.VirtualServer.t) :
  let block (vs : vsapi.VirtualServer.t) :=
    vsapi.TLS.CertManager (vsapi.VirtualServerSpec.TLS (vsapi.VirtualServer.Spec vs)) in
  (block oldVs = block curVs ->
   UpdateFunc createVirtualServerHandlers (VirtualServerObj oldVs) (VirtualServerObj curVs)
   = Returns [])
  /\ (block oldVs <> block curVs ->
      UpdateFunc createVirtualServerHandlers (VirtualServerObj oldVs) (VirtualServerObj curVs)
      = Returns [VirtualServerItem curVs]).
Proof.
  simpl. split; intros Hblock.
  - now rewrite bool_decide_eq_true_2.
  - now rewrite bool_decide_eq_false_2.
Qed.

(** A key of the queue is split into namespace and name, the VirtualServer is
    read from the lister and handed to the sync function. *)
Lemma ProcessItem_runs_sync (W : Type) (C : Cluster W)
    (sync : W -> vsapi.VirtualServer.t -> outcome (Pass W * option error))
    (w : W) (key namespace name : string) (vs : vsapi.VirtualServer.t) :
  SplitMetaNamespaceKey key = Some (namespace, name) ->
  VirtualServersGet w namespace name = (Some vs, None) ->
  ProcessItem sync w key = sync w vs.
Proof.
  intros Hkey Hget. unfold ProcessItem. rewrite Hkey, Hget. reflexivity.
Qed.

(** C9. On the notification that VirtualServer default/vs1 was added,
    [AddFunc] hands the VirtualServer object itself to [queue.Add]; the item is
    not the "default/vs1" key that [certificateHandler] adds for the same
    VirtualServer and that [ProcessItem] splits into namespace and name. *)
Theorem AddFunc_enqueues_the_object :
  AddFunc createVirtualServerHandlers (VirtualServerObj (Examples.vs1 None))
  = Returns [VirtualServerItem (Examples.vs1 None)]
  /\ AddFunc createVirtualServerHandlers (VirtualServerObj (Examples.vs1 None))
     <> Returns [KeyItem "default/vs1"]
  /\ certificateHandler
       (CertificateObj (Examples.certificate "example-tls" "example-tls" Examples.ownedByVs1))
     = [KeyItem "default/vs1"]
  /\ SplitMetaNamespaceKey "default/vs1" = Some ("default", "vs1").
Proof.
  split; [reflexivity|]. split; [discriminate|]. split; reflexivity.
Qed.

(** ** The issuer resolver *)

Lemma length_nonempty (s : string) : s <> "" -> Nat.eqb (String.length s) 0 = false.
Proof. destruct s; [congruence | reflexivity]. Qed.

Lemma outcome_bind_Returns {A B : Type} (a : A) (f : A -> outcome B) :
  Returns a ≫= f = f a.
Proof. reflexivity. Qed.

Lemma outcome_bind_Panics {A B : Type} (reason : string) (f : A -> outcome B) :
  Panics reason ≫= f = Panics reason.
Proof. reflexivity. Qed.

(** With both overrides set, the first message of the joined error is the one
    about the issuer and the cluster issuer. *)
Lemma issuerForIngressLike_conflict (defaults : controller.IngressShimOptions.t)
    (vs : vsapi.VirtualServer.t) (spec : vsapi.CertManager.t) :
  vsapi.TLS.CertManager (vsapi.VirtualServerSpec.TLS (vsapi.VirtualServer.Spec vs))
  = Some spec ->
  vsapi.CertManager.Issuer spec <> "" ->
  vsapi.CertManager.ClusterIssuer spec <> "" ->
  exists tail : string,
    issuerForIngressLike defaults vs
    = Returns ("", "", "",
               Some (errorsNew
                       (bothMayNotBeSet cmapi.IngressIssuerNameAnnotationKey
                          cmapi.IngressClusterIssuerNameAnnotationKey +:+ tail))).
Proof.
  intros Hblock Hissuer Hcluster.
  destruct (getVsCmSpecIssuerAnnotations_lookups spec)
    as (a & Ha & Hi & Hc & Hk & Hg).
  rewrite (eqb_empty_false _ Hissuer) in Hi.
  rewrite (eqb_empty_false _ Hcluster) in Hc.
  unfold issuerForIngressLike. rewrite Hblock, Ha, outcome_bind_Returns.
  cbv beta iota zeta. rewrite Hi, Hc, Hk, Hg. cbv beta iota zeta.
  rewrite (length_nonempty _ Hcluster).
  destruct (String.eqb (vsapi.CertManager.IssuerKind spec) "");
    destruct (String.eqb (vsapi.CertManager.IssuerGroup spec) "");
    cbn [notNil andb appendIf app length Nat.ltb Nat.leb Join].
  1: (exists ""; now rewrite append_empty_r).
  all: eexists; reflexivity.
Qed.

(** An error of the issuer resolver ends the pass: one log line, one Warning
    event of reason BadConfig, no request to the API server, no error. *)
Lemma SyncFnFor_issuer_error (libraries : GoLibraries) (W : Type) (C : Cluster W)
    (defaults : controller.IngressShimOptions.t) (w : W) (vs : vsapi.VirtualServer.t)
    (name kind group : string) (err : error) :
  issuerForIngressLike defaults vs = Returns (name, kind, group, Some err) ->
  SyncFnFor defaults w vs
  = Returns
      (Build_Pass w []
         [Eventf vs EventTypeWarning reasonBadConfig
            "Could not determine issuer for ingress due to bad annotations: %s"
            [ArgError err]]
         [LogError err "failed to determine issuer to be used for ingress resource"],
       None).
Proof.
  intros Hresolve. unfold SyncFnFor. rewrite Hresolve, outcome_bind_Returns.
  reflexivity.
Qed.

(** C3. When the cert-manager block of a VirtualServer sets both [issuer] and
    [clusterIssuer], [issuerForIngressLike] returns an error whose text holds
    the quoted issuer key and the quoted cluster-issuer key, and the sync
    function reports that error under the reason BadConfig, in a Warning event,
    and does nothing else. *)
Theorem issuerForIngressLike_issuer_and_clusterIssuer
    (libraries : GoLibraries) (W : Type) (C : Cluster W)
    (defaults : controller.IngressShimOptions.t) (w : W)
    (vs : vsapi.VirtualServer.t) (spec : vsapi.CertManager.t) :
  vsapi.TLS.CertManager (vsapi.VirtualServerSpec.TLS (vsapi.VirtualServer.Spec vs))
  = Some spec ->
  vsapi.CertManager.Issuer spec <> "" ->
  vsapi.CertManager.ClusterIssuer spec <> "" ->
  exists text : string,
    issuerForIngressLike defaults vs = Returns ("", "", "", Some (errorsNew text))
    /\ Contains text (quote cmapi.IngressIssuerNameAnnotationKey)
    /\ Contains text (quote cmapi.IngressClusterIssuerNameAnnotationKey)
    /\ SyncFnFor defaults w vs
       = Returns
           (Build_Pass w []
              [Eventf vs EventTypeWarning reasonBadConfig
                 "Could not determine issuer for ingress due to bad annotations: %s"
                 [ArgError (errorsNew text)]]
              [LogError (errorsNew text)
                 "failed to determine issuer to be used for ingress resource"],
            None).
Proof.
  intros Hblock Hissuer Hcluster.
  destruct (issuerForIngressLike_conflict defaults vs spec Hblock Hissuer Hcluster)
    as (tail & Hresolve).
  destruct (bothMayNotBeSet_names cmapi.IngressIssuerNameAnnotationKey
              cmapi.IngressClusterIssuerNameAnnotationKey) as [Hfirst Hsecond].
  eexists. split; [exact Hresolve|].
  split; [now apply Contains_append_l|].
  split; [now apply Contains_append_l|].
  now apply SyncFnFor_issuer_error with (name := "") (kind := "") (group := "").
Qed.

(** ** The builder and the orchestrator *)

(** Without a cert-manager block the pass panics in the issuer resolver, on
    the first field read through the nil pointer. *)
Lemma SyncFnFor_nil_config (libraries : GoLibraries) (W : Type) (C : Cluster W)
    (defaults : controller.IngressShimOptions.t) (w : W) (vs : vsapi.VirtualServer.t) :
  configOf vs = None ->
  SyncFnFor defaults w vs = Panics nilPointerDereference.
Proof.
  unfold configOf. intros Hnil. unfold SyncFnFor, issuerForIngressLike.
  rewrite Hnil. reflexivity.
Qed.

(** The translation writes the common name, the two durations and the usages
    only; the usages stay when the map has no usages key. *)
Lemma translateAnnotations_untouched (libraries : GoLibraries)
    (crt : cmapi.Certificate.t) (a : gmap string string)
    (crt' : option cmapi.Certificate.t) (err : option error) :
  translateAnnotations (Some crt) a = (crt', err) ->
  exists after : cmapi.Certificate.t,
    crt' = Some after
    /\ sameOutsideTranslation crt after
    /\ (a !! cmapi.UsagesAnnotationKey = None ->
        cmapi.CertificateSpec.Usages (cmapi.Certificate.Spec after)
        = cmapi.CertificateSpec.Usages (cmapi.Certificate.Spec crt)).
Proof.
  unfold translateAnnotations, andThen, commonNameBlock, durationBlock,
    renewBeforeBlock, usagesBlock, sameOutsideTranslation.
  generalize (a !! cmapi.CommonNameAnnotationKey) (a !! cmapi.DurationAnnotationKey)
    (a !! cmapi.RenewBeforeAnnotationKey) (a !! cmapi.UsagesAnnotationKey).
  intros cn du rb us.
  destruct cn as [cn|]; destruct du as [du|]; destruct rb as [rb|]; destruct us as [us|];
    try (destruct (ParseDuration du) as [d1 [e1|]]);
    try (destruct (ParseDuration rb) as [d2 [e2|]]);
    try (destruct (usagesLoop (Split us ",") []) as [nu [e3|]]);
    intros [= <- <-]; eexists; (split; [reflexivity|]); (split; [now repeat split|]);
    intros Hus; try discriminate Hus; reflexivity.
Qed.


(** The three ways out of [buildCertificates]. *)
Lemma buildCertificates_get_error (libraries : GoLibraries) (W : Type) (C : Cluster W)
    (w : W) (vs : vsapi.VirtualServer.t) (issuerName issuerKind issuerGroup : string)
    (existingCrt : option cmapi.Certificate.t) (err : error) :
  CertificatesGet w (GetNamespace vs) (secretOf vs) = (existingCrt, Some err) ->
  IsNotFound (Some err) = false ->
  buildCertificates w vs issuerName issuerKind issuerGroup
  = Returns ([], ([], [], Some err)).
Proof.
  intros Hget Hother. unfold buildCertificates. fold (secretOf vs).
  rewrite Hget, Hother. reflexivity.
Qed.

Lemma buildCertificates_translation_error (libraries : GoLibraries) (W : Type)
    (C : Cluster W) (w : W) (vs : vsapi.VirtualServer.t)
    (issuerName issuerKind issuerGroup : string)
    (existingCrt : option cmapi.Certificate.t) (found : option error) (err : error) :
  CertificatesGet w (GetNamespace vs) (secretOf vs) = (existingCrt, found) ->
  negb (IsNotFound found) && notNil found = false ->
  translationFails vs
    (desiredCertificate vs [hostOf vs] issuerName issuerKind issuerGroup) err ->
  buildCertificates w vs issuerName issuerKind issuerGroup
  = Returns ([], ([], [], Some err)).
Proof.
  intros Hget Hfound (a & crt' & Hconvert & Htranslate).
  unfold buildCertificates. fold (secretOf vs) (hostOf vs).
  rewrite Hget, Hfound. change ([] ++ [hostOf vs]) with [hostOf vs].
  rewrite Hconvert, outcome_bind_Returns, Htranslate. reflexivity.
Qed.

Lemma buildCertificates_translated (libraries : GoLibraries) (W : Type)
    (C : Cluster W) (w : W) (vs : vsapi.VirtualServer.t)
    (issuerName issuerKind issuerGroup : string)
    (existingCrt : option cmapi.Certificate.t) (found : option error)
    (crt : cmapi.Certificate.t) :
  CertificatesGet w (GetNamespace vs) (secretOf vs) = (existingCrt, found) ->
  negb (IsNotFound found) && notNil found = false ->
  translatesTo vs
    (desiredCertificate vs [hostOf vs] issuerName issuerKind issuerGroup) crt ->
  buildCertificates w vs issuerName issuerKind issuerGroup
  = Returns
      match existingCrt with
      | Some existingCrt =>
          (existingLogLines existingCrt crt vs,
           ([], [setLabels (setSpec existingCrt (cmapi.Certificate.Spec crt))
                   (GetLabels crt)], None))
      | None => ([], ([crt], [], None))
      end.
Proof.
  intros Hget Hfound (a & Hconvert & Htranslate).
  unfold buildCertificates. fold (secretOf vs) (hostOf vs).
  rewrite Hget, Hfound. change ([] ++ [hostOf vs]) with [hostOf vs].
  rewrite Hconvert, outcome_bind_Returns, Htranslate.
  destruct existingCrt; reflexivity.
Qed.

(** An error of [buildCertificates] comes from the lister or from the
    translation. *)
Lemma buildCertificates_error_origin (libraries : GoLibraries) (W : Type)
    (C : Cluster W) (w : W) (vs : vsapi.VirtualServer.t)
    (issuerName issuerKind issuerGroup : string) (lines : list LogLine)
    (newCrts updateCrts : list cmapi.Certificate.t) (err : error) :
  buildCertificates w vs issuerName issuerKind issuerGroup
  = Returns (lines, (newCrts, updateCrts, Some err)) ->
  storeFailure err
  \/ translationFails vs
       (desiredCertificate vs [hostOf vs] issuerName issuerKind issuerGroup) err.
Proof.
  unfold buildCertificates. fold (secretOf vs) (hostOf vs).
  change ([] ++ [hostOf vs]) with [hostOf vs].
  destruct (CertificatesGet w (GetNamespace vs) (secretOf vs)) as [existingCrt found] eqn:Hget.
  destruct (negb (IsNotFound found) && notNil found).
  - intros [= _ _ _ ->]. left. apply (GetFailed err w (GetNamespace vs) (secretOf vs)).
    now rewrite Hget.
  - fold (configOf vs). unfold translationFails. fold (configOf vs).
    destruct (configOf vs) as [spec|]; [|discriminate].
    destruct (convertVsCmSpecToAnnotations_keys spec) as (a & Hconvert & _).
    rewrite Hconvert, outcome_bind_Returns.
    destruct (translateAnnotations _ a) as [crt' [e|]] eqn:Htranslate.
    + intros [= _ _ _ ->]. right. exists a, crt'. split; [reflexivity | exact Htranslate].
    + destruct crt' as [crt'|]; [|discriminate].
      unfold deref. rewrite outcome_bind_Returns. destruct existingCrt; discriminate.
Qed.

(** An error of a loop is the error of one of its requests. *)
Lemma createLoop_error (W : Type) (C : Cluster W) (vs : vsapi.VirtualServer.t)
    (newCrts : list cmapi.Certificate.t) (p p' : Pass W) (err : error) :
  createLoop vs newCrts p = (p', Some err) -> storeFailure err.
Proof.
  revert p. induction newCrts as [|crt rest IH]; intros p; simpl; [discriminate|].
  destruct (CertificatesCreate (cluster p) (GetNamespace crt) crt) as [w' [e|]] eqn:Hcreate.
  - intros [= _ ->]. apply (CreateFailed err (cluster p) (GetNamespace crt) crt).
    now rewrite Hcreate.
  - apply IH.
Qed.

Lemma updateLoop_error (W : Type) (C : Cluster W) (vs : vsapi.VirtualServer.t)
    (updateCrts : list cmapi.Certificate.t) (p p' : Pass W) (err : error) :
  updateLoop vs updateCrts p = (p', Some err) -> storeFailure err.
Proof.
  revert p. induction updateCrts as [|crt rest IH]; intros p; simpl; [discriminate|].
  destruct (CertificatesUpdate (cluster p) (GetNamespace crt) crt) as [w' [e|]] eqn:Hupdate.
  - intros [= _ ->]. apply (UpdateFailed err (cluster p) (GetNamespace crt) crt).
    now rewrite Hupdate.
  - apply IH.
Qed.

Lemma deleteLoop_error (W : Type) (C : Cluster W) (vs : vsapi.VirtualServer.t)
    (names : list string) (p p' : Pass W) (err : error) :
  deleteLoop vs names p = (p', Some err) -> storeFailure err.
Proof.
  revert p. induction names as [|name rest IH]; intros p; simpl; [discriminate|].
  destruct (CertificatesDelete (cluster p) (GetNamespace vs) name) as [w' [e|]] eqn:Hdelete.
  - intros [= _ ->]. apply (DeleteFailed err (cluster p) (GetNamespace vs) name).
    now rewrite Hdelete.
  - apply IH.
Qed.

(** An error of the pass comes from a request or from the translation. *)
Lemma SyncFnFor_error_origin (libraries : GoLibraries) (W : Type) (C : Cluster W)
    (defaults : controller.IngressShimOptions.t) (w : W) (vs : vsapi.VirtualServer.t)
    (p : Pass W) (err : error) :
  SyncFnFor defaults w vs = Returns (p, Some err) ->
  storeFailure err
  \/ exists issuerName issuerKind issuerGroup : string,
       issuerForIngressLike defaults vs
       = Returns (issuerName, issuerKind, issuerGroup, None)
       /\ translationFails vs
            (desiredCertificate vs [hostOf vs] issuerName issuerKind issuerGroup) err.
Proof.
  unfold SyncFnFor.
  destruct (issuerForIngressLike defaults vs) as [[[[n k] g] [e|]]|r] eqn:Hissuer;
    [discriminate| |discriminate].
  rewrite outcome_bind_Returns. cbv beta iota zeta.
  destruct (buildCertificates (cluster (startPass w)) vs n k g)
    as [[lines [[newCrts updateCrts] [e|]]]|r] eqn:Hbuild; [| |discriminate].
  - rewrite outcome_bind_Returns. intros [= _ ->].
    destruct (buildCertificates_error_origin _ _ _ _ _ _ _ _ _ _ _ _ Hbuild) as [Hstore|Hfail].
    + now left.
    + right. now exists n, k, g.
  - rewrite outcome_bind_Returns. cbv beta iota zeta.
    destruct (createLoop vs newCrts _) as [p1 [e|]] eqn:Hcreate.
    { intros [= _ ->]. left. eapply createLoop_error, Hcreate. }
    destruct (updateLoop vs updateCrts p1) as [p2 [e|]] eqn:Hupdate.
    { intros [= _ ->]. left. eapply updateLoop_error, Hupdate. }
    destruct (CertificatesList (cluster p2) (GetNamespace vs)) as [certs [e|]] eqn:Hlist.
    { intros [= _ ->]. left. apply (ListFailed err (cluster p2) (GetNamespace vs)).
      now rewrite Hlist. }
    intros [= Hdelete]. left. eapply deleteLoop_error, Hdelete.
Qed.

(** C2. For the VirtualServer default/vs1 (host example.com, secret
    example-tls) without a cert-manager block and the defaults letsencrypt /
    ClusterIssuer, on any cluster and with any library behaviour, the issuer
    resolver reads a field through the nil block pointer: the resolver and
    with it the whole pass panic, and no Certificate is created. *)
Theorem SyncFnFor_without_config_block
    (libraries : GoLibraries) (W : Type) (C : Cluster W) (w : W) :
  issuerForIngressLike Examples.defaults (Examples.vs1 None)
  = Panics nilPointerDereference
  /\ SyncFnFor Examples.defaults w (Examples.vs1 None) = Panics nilPointerDereference.
Proof.
  split; [reflexivity|]. now apply SyncFnFor_nil_config.
Qed.

(** The same VirtualServer with a block whose fields are all empty, on an
    empty cluster: one create request for the Certificate example-tls with
    the DNS name example.com and the default issuer, no update, no delete. *)
Lemma SyncFnFor_empty_config_block :
  exists (p : Pass Fake.World) (crt : cmapi.Certificate.t),
    @SyncFnFor referenceLibraries Fake.World Fake.fakeCluster Examples.defaults
      Examples.emptyWorld (Examples.vs1 (Some Examples.emptyConfig))
    = Returns (p, None)
    /\ calls p = [CreateCall "default" crt]
    /\ GetName crt = "example-tls"
    /\ cmapi.CertificateSpec.DNSNames (cmapi.Certificate.Spec crt) = ["example.com"]
    /\ cmapi.CertificateSpec.IssuerRef (cmapi.Certificate.Spec crt)
       = {| cmmeta.ObjectReference.Name := "letsencrypt";
            cmmeta.ObjectReference.Kind := "ClusterIssuer";
            cmmeta.ObjectReference.Group := "" |}.
Proof.
  eexists _, _. split; [vm_compute; reflexivity|].
  split; [reflexivity|]. repeat split.
Qed.

(** C4, as amended. When the lister finds a Certificate under the namespace
    and secret name of the VirtualServer, and the VirtualServer has a
    cert-manager block that translates without error onto the desired
    Certificate, [buildCertificates] returns no certificate to create and
    exactly one to update: the existing one with its spec and labels replaced
    by the desired ones.  Nothing in that result depends on [certNeedsUpdate];
    when it finds no difference, the only effect is one more log line.  When
    the translation fails instead, [buildCertificates] returns the error of
    the translation, no certificate to create and none to update. *)
Theorem buildCertificates_existing_certificate
    (libraries : GoLibraries) (W : Type) (C : Cluster W) (w : W)
    (vs : vsapi.VirtualServer.t) (issuerName issuerKind issuerGroup : string)
    (existingCrt : cmapi.Certificate.t) :
  CertificatesGet w (GetNamespace vs) (secretOf vs) = (Some existingCrt, None) ->
  (forall crt : cmapi.Certificate.t,
      translatesTo vs
        (desiredCertificate vs [hostOf vs] issuerName issuerKind issuerGroup) crt ->
      buildCertificates w vs issuerName issuerKind issuerGroup
      = Returns
          (existingLogLines existingCrt crt vs,
           ([], [setLabels (setSpec existingCrt (cmapi.Certificate.Spec crt))
                   (GetLabels crt)],
            None))
      /\ (certNeedsUpdate existingCrt crt = false ->
          In (LogInfo DebugLevel "certificate resource is already up to date for object")
            (existingLogLines existingCrt crt vs)))
  /\ (forall err : error,
        translationFails vs
          (desiredCertificate vs [hostOf vs] issuerName issuerKind issuerGroup) err ->
        buildCertificates w vs issuerName issuerKind issuerGroup
        = Returns ([], ([], [], Some err))).
Proof.
  intros Hget. split.
  - intros crt Htranslates. split.
    + now rewrite (buildCertificates_translated _ _ _ _ _ _ _ _ _ _ _ Hget eq_refl
                     Htranslates).
    + intros Hsame. unfold existingLogLines. rewrite Hsame.
      rewrite !in_app_iff. right. right. right. left. reflexivity.
  - intros err Hfails.
    exact (buildCertificates_translation_error _ _ _ _ _ _ _ _ _ _ _ Hget eq_refl Hfails).
Qed.

(** C5, as amended. When the lister answers "not found" for the namespace and
    secret name of the VirtualServer, and the VirtualServer has a cert-manager
    block that translates without error onto the desired Certificate,
    [buildCertificates] returns exactly one certificate to create and none to
    update; its name is the secret name, its DNS names are the host alone, its
    issuer reference is the resolved triple, and when the block sets no usages
    its usages are the default key usages.  When the translation fails
    instead, [buildCertificates] returns the error of the translation, no
    certificate to create and none to update. *)
Theorem buildCertificates_no_certificate
    (libraries : GoLibraries) (W : Type) (C : Cluster W) (w : W)
    (vs : vsapi.VirtualServer.t) (issuerName issuerKind issuerGroup : string)
    (found : option error) :
  CertificatesGet w (GetNamespace vs) (secretOf vs) = (None, found) ->
  IsNotFound found = true ->
  (forall crt : cmapi.Certificate.t,
      translatesTo vs
        (desiredCertificate vs [hostOf vs] issuerName issuerKind issuerGroup) crt ->
      buildCertificates w vs issuerName issuerKind issuerGroup
      = Returns ([], ([crt], [], None))
      /\ GetName crt = secretOf vs
      /\ cmapi.CertificateSpec.DNSNames (cmapi.Certificate.Spec crt) = [hostOf vs]
      /\ cmapi.CertificateSpec.IssuerRef (cmapi.Certificate.Spec crt)
         = {| cmmeta.ObjectReference.Name := issuerName;
              cmmeta.ObjectReference.Kind := issuerKind;
              cmmeta.ObjectReference.Group := issuerGroup |}
      /\ (forall spec : vsapi.CertManager.t,
            configOf vs = Some spec ->
            vsapi.CertManager.Usages spec = "" ->
            cmapi.CertificateSpec.Usages (cmapi.Certificate.Spec crt) = DefaultKeyUsages))
  /\ (forall err : error,
        translationFails vs
          (desiredCertificate vs [hostOf vs] issuerName issuerKind issuerGroup) err ->
        buildCertificates w vs issuerName issuerKind issuerGroup
        = Returns ([], ([], [], Some err))).
Proof.
  intros Hget Hfound. split; cycle 1.
  { intros err Hfails.
    apply (buildCertificates_translation_error libraries W C w vs issuerName issuerKind
             issuerGroup None found err Hget); [now rewrite Hfound | exact Hfails]. }
  intros crt Htranslates.
  split.
  { rewrite (buildCertificates_translated libraries W C w vs issuerName issuerKind
               issuerGroup None found crt Hget);
      [reflexivity | now rewrite Hfound | exact Htranslates]. }
  destruct Htranslates as (a & Hconvert & Htranslate).
  destruct (translateAnnotations_untouched _ _ _ _ _ Htranslate)
    as (after & [= <-] & (Hmeta & Hdns & Hsecret & Hissuer) & Husages).
  split; [unfold GetName; simpl; now rewrite Hmeta|].
  split; [now rewrite Hdns|].
  split; [now rewrite Hissuer|].
  intros spec Hblock _. fold (configOf vs) in Hconvert. rewrite Hblock in Hconvert.
  destruct (convertVsCmSpecToAnnotations_keys spec) as (a' & Hconvert' & _ & _ & Hnone).
  rewrite Hconvert' in Hconvert. injection Hconvert as <-.
  now rewrite (Husages Hnone).
Qed.

(** C7, as amended. (1) When the issuer resolver returns an error, the pass
    logs it, records one Warning event of reason BadConfig, sends no request
    to the API server and returns no error.  (2) When the resolver succeeds,
    the lister does not fail and the translation fails, the pass sends no
    request either, and returns the translation error to its caller.  (3) An
    error the pass returns is the error of a request to the lister or the
    client (get, create, update, list, delete), or that translation error. *)
Theorem SyncFnFor_failures
    (libraries : GoLibraries) (W : Type) (C : Cluster W)
    (defaults : controller.IngressShimOptions.t) (w : W) (vs : vsapi.VirtualServer.t) :
  (forall (name kind group : string) (err : error),
      issuerForIngressLike defaults vs = Returns (name, kind, group, Some err) ->
      SyncFnFor defaults w vs
      = Returns
          (Build_Pass w []
             [Eventf vs EventTypeWarning reasonBadConfig
                "Could not determine issuer for ingress due to bad annotations: %s"
                [ArgError err]]
             [LogError err "failed to determine issuer to be used for ingress resource"],
           None))
  /\ (forall (issuerName issuerKind issuerGroup : string)
        (existingCrt : option cmapi.Certificate.t) (found : option error) (err : error),
        issuerForIngressLike defaults vs
        = Returns (issuerName, issuerKind, issuerGroup, None) ->
        CertificatesGet w (GetNamespace vs) (secretOf vs) = (existingCrt, found) ->
        negb (IsNotFound found) && notNil found = false ->
        translationFails vs
          (desiredCertificate vs [hostOf vs] issuerName issuerKind issuerGroup) err ->
        SyncFnFor defaults w vs = Returns (Build_Pass w [] [] [], Some err))
  /\ (forall (p : Pass W) (err : error),
        SyncFnFor defaults w vs = Returns (p, Some err) ->
        storeFailure err
        \/ exists issuerName issuerKind issuerGroup : string,
             issuerForIngressLike defaults vs
             = Returns (issuerName, issuerKind, issuerGroup, None)
             /\ translationFails vs
                  (desiredCertificate vs [hostOf vs] issuerName issuerKind issuerGroup)
                  err).
Proof.
  split; [|split].
  - intros name kind group err Hresolve. now apply SyncFnFor_issuer_error with name kind group.
  - intros issuerName issuerKind issuerGroup existingCrt found err Hresolve Hget Hfound Hfails.
    unfold SyncFnFor. rewrite Hresolve, outcome_bind_Returns. cbv beta iota zeta.
    change (cluster (startPass w)) with w.
    rewrite (buildCertificates_translation_error _ _ _ _ _ _ _ _ _ _ _ Hget Hfound Hfails).
    reflexivity.
  - intros p err. apply SyncFnFor_error_origin.
Qed.

(** ** Further properties *)

(** *** The annotation translator *)

(** X1. When the map holds none of the four keys of the translator, whatever
    else it holds, [translateAnnotations] returns no error and leaves the
    certificate as it was. *)
Theorem translateAnnotations_unrecognised_keys (libraries : GoLibraries)
    (crt : cmapi.Certificate.t) (a : gmap string string) :
  a !! cmapi.CommonNameAnnotationKey = None ->
  a !! cmapi.DurationAnnotationKey = None ->
  a !! cmapi.RenewBeforeAnnotationKey = None ->
  a !! cmapi.UsagesAnnotationKey = None ->
  translateAnnotations (Some crt) a = (Some crt, None).
Proof.
  intros Hcn Hdu Hrb Hus.
  unfold translateAnnotations, andThen, commonNameBlock, durationBlock,
    renewBeforeBlock, usagesBlock.
  now rewrite Hcn, Hdu, Hrb, Hus.
Qed.

(** X2. Whether it succeeds or fails, [translateAnnotations] on a non-nil
    certificate never changes its name, namespace, labels, owner references,
    DNS names, secret name or issuer reference. *)
Theorem translateAnnotations_keeps_identity (libraries : GoLibraries)
    (crt : cmapi.Certificate.t) (a : gmap string string) :
  exists after : cmapi.Certificate.t,
    fst (translateAnnotations (Some crt) a) = Some after
    /\ GetName after = GetName crt
    /\ GetNamespace after = GetNamespace crt
    /\ GetLabels after = GetLabels crt
    /\ GetOwnerReferences after = GetOwnerReferences crt
    /\ cmapi.CertificateSpec.DNSNames (cmapi.Certificate.Spec after)
       = cmapi.CertificateSpec.DNSNames (cmapi.Certificate.Spec crt)
    /\ cmapi.CertificateSpec.SecretName (cmapi.Certificate.Spec after)
       = cmapi.CertificateSpec.SecretName (cmapi.Certificate.Spec crt)
    /\ cmapi.CertificateSpec.IssuerRef (cmapi.Certificate.Spec after)
       = cmapi.CertificateSpec.IssuerRef (cmapi.Certificate.Spec crt).
Proof.
  destruct (translateAnnotations (Some crt) a) as [crt' err] eqn:Htranslate.
  destruct (translateAnnotations_untouched _ _ _ _ _ Htranslate)
    as (after & -> & (Hmeta & Hdns & Hsecret & Hissuer) & _).
  exists after. unfold GetName, GetNamespace, GetLabels, GetOwnerReferences. simpl.
  rewrite Hmeta, Hdns, Hsecret, Hissuer. repeat split.
Qed.

(** X3. When the value of the duration key does not parse,
    [translateAnnotations] returns an error that wraps
    [errInvalidIngressAnnotation], names the duration key and carries the
    parser's error; the certificate has by then received the common name, if
    the map has one, and nothing else. *)
Theorem translateAnnotations_duration_error (libraries : GoLibraries)
    (crt : cmapi.Certificate.t) (a : gmap string string)
    (duration : string) (d : Z) (err : error) :
  a !! cmapi.DurationAnnotationKey = Some duration ->
  ParseDuration duration = (d, Some err) ->
  translateAnnotations (Some crt) a
  = (Some match a !! cmapi.CommonNameAnnotationKey with
          | Some commonName => setCommonName crt commonName
          | None => crt
          end,
     Some (fmtErrorf "%w %q: %v"
             [ArgError errInvalidIngressAnnotation;
              ArgString cmapi.DurationAnnotationKey;
              ArgError err])).
Proof.
  intros Hdu Hparse.
  unfold translateAnnotations, andThen, commonNameBlock, durationBlock.
  rewrite Hdu. generalize (a !! cmapi.CommonNameAnnotationKey). intros cn.
  destruct cn; rewrite Hparse; reflexivity.
Qed.

(** X4. When the duration parses and the value of the renew-before key does
    not, the error names the renew-before key and the certificate is left with
    the new duration: the keys before the failing one have been applied. *)
Theorem translateAnnotations_renewBefore_error (libraries : GoLibraries)
    (crt : cmapi.Certificate.t) (a : gmap string string)
    (duration renewBefore : string) (d r : Z) (err : error) :
  a !! cmapi.CommonNameAnnotationKey = None ->
  a !! cmapi.DurationAnnotationKey = Some duration ->
  ParseDuration duration = (d, None) ->
  a !! cmapi.RenewBeforeAnnotationKey = Some renewBefore ->
  ParseDuration renewBefore = (r, Some err) ->
  translateAnnotations (Some crt) a
  = (Some (setDuration crt (Some d)),
     Some (fmtErrorf "%w %q: %v"
             [ArgError errInvalidIngressAnnotation;
              ArgString cmapi.RenewBeforeAnnotationKey;
              ArgError err])).
Proof.
  intros Hcn Hdu Hd Hrb Hr.
  unfold translateAnnotations, andThen, commonNameBlock, durationBlock, renewBeforeBlock.
  now rewrite Hcn, Hdu, Hd, Hrb, Hr.
Qed.

(** The usages loop succeeds exactly on lists of known names, and then appends
    the trimmed names in order. *)
Lemma usagesLoop_success (libraries : GoLibraries) (usageNames : list string)
    (newUsages result : list cmapi.KeyUsage) :
  usagesLoop usageNames newUsages = (result, None)
  <-> (forallb knownUsage usageNames = true
       /\ result = newUsages ++ List.map (fun usageName => Trim usageName " ") usageNames).
Proof.
  revert newUsages. induction usageNames as [|usageName rest IH]; intros newUsages.
  - simpl. rewrite app_nil_r. split.
    + intros [= <-]. split; reflexivity.
    + intros [_ ->]. reflexivity.
  - cbn [usagesLoop forallb List.map]. unfold knownUsage at 1.
    destruct (KeyUsageType (Trim usageName " ")) as [ku isKU].
    destruct (ExtKeyUsageType (Trim usageName " ")) as [eku isEKU].
    cbn [snd]. destruct isKU, isEKU; cbn [negb andb orb].
    4: { split; [discriminate | intros [Hk _]; discriminate Hk]. }
    all: rewrite IH, <- app_assoc; reflexivity.
Qed.

(** A failing usages loop stops at the first unknown name and names it as it
    stands in the list. *)
Lemma usagesLoop_failure (libraries : GoLibraries) (usageNames : list string)
    (newUsages result : list cmapi.KeyUsage) (err : error) :
  usagesLoop usageNames newUsages = (result, Some err) ->
  exists (before : list string) (usageName : string) (after : list string),
    usageNames = before ++ usageName :: after
    /\ forallb knownUsage before = true
    /\ knownUsage usageName = false
    /\ err = fmtErrorf "%w %q: invalid key usage name %q"
               [ArgError errInvalidIngressAnnotation;
                ArgString cmapi.UsagesAnnotationKey;
                ArgString usageName].
Proof.
  revert newUsages. induction usageNames as [|usageName rest IH]; intros newUsages.
  - discriminate.
  - cbn [usagesLoop].
    destruct (KeyUsageType (Trim usageName " ")) as [ku isKU] eqn:Hku.
    destruct (ExtKeyUsageType (Trim usageName " ")) as [eku isEKU] eqn:Heku.
    destruct (negb isKU && negb isEKU) eqn:Hknown.
    + intros [= _ <-]. exists [], usageName, rest. repeat split.
      unfold knownUsage. rewrite Hku, Heku. cbn [snd].
      destruct isKU, isEKU; try discriminate Hknown; reflexivity.
    + intros Hrest. destruct (IH _ Hrest) as (before & bad & after & -> & Hbefore & Hbad & ->).
      exists (usageName :: before), bad, after. repeat split; try assumption.
      cbn [forallb]. rewrite Hbefore. unfold knownUsage. rewrite Hku, Heku. cbn [snd].
      destruct isKU, isEKU; try discriminate Hknown; reflexivity.
Qed.

(** Success of the translation, in terms of the values of the map. *)
Lemma translateAnnotations_valid (libraries : GoLibraries)
    (crt : cmapi.Certificate.t) (a : gmap string string) :
  snd (translateAnnotations (Some crt) a) = None <-> validAnnotations a.
Proof.
  unfold validAnnotations, translateAnnotations, andThen, commonNameBlock, durationBlock,
    renewBeforeBlock, usagesBlock.
  generalize (a !! cmapi.CommonNameAnnotationKey) (a !! cmapi.DurationAnnotationKey)
    (a !! cmapi.RenewBeforeAnnotationKey) (a !! cmapi.UsagesAnnotationKey).
  intros cn du rb us.
  assert (Hloop : forall u : string,
             snd (usagesLoop (Split u ",") []) = None
             <-> forallb knownUsage (Split u ",") = true).
  { intros u. destruct (usagesLoop (Split u ",") []) as [r [e|]] eqn:Hl; cbn [snd].
    - split; [discriminate|]. intros Hall.
      destruct (usagesLoop_failure _ _ _ _ _ Hl) as (before & bad & after & Hsplit & _ & Hbad & _).
      rewrite Hsplit, forallb_app in Hall. cbn [forallb] in Hall. rewrite Hbad in Hall.
      rewrite andb_false_r in Hall. discriminate Hall.
    - split; [|reflexivity]. intros _. now apply usagesLoop_success in Hl. }
  destruct cn as [cn|]; destruct du as [du|]; destruct rb as [rb|]; destruct us as [us|];
    try (destruct (ParseDuration du) as [d1 [e1|]] eqn:Hd1);
    try (destruct (ParseDuration rb) as [d2 [e2|]] eqn:Hd2);
    try (specialize (Hloop us);
         destruct (usagesLoop (Split us ",") []) as [nu [e3|]] eqn:Hl);
    cbn [snd] in *;
    (split;
     [ intros Herr; try discriminate Herr;
       (split; [|split]); intros x [= <-]; try discriminate;
       try (rewrite ?Hd1, ?Hd2; reflexivity); try (now apply Hloop)
     | intros (Hdu & Hrb & Hus); try reflexivity;
       try (specialize (Hdu _ eq_refl); rewrite Hd1 in Hdu; discriminate Hdu);
       try (specialize (Hrb _ eq_refl); rewrite Hd2 in Hrb; discriminate Hrb);
       try (specialize (Hus _ eq_refl); apply Hloop in Hus; discriminate Hus) ]).
Qed.

(** X5. [translateAnnotations] on a non-nil certificate returns no error
    exactly when the duration and the renew-before value, where present,
    parse, and every comma-separated name of the usages value, where present,
    is a known usage once trimmed. *)
Theorem translateAnnotations_succeeds_iff_valid (libraries : GoLibraries)
    (crt : cmapi.Certificate.t) (a : gmap string string) :
  snd (translateAnnotations (Some crt) a) = None <-> validAnnotations a.
Proof. apply translateAnnotations_valid. Qed.

(** X6. After a successful translation each of the four fields holds the value
    of its own key when the key is present (the parsed duration, the parsed
    renew-before, the trimmed usages in their order, replacing the former
    ones) and its former value when the key is absent. *)
Theorem translateAnnotations_success_fields (libraries : GoLibraries)
    (crt crt' : cmapi.Certificate.t) (a : gmap string string) :
  translateAnnotations (Some crt) a = (Some crt', None) ->
  cmapi.CertificateSpec.CommonName (cmapi.Certificate.Spec crt')
  = match a !! cmapi.CommonNameAnnotationKey with
    | Some commonName => commonName
    | None => cmapi.CertificateSpec.CommonName (cmapi.Certificate.Spec crt)
    end
  /\ cmapi.CertificateSpec.Duration (cmapi.Certificate.Spec crt')
     = match a !! cmapi.DurationAnnotationKey with
       | Some duration => Some (fst (ParseDuration duration))
       | None => cmapi.CertificateSpec.Duration (cmapi.Certificate.Spec crt)
       end
  /\ cmapi.CertificateSpec.RenewBefore (cmapi.Certificate.Spec crt')
     = match a !! cmapi.RenewBeforeAnnotationKey with
       | Some renewBefore => Some (fst (ParseDuration renewBefore))
       | None => cmapi.CertificateSpec.RenewBefore (cmapi.Certificate.Spec crt)
       end
  /\ cmapi.CertificateSpec.Usages (cmapi.Certificate.Spec crt')
     = match a !! cmapi.UsagesAnnotationKey with
       | Some usages => List.map (fun usageName => Trim usageName " ") (Split usages ",")
       | None => cmapi.CertificateSpec.Usages (cmapi.Certificate.Spec crt)
       end.
Proof.
  unfold translateAnnotations, andThen, commonNameBlock, durationBlock,
    renewBeforeBlock, usagesBlock.
  generalize (a !! cmapi.CommonNameAnnotationKey) (a !! cmapi.DurationAnnotationKey)
    (a !! cmapi.RenewBeforeAnnotationKey) (a !! cmapi.UsagesAnnotationKey).
  intros cn du rb us.
  destruct cn as [cn|]; destruct du as [du|]; destruct rb as [rb|]; destruct us as [us|];
    try (destruct (ParseDuration du) as [d1 [e1|]] eqn:Hd1);
    try (destruct (ParseDuration rb) as [d2 [e2|]] eqn:Hd2);
    try (destruct (usagesLoop (Split us ",") []) as [nu [e3|]] eqn:Hl);
    intros [= <-]; cbn [fst];
    try (apply usagesLoop_success in Hl as [_ ->]);
    repeat split.
Qed.

(** X7. When one name of the usages value is not a known usage, the translation
    returns an error and the usages of the certificate are what they were. *)
Theorem translateAnnotations_unknown_usage (libraries : GoLibraries)
    (crt : cmapi.Certificate.t) (a : gmap string string) (usages usageName : string) :
  a !! cmapi.UsagesAnnotationKey = Some usages ->
  In usageName (Split usages ",") ->
  knownUsage usageName = false ->
  exists (after : cmapi.Certificate.t) (err : error),
    translateAnnotations (Some crt) a = (Some after, Some err)
    /\ cmapi.CertificateSpec.Usages (cmapi.Certificate.Spec after)
       = cmapi.CertificateSpec.Usages (cmapi.Certificate.Spec crt).
Proof.
  intros Hus Hin Hunknown.
  destruct (translateAnnotations (Some crt) a) as [crt' err] eqn:Htranslate.
  assert (Herr : err <> None).
  { intros ->. 
    assert (Hvalid : validAnnotations a).
    { apply (translateAnnotations_valid _ crt). now rewrite Htranslate. }
    destruct Hvalid as (_ & _ & Hall). specialize (Hall _ Hus).
    rewrite forallb_forall in Hall. specialize (Hall _ Hin). congruence. }
  destruct err as [err|]; [|congruence].
  revert Htranslate.
  unfold translateAnnotations, andThen, commonNameBlock, durationBlock,
    renewBeforeBlock, usagesBlock.
  generalize (a !! cmapi.CommonNameAnnotationKey) (a !! cmapi.DurationAnnotationKey)
    (a !! cmapi.RenewBeforeAnnotationKey) (a !! cmapi.UsagesAnnotationKey).
  intros cn du rb us.
  destruct cn as [cn|]; destruct du as [du|]; destruct rb as [rb|]; destruct us as [us|];
    try (destruct (ParseDuration du) as [d1 [e1|]] eqn:Hd1);
    try (destruct (ParseDuration rb) as [d2 [e2|]] eqn:Hd2);
    try (destruct (usagesLoop (Split us ",") []) as [nu [e3|]] eqn:Hl);
    intros [= <- <-]; eexists _, _; (split; [reflexivity|]); reflexivity.
Qed.

(** *** The issuer resolver *)

(** [len(s) == 0] is [s == ""]. *)
Lemma length_eqb_empty (s : string) : Nat.eqb (String.length s) 0 = String.eqb s "".
Proof. destruct s; reflexivity. Qed.

(** X8. On a config block, [getVsCmSpecIssuerAnnotations] returns no error and
    a map whose entries are exactly the non-empty ones among clusterIssuer,
    issuer, issuerKind and issuerGroup, each under its own key. *)
Theorem getVsCmSpecIssuerAnnotations_entries (spec : vsapi.CertManager.t) :
  exists a : gmap string string,
    getVsCmSpecIssuerAnnotations (Some spec) = Returns (Some a, None)
    /\ forall key value : string,
         a !! key = Some value
         <-> value <> ""
             /\ ((key = cmapi.IngressClusterIssuerNameAnnotationKey
                  /\ value = vsapi.CertManager.ClusterIssuer spec)
                 \/ (key = cmapi.IngressIssuerNameAnnotationKey
                     /\ value = vsapi.CertManager.Issuer spec)
                 \/ (key = cmapi.IssuerKindAnnotationKey
                     /\ value = vsapi.CertManager.IssuerKind spec)
                 \/ (key = cmapi.IssuerGroupAnnotationKey
                     /\ value = vsapi.CertManager.IssuerGroup spec)).
Proof.
  destruct (getVsCmSpecIssuerAnnotations_lookups spec) as (a & Ha & Hi & Hc & Hk & Hg).
  exists a. split; [exact Ha|].
  assert (Hother : forall key : string,
             key <> cmapi.IngressClusterIssuerNameAnnotationKey ->
             key <> cmapi.IngressIssuerNameAnnotationKey ->
             key <> cmapi.IssuerKindAnnotationKey ->
             key <> cmapi.IssuerGroupAnnotationKey ->
             a !! key = None).
  { intros key H1 H2 H3 H4. revert Ha. unfold getVsCmSpecIssuerAnnotations.
    unfold getVsCmSpecShimAnnotations, deref. rewrite !outcome_bind_Returns.
    cbv beta iota zeta. intros [= <-].
    rewrite !lookup_setIfNonEmpty_ne by congruence. apply lookup_empty. }
  intros key value.
  assert (Hfield : forall field : string,
             (if String.eqb field "" then None else Some field) = Some value
             <-> value <> "" /\ value = field).
  { intros field. destruct (String.eqb field "") eqn:Hf.
    - apply String.eqb_eq in Hf. split; [discriminate | intros [Hne ->]; congruence].
    - apply String.eqb_neq in Hf. split; [intros [= <-]; now split | intros [_ ->]; reflexivity]. }
  destruct (decide (key = cmapi.IngressClusterIssuerNameAnnotationKey)) as [->|N1].
  { rewrite Hc, Hfield. split; [intros [? ?]; split; [assumption|left; now split]|].
    intros [Hne [[_ ->]|[[E _]|[[E _]|[E _]]]]]; try (now split); exfalso; revert E; distinct_keys. }
  destruct (decide (key = cmapi.IngressIssuerNameAnnotationKey)) as [->|N2].
  { rewrite Hi, Hfield. split; [intros [? ?]; split; [assumption|right; left; now split]|].
    intros [Hne [[E _]|[[_ ->]|[[E _]|[E _]]]]]; try (now split); exfalso; revert E; distinct_keys. }
  destruct (decide (key = cmapi.IssuerKindAnnotationKey)) as [->|N3].
  { rewrite Hk, Hfield. split; [intros [? ?]; split; [assumption|right; right; left; now split]|].
    intros [Hne [[E _]|[[E _]|[[_ ->]|[E _]]]]]; try (now split); exfalso; revert E; distinct_keys. }
  destruct (decide (key = cmapi.IssuerGroupAnnotationKey)) as [->|N4].
  { rewrite Hg, Hfield. split; [intros [? ?]; split; [assumption|right; right; right; now split]|].
    intros [Hne [[E _]|[[E _]|[[E _]|[_ ->]]]]]; try (now split); exfalso; revert E; distinct_keys. }
  rewrite (Hother key N1 N2 N3 N4). split; [discriminate|].
  intros [_ [[E _]|[[E _]|[[E _]|[E _]]]]]; congruence.
Qed.

(** Turn boolean string comparisons of the context into (in)equalities. *)
Ltac eqb_to_prop :=
  repeat match goal with
    | H : String.eqb _ _ = true |- _ => apply String.eqb_eq in H
    | H : String.eqb _ _ = false |- _ => apply String.eqb_neq in H
    end.

(** X9. On a VirtualServer with a config block, [issuerForIngressLike] returns
    [name, kind, group] without error exactly when: the name is the cluster
    issuer, else the issuer, else the default name, and is not empty; the kind
    is issuerKind, else ClusterIssuer or Issuer according to the override that
    gave the name, else the default kind; the group is issuerGroup, else the
    default group; issuer and clusterIssuer are not both set; and clusterIssuer
    is set with neither issuerGroup nor issuerKind. *)
Theorem issuerForIngressLike_resolves (defaults : controller.IngressShimOptions.t)
    (vs : vsapi.VirtualServer.t) (spec : vsapi.CertManager.t) (name kind group : string) :
  configOf vs = Some spec ->
  issuerForIngressLike defaults vs = Returns (name, kind, group, None)
  <-> name = orElse (vsapi.CertManager.ClusterIssuer spec)
               (orElse (vsapi.CertManager.Issuer spec)
                  (controller.IngressShimOptions.DefaultIssuerName defaults))
      /\ kind = orElse (vsapi.CertManager.IssuerKind spec)
                  (if String.eqb (vsapi.CertManager.ClusterIssuer spec) ""
                   then if String.eqb (vsapi.CertManager.Issuer spec) ""
                        then controller.IngressShimOptions.DefaultIssuerKind defaults
                        else cmapi.IssuerKind
                   else cmapi.ClusterIssuerKind)
      /\ group = orElse (vsapi.CertManager.IssuerGroup spec)
                   (controller.IngressShimOptions.DefaultIssuerGroup defaults)
      /\ name <> ""
      /\ (vsapi.CertManager.Issuer spec = "" \/ vsapi.CertManager.ClusterIssuer spec = "")
      /\ (vsapi.CertManager.ClusterIssuer spec = ""
          \/ (vsapi.CertManager.IssuerGroup spec = ""
              /\ vsapi.CertManager.IssuerKind spec = "")).
Proof.
  unfold configOf. intros Hblock.
  destruct (getVsCmSpecIssuerAnnotations_lookups spec) as (a & Ha & Hi & Hc & Hk & Hg).
  unfold issuerForIngressLike. rewrite Hblock, Ha, outcome_bind_Returns.
  cbv beta iota zeta. rewrite Hi, Hc, Hk, Hg. unfold orElse.
  destruct (String.eqb (vsapi.CertManager.Issuer spec) "") eqn:Ei;
    destruct (String.eqb (vsapi.CertManager.ClusterIssuer spec) "") eqn:Ec;
    destruct (String.eqb (vsapi.CertManager.IssuerKind spec) "") eqn:Ek;
    destruct (String.eqb (vsapi.CertManager.IssuerGroup spec) "") eqn:Eg;
    cbv beta iota zeta; rewrite length_eqb_empty; rewrite ?Ei, ?Ec;
    try (destruct (String.eqb (controller.IngressShimOptions.DefaultIssuerName defaults) "")
           eqn:Ed);
    cbn [notNil andb appendIf app length Nat.ltb Nat.leb Join];
    eqb_to_prop;
    (split;
     [ intros Hresult; try discriminate Hresult;
       injection Hresult as <- <- <-; repeat split; auto
     | intros (-> & -> & -> & Hname & Hic & Hcgk);
       try reflexivity; exfalso;
       try congruence;
       try (destruct Hic; congruence);
       try (destruct Hcgk as [?|[? ?]]; congruence) ]).
Qed.

(** Find a quoted key in a text built by [bothMayNotBeSet] and [+:+]. *)
Ltac contains_found :=
  first
    [ apply Contains_refl
    | apply (proj1 (bothMayNotBeSet_names _ _))
    | apply (proj2 (bothMayNotBeSet_names _ _))
    | apply Contains_append_l; contains_found
    | apply Contains_append_r; contains_found ].

(** X10. When [issuerForIngressLike] returns an error, the three strings it
    returns are empty, and the error is an [errors.New] of a non-empty text. *)
Theorem issuerForIngressLike_error_results (defaults : controller.IngressShimOptions.t)
    (vs : vsapi.VirtualServer.t) (name kind group : string) (err : error) :
  issuerForIngressLike defaults vs = Returns (name, kind, group, Some err) ->
  name = "" /\ kind = "" /\ group = ""
  /\ exists text : string, err = errorsNew text /\ text <> "".
Proof.
  unfold issuerForIngressLike.
  destruct (vsapi.TLS.CertManager _) as [spec|]; [|discriminate].
  destruct (getVsCmSpecIssuerAnnotations_lookups spec) as (a & Ha & Hi & Hc & Hk & Hg).
  rewrite Ha, outcome_bind_Returns.
  cbv beta iota zeta. rewrite Hi, Hc, Hk, Hg.
  destruct (String.eqb (vsapi.CertManager.Issuer spec) "") eqn:Ei;
    destruct (String.eqb (vsapi.CertManager.ClusterIssuer spec) "") eqn:Ec;
    destruct (String.eqb (vsapi.CertManager.IssuerKind spec) "") eqn:Ek;
    destruct (String.eqb (vsapi.CertManager.IssuerGroup spec) "") eqn:Eg;
    cbv beta iota zeta; rewrite length_eqb_empty; rewrite ?Ei, ?Ec;
    try (destruct (String.eqb (controller.IngressShimOptions.DefaultIssuerName defaults) "")
           eqn:Ed);
    cbn [notNil andb appendIf app length Nat.ltb Nat.leb Join];
    intros Hresult; try discriminate Hresult;
    injection Hresult as <- <- <- <-; repeat split;
    eexists; (split; [reflexivity | discriminate]).
Qed.

(** X11. With clusterIssuer set, setting issuerGroup yields an error whose text
    names the cluster-issuer key and the issuer-group key, and setting
    issuerKind yields one that names the cluster-issuer key and the
    issuer-kind key. *)
Theorem issuerForIngressLike_clusterIssuer_conflicts
    (defaults : controller.IngressShimOptions.t)
    (vs : vsapi.VirtualServer.t) (spec : vsapi.CertManager.t) :
  configOf vs = Some spec ->
  vsapi.CertManager.ClusterIssuer spec <> "" ->
  (vsapi.CertManager.IssuerGroup spec <> "" ->
   exists text : string,
     issuerForIngressLike defaults vs = Returns ("", "", "", Some (errorsNew text))
     /\ Contains text (quote cmapi.IngressClusterIssuerNameAnnotationKey)
     /\ Contains text (quote cmapi.IssuerGroupAnnotationKey))
  /\ (vsapi.CertManager.IssuerKind spec <> "" ->
      exists text : string,
        issuerForIngressLike defaults vs = Returns ("", "", "", Some (errorsNew text))
        /\ Contains text (quote cmapi.IngressClusterIssuerNameAnnotationKey)
        /\ Contains text (quote cmapi.IssuerKindAnnotationKey)).
Proof.
  unfold configOf. intros Hblock Hcluster.
  destruct (getVsCmSpecIssuerAnnotations_lookups spec) as (a & Ha & Hi & Hc & Hk & Hg).
  unfold issuerForIngressLike. rewrite Hblock, Ha, outcome_bind_Returns.
  cbv beta iota zeta. rewrite Hi, Hc, Hk, Hg.
  rewrite (eqb_empty_false _ Hcluster).
  cbv beta iota zeta. rewrite (length_nonempty _ Hcluster).
  destruct (String.eqb (vsapi.CertManager.Issuer spec) "") eqn:Ei;
    destruct (String.eqb (vsapi.CertManager.IssuerKind spec) "") eqn:Ek;
    destruct (String.eqb (vsapi.CertManager.IssuerGroup spec) "") eqn:Eg;
    cbn [notNil andb appendIf app length Nat.ltb Nat.leb Join];
    eqb_to_prop;
    (split; intros ?; try congruence; eexists; (split; [reflexivity|]);
     split; contains_found).
Qed.

(** X12. Without a default issuer name and with neither issuer nor
    clusterIssuer set, the resolver fails with the one message that no issuer
    name could be determined, whatever issuerKind and issuerGroup are. *)
Theorem issuerForIngressLike_no_issuer_name (defaults : controller.IngressShimOptions.t)
    (vs : vsapi.VirtualServer.t) (spec : vsapi.CertManager.t) :
  configOf vs = Some spec ->
  controller.IngressShimOptions.DefaultIssuerName defaults = "" ->
  vsapi.CertManager.Issuer spec = "" ->
  vsapi.CertManager.ClusterIssuer spec = "" ->
  issuerForIngressLike defaults vs
  = Returns ("", "", "",
             Some (errorsNew
                     "failed to determine issuer name to be used for virtualserver resource")).
Proof.
  unfold configOf. intros Hblock Hdefault Hissuer Hcluster.
  destruct (getVsCmSpecIssuerAnnotations_lookups spec) as (a & Ha & Hi & Hc & Hk & Hg).
  unfold issuerForIngressLike. rewrite Hblock, Ha, outcome_bind_Returns.
  cbv beta iota zeta. rewrite Hi, Hc, Hk, Hg, Hissuer, Hcluster, Hdefault.
  destruct (String.eqb (vsapi.CertManager.IssuerKind spec) "");
    destruct (String.eqb (vsapi.CertManager.IssuerGroup spec) ""); reflexivity.
Qed.

(** X13. With the four overrides set, the error text lists the three violated
    rules, joined by ", ": issuer with clusterIssuer, clusterIssuer with
    issuerGroup, clusterIssuer with issuerKind, in that order. *)
Theorem issuerForIngressLike_all_violations (defaults : controller.IngressShimOptions.t)
    (vs : vsapi.VirtualServer.t) (spec : vsapi.CertManager.t) :
  configOf vs = Some spec ->
  vsapi.CertManager.Issuer spec <> "" ->
  vsapi.CertManager.ClusterIssuer spec <> "" ->
  vsapi.CertManager.IssuerKind spec <> "" ->
  vsapi.CertManager.IssuerGroup spec <> "" ->
  issuerForIngressLike defaults vs
  = Returns ("", "", "",
             Some (errorsNew
                     (Join
                        [bothMayNotBeSet cmapi.IngressIssuerNameAnnotationKey
                           cmapi.IngressClusterIssuerNameAnnotationKey;
                         bothMayNotBeSet cmapi.IngressClusterIssuerNameAnnotationKey
                           cmapi.IssuerGroupAnnotationKey;
                         bothMayNotBeSet cmapi.IngressClusterIssuerNameAnnotationKey
                           cmapi.IssuerKindAnnotationKey] ", "))).
Proof.
  unfold configOf. intros Hblock Hissuer Hcluster Hkind Hgroup.
  destruct (getVsCmSpecIssuerAnnotations_lookups spec) as (a & Ha & Hi & Hc & Hk & Hg).
  unfold issuerForIngressLike. rewrite Hblock, Ha, outcome_bind_Returns.
  cbv beta iota zeta. rewrite Hi, Hc, Hk, Hg.
  rewrite (eqb_empty_false _ Hissuer), (eqb_empty_false _ Hcluster),
    (eqb_empty_false _ Hkind), (eqb_empty_false _ Hgroup).
  cbv beta iota zeta. rewrite (length_nonempty _ Hcluster). reflexivity.
Qed.

(** *** The update check *)

(** On lists of the same length the loop over the DNS names finds a difference
    exactly when there is one. *)
Lemma dnsNamesDiffer_same_length (a b : list string) :
  length a = length b -> (dnsNamesDiffer a b = false <-> a = b).
Proof.
  revert b. induction a as [|x a IH]; intros [|y b] Hlen; try discriminate Hlen.
  - split; reflexivity.
  - simpl. injection Hlen as Hlen. destruct (String.eqb x y) eqn:Hxy; simpl.
    + apply String.eqb_eq in Hxy as ->. rewrite (IH b Hlen).
      split; [intros ->; reflexivity | intros [= ->]; reflexivity].
    + apply String.eqb_neq in Hxy. split; [discriminate | intros [= ? _]; contradiction].
Qed.

(** The fields [certNeedsUpdate] compares. *)
Lemma certNeedsUpdate_compared_fields (a b : cmapi.Certificate.t) :
  certNeedsUpdate a b = false
  <-> GetName a = GetName b
      /\ GetLabels a = GetLabels b
      /\ cmapi.CertificateSpec.CommonName (cmapi.Certificate.Spec a)
         = cmapi.CertificateSpec.CommonName (cmapi.Certificate.Spec b)
      /\ cmapi.CertificateSpec.DNSNames (cmapi.Certificate.Spec a)
         = cmapi.CertificateSpec.DNSNames (cmapi.Certificate.Spec b)
      /\ cmapi.CertificateSpec.SecretName (cmapi.Certificate.Spec a)
         = cmapi.CertificateSpec.SecretName (cmapi.Certificate.Spec b)
      /\ cmmeta.ObjectReference.Name
           (cmapi.CertificateSpec.IssuerRef (cmapi.Certificate.Spec a))
         = cmmeta.ObjectReference.Name
             (cmapi.CertificateSpec.IssuerRef (cmapi.Certificate.Spec b))
      /\ cmmeta.ObjectReference.Kind
           (cmapi.CertificateSpec.IssuerRef (cmapi.Certificate.Spec a))
         = cmmeta.ObjectReference.Kind
             (cmapi.CertificateSpec.IssuerRef (cmapi.Certificate.Spec b)).
Proof.
  unfold certNeedsUpdate. cbv zeta.
  destruct (String.eqb (GetName a) (GetName b)) eqn:Hname; cbn [negb];
    [apply String.eqb_eq in Hname
    |apply String.eqb_neq in Hname; split; [discriminate | intros (? & _); contradiction]].
  destruct (bool_decide (GetLabels a = GetLabels b)) eqn:Hlabels; cbn [negb];
    [apply bool_decide_eq_true_1 in Hlabels
    |apply bool_decide_eq_false_1 in Hlabels; split;
     [discriminate | intros (_ & ? & _); contradiction]].
  destruct (String.eqb (cmapi.CertificateSpec.CommonName _) _) eqn:Hcn; cbn [negb];
    [apply String.eqb_eq in Hcn
    |apply String.eqb_neq in Hcn; split;
     [discriminate | intros (_ & _ & ? & _); contradiction]].
  destruct (Nat.eqb (length _) (length _)) eqn:Hlen; cbn [negb];
    [apply Nat.eqb_eq in Hlen
    |apply Nat.eqb_neq in Hlen; split;
     [discriminate | intros (_ & _ & _ & Hdns & _); rewrite Hdns in Hlen; contradiction]].
  destruct (dnsNamesDiffer _ _) eqn:Hdns.
  { split; [discriminate|]. intros (_ & _ & _ & Heq & _).
    apply (dnsNamesDiffer_same_length _ _ Hlen) in Heq. congruence. }
  apply (dnsNamesDiffer_same_length _ _ Hlen) in Hdns.
  destruct (String.eqb (cmapi.CertificateSpec.SecretName _) _) eqn:Hsecret; cbn [negb];
    [apply String.eqb_eq in Hsecret
    |apply String.eqb_neq in Hsecret; split;
     [discriminate | intros (_ & _ & _ & _ & ? & _); contradiction]].
  destruct (String.eqb (cmmeta.ObjectReference.Name _) _) eqn:Hiname; cbn [negb];
    [apply String.eqb_eq in Hiname
    |apply String.eqb_neq in Hiname; split;
     [discriminate | intros (_ & _ & _ & _ & _ & ? & _); contradiction]].
  destruct (String.eqb (cmmeta.ObjectReference.Kind _) _) eqn:Hikind; cbn [negb];
    [apply String.eqb_eq in Hikind
    |apply String.eqb_neq in Hikind; split;
     [discriminate | intros (_ & _ & _ & _ & _ & _ & ?); contradiction]].
  split; [intros _; repeat split; assumption | reflexivity].
Qed.

(** X14. [certNeedsUpdate] answers false exactly when the two certificates
    agree on name, labels, common name, DNS names (same length, same order),
    secret name, issuer name and issuer kind. *)
Theorem certNeedsUpdate_false_iff (a b : cmapi.Certificate.t) :
  certNeedsUpdate a b = false
  <-> GetName a = GetName b
      /\ GetLabels a = GetLabels b
      /\ cmapi.CertificateSpec.CommonName (cmapi.Certificate.Spec a)
         = cmapi.CertificateSpec.CommonName (cmapi.Certificate.Spec b)
      /\ cmapi.CertificateSpec.DNSNames (cmapi.Certificate.Spec a)
         = cmapi.CertificateSpec.DNSNames (cmapi.Certificate.Spec b)
      /\ cmapi.CertificateSpec.SecretName (cmapi.Certificate.Spec a)
         = cmapi.CertificateSpec.SecretName (cmapi.Certificate.Spec b)
      /\ cmmeta.ObjectReference.Name
           (cmapi.CertificateSpec.IssuerRef (cmapi.Certificate.Spec a))
         = cmmeta.ObjectReference.Name
             (cmapi.CertificateSpec.IssuerRef (cmapi.Certificate.Spec b))
      /\ cmmeta.ObjectReference.Kind
           (cmapi.CertificateSpec.IssuerRef (cmapi.Certificate.Spec a))
         = cmmeta.ObjectReference.Kind
             (cmapi.CertificateSpec.IssuerRef (cmapi.Certificate.Spec b)).
Proof. apply certNeedsUpdate_compared_fields. Qed.

(** X15. [certNeedsUpdate] does not look at the duration, the renew-before
    value or the usages: a certificate that differs from another in these only
    needs no update in its eyes. *)
Theorem certNeedsUpdate_ignores_durations_and_usages (crt : cmapi.Certificate.t)
    (duration renewBefore : option Z) (usages : list cmapi.KeyUsage) :
  certNeedsUpdate crt (setUsages (setRenewBefore (setDuration crt duration) renewBefore) usages)
  = false.
Proof. apply certNeedsUpdate_compared_fields. repeat split. Qed.

(** *** The certificate builder *)

(** The results of [buildCertificates], case by case. *)
Lemma buildCertificates_results (libraries : GoLibraries) (W : Type) (C : Cluster W)
    (w : W) (vs : vsapi.VirtualServer.t) (issuerName issuerKind issuerGroup : string)
    (lines : list LogLine) (newCrts updateCrts : list cmapi.Certificate.t)
    (err : option error) :
  buildCertificates w vs issuerName issuerKind issuerGroup
  = Returns (lines, (newCrts, updateCrts, err)) ->
  match err with
  | Some _ => lines = [] /\ newCrts = [] /\ updateCrts = []
  | None =>
      exists crt : cmapi.Certificate.t,
        translatesTo vs
          (desiredCertificate vs [hostOf vs] issuerName issuerKind issuerGroup) crt
        /\ match fst (CertificatesGet w (GetNamespace vs) (secretOf vs)) with
           | None => lines = [] /\ newCrts = [crt] /\ updateCrts = []
           | Some existingCrt =>
               lines = existingLogLines existingCrt crt vs
               /\ newCrts = []
               /\ updateCrts
                  = [setLabels (setSpec existingCrt (cmapi.Certificate.Spec crt))
                       (GetLabels crt)]
           end
  end.
Proof.
  unfold buildCertificates, translatesTo. fold (secretOf vs) (hostOf vs) (configOf vs).
  change ([] ++ [hostOf vs]) with [hostOf vs].
  destruct (CertificatesGet w (GetNamespace vs) (secretOf vs)) as [existingCrt found].
  destruct (negb (IsNotFound found) && notNil found) eqn:Hfound.
  { intros [= <- <- <- <-]. destruct found; [now repeat split|discriminate Hfound]. }
  destruct (configOf vs) as [spec|]; [|discriminate].
  destruct (convertVsCmSpecToAnnotations_keys spec) as (a & Hconvert & _).
  rewrite Hconvert, outcome_bind_Returns.
  destruct (translateAnnotations _ a) as [crt' [e|]] eqn:Htranslate.
  { intros [= <- <- <- <-]. now repeat split. }
  destruct crt' as [crt'|]; [|discriminate].
  unfold deref. rewrite outcome_bind_Returns. cbn [fst].
  destruct existingCrt as [existingCrt|]; intros [= <- <- <- <-];
    exists crt'; (split; [exists a; now split|]); now repeat split.
Qed.

(** X16. [buildCertificates] returns either an error and no certificate, or
    no error and exactly one certificate: to create when the lister found
    none, to update when it found one. *)
Theorem buildCertificates_one_candidate (libraries : GoLibraries) (W : Type) (C : Cluster W)
    (w : W) (vs : vsapi.VirtualServer.t) (issuerName issuerKind issuerGroup : string)
    (lines : list LogLine) (newCrts updateCrts : list cmapi.Certificate.t)
    (err : option error) :
  buildCertificates w vs issuerName issuerKind issuerGroup
  = Returns (lines, (newCrts, updateCrts, err)) ->
  (err <> None -> newCrts = [] /\ updateCrts = [])
  /\ (err = None ->
      length newCrts + length updateCrts = 1
      /\ (fst (CertificatesGet w (GetNamespace vs) (secretOf vs)) = None -> updateCrts = [])
      /\ (fst (CertificatesGet w (GetNamespace vs) (secretOf vs)) <> None -> newCrts = [])).
Proof.
  intros Hbuild. apply buildCertificates_results in Hbuild.
  destruct err as [err|].
  - destruct Hbuild as (_ & -> & ->). split; [now split | discriminate].
  - split; [congruence|]. intros _. destruct Hbuild as (crt & _ & Hcase).
    destruct (fst (CertificatesGet w (GetNamespace vs) (secretOf vs))) as [existingCrt|].
    + destruct Hcase as (_ & -> & ->). repeat split; congruence.
    + destruct Hcase as (_ & -> & ->). repeat split; congruence.
Qed.

(** X17. The certificate returned for update keeps the name, namespace, UID,
    resource version, annotations and owner references of the existing one,
    whoever controls it, and takes the labels of the VirtualServer, its host as
    only DNS name, its secret name and the resolved issuer. *)
Theorem buildCertificates_update_candidate (libraries : GoLibraries) (W : Type)
    (C : Cluster W) (w : W) (vs : vsapi.VirtualServer.t)
    (issuerName issuerKind issuerGroup : string) (lines : list LogLine)
    (newCrts : list cmapi.Certificate.t) (existingCrt updateCrt : cmapi.Certificate.t)
    (found : option error) :
  CertificatesGet w (GetNamespace vs) (secretOf vs) = (Some existingCrt, found) ->
  buildCertificates w vs issuerName issuerKind issuerGroup
  = Returns (lines, (newCrts, [updateCrt], None)) ->
  GetName updateCrt = GetName existingCrt
  /\ GetNamespace updateCrt = GetNamespace existingCrt
  /\ GetUID updateCrt = GetUID existingCrt
  /\ metav1.ObjectMeta.ResourceVersion (GetObjectMeta updateCrt)
     = metav1.ObjectMeta.ResourceVersion (GetObjectMeta existingCrt)
  /\ metav1.ObjectMeta.Annotations (GetObjectMeta updateCrt)
     = metav1.ObjectMeta.Annotations (GetObjectMeta existingCrt)
  /\ GetOwnerReferences updateCrt = GetOwnerReferences existingCrt
  /\ GetLabels updateCrt = GetLabels vs
  /\ cmapi.CertificateSpec.DNSNames (cmapi.Certificate.Spec updateCrt) = [hostOf vs]
  /\ cmapi.CertificateSpec.SecretName (cmapi.Certificate.Spec updateCrt) = secretOf vs
  /\ cmapi.CertificateSpec.IssuerRef (cmapi.Certificate.Spec updateCrt)
     = {| cmmeta.ObjectReference.Name := issuerName;
          cmmeta.ObjectReference.Kind := issuerKind;
          cmmeta.ObjectReference.Group := issuerGroup |}.
Proof.
  intros Hget Hbuild. apply buildCertificates_results in Hbuild.
  destruct Hbuild as (crt & (a & _ & Htranslate) & Hcase).
  rewrite Hget in Hcase. cbn [fst] in Hcase. destruct Hcase as (_ & _ & [= ->]).
  destruct (translateAnnotations_untouched _ _ _ _ _ Htranslate)
    as (after & [= <-] & (Hmeta & Hdns & Hsecret & Hissuer) & _).
  unfold GetName, GetNamespace, GetUID, GetLabels, GetOwnerReferences. cbn.
  rewrite Hmeta, Hdns, Hsecret, Hissuer. repeat split.
Qed.

(** X18. The certificate returned for creation is controlled by the
    VirtualServer (its controller reference is the one [NewControllerRef]
    builds), lies in its namespace with its labels and its secret name; so the
    garbage collector does not select it, and a notification about it
    enqueues the key of the VirtualServer. *)
Theorem buildCertificates_create_candidate (libraries : GoLibraries) (W : Type)
    (C : Cluster W) (w : W) (vs : vsapi.VirtualServer.t)
    (issuerName issuerKind issuerGroup : string) (lines : list LogLine)
    (updateCrts : list cmapi.Certificate.t) (crt : cmapi.Certificate.t) :
  buildCertificates w vs issuerName issuerKind issuerGroup
  = Returns (lines, ([crt], updateCrts, None)) ->
  GetControllerOf crt = Some (NewControllerRef vs vsGVK)
  /\ IsControlledBy crt vs = true
  /\ GetNamespace crt = GetNamespace vs
  /\ GetLabels crt = GetLabels vs
  /\ cmapi.CertificateSpec.SecretName (cmapi.Certificate.Spec crt) = secretOf vs
  /\ findCertificatesToBeRemoved [crt] vs = []
  /\ certificateHandler (CertificateObj crt)
     = [KeyItem (GetNamespace vs +:+ "/" +:+ GetName vs)].
Proof.
  intros Hbuild. apply buildCertificates_results in Hbuild.
  destruct Hbuild as (crt' & (a & _ & Htranslate) & Hcase).
  assert (Hcrt : crt' = crt).
  { destruct (fst _); destruct Hcase as (_ & Hnew & _); congruence. }
  subst crt'.
  destruct (translateAnnotations_untouched _ _ _ _ _ Htranslate)
    as (after & [= <-] & (Hmeta & Hdns & Hsecret & Hissuer) & _).
  assert (Hcontroller : GetControllerOf crt = Some (NewControllerRef vs vsGVK)).
  { unfold GetControllerOf, GetOwnerReferences. cbn. rewrite Hmeta. reflexivity. }
  assert (Howned : IsControlledBy crt vs = true).
  { unfold IsControlledBy. rewrite Hcontroller. cbn. apply String.eqb_refl. }
  split; [exact Hcontroller|]. split; [exact Howned|].
  split; [unfold GetNamespace; cbn; now rewrite Hmeta|].
  split; [unfold GetLabels; cbn; now rewrite Hmeta|].
  split; [now rewrite Hsecret|].
  split.
  - unfold findCertificatesToBeRemoved. cbn [removalLoop]. rewrite Howned. cbn [negb].
    unfold secretNameUsedIn. rewrite Hsecret. cbn. now rewrite String.eqb_refl.
  - cbn [certificateHandler]. rewrite Hcontroller. cbn.
    unfold GetNamespace. cbn. rewrite Hmeta. reflexivity.
Qed.

(** *** The sync function *)

(** What a loop of the sync function leaves behind: the requests sent, the
    events of those that succeeded, and at most one failed request, the last. *)
Lemma createLoop_trace (W : Type) (C : Cluster W) (vs : vsapi.VirtualServer.t)
    (newCrts : list cmapi.Certificate.t) (p p' : Pass W) (err : option error) :
  createLoop vs newCrts p = (p', err) ->
  exists done failed rest : list cmapi.Certificate.t,
    newCrts = done ++ failed ++ rest
    /\ calls p' = calls p ++ List.map createCallFor done ++ List.map createCallFor failed
    /\ events p' = events p ++ List.map (eventFor vs) (List.map createCallFor done)
    /\ logs p' = logs p
    /\ match err with
       | None => failed = [] /\ rest = []
       | Some _ => length failed = 1
       end.
Proof.
  revert p. induction newCrts as [|crt crts IH]; intros p.
  - intros [= <- <-]. exists [], [], []. cbn. rewrite !app_nil_r. now repeat split.
  - cbn [createLoop].
    destruct (CertificatesCreate (cluster p) (GetNamespace crt) crt) as [w' [e|]].
    + intros [= <- <-]. exists [], [crt], crts. cbn. rewrite !app_nil_r. now repeat split.
    + intros Hrest. destruct (IH _ Hrest) as (done & failed & rest & -> & Hcalls & Hevents & Hlogs & Herr).
      exists (crt :: done), failed, rest. cbn in *.
      rewrite Hcalls, Hevents, Hlogs, <- !app_assoc. now repeat split.
Qed.

Lemma updateLoop_trace (W : Type) (C : Cluster W) (vs : vsapi.VirtualServer.t)
    (updateCrts : list cmapi.Certificate.t) (p p' : Pass W) (err : option error) :
  updateLoop vs updateCrts p = (p', err) ->
  exists done failed rest : list cmapi.Certificate.t,
    updateCrts = done ++ failed ++ rest
    /\ calls p' = calls p ++ List.map updateCallFor done ++ List.map updateCallFor failed
    /\ events p' = events p ++ List.map (eventFor vs) (List.map updateCallFor done)
    /\ logs p' = logs p
    /\ match err with
       | None => failed = [] /\ rest = []
       | Some _ => length failed = 1
       end.
Proof.
  revert p. induction updateCrts as [|crt crts IH]; intros p.
  - intros [= <- <-]. exists [], [], []. cbn. rewrite !app_nil_r. now repeat split.
  - cbn [updateLoop].
    destruct (CertificatesUpdate (cluster p) (GetNamespace crt) crt) as [w' [e|]].
    + intros [= <- <-]. exists [], [crt], crts. cbn. rewrite !app_nil_r. now repeat split.
    + intros Hrest. destruct (IH _ Hrest) as (done & failed & rest & -> & Hcalls & Hevents & Hlogs & Herr).
      exists (crt :: done), failed, rest. cbn in *.
      rewrite Hcalls, Hevents, Hlogs, <- !app_assoc. now repeat split.
Qed.

Lemma deleteLoop_trace (W : Type) (C : Cluster W) (vs : vsapi.VirtualServer.t)
    (names : list string) (p p' : Pass W) (err : option error) :
  deleteLoop vs names p = (p', err) ->
  exists done failed rest : list string,
    names = done ++ failed ++ rest
    /\ calls p' = calls p ++ List.map (DeleteCall (GetNamespace vs)) done
                  ++ List.map (DeleteCall (GetNamespace vs)) failed
    /\ events p' = events p
                   ++ List.map (eventFor vs) (List.map (DeleteCall (GetNamespace vs)) done)
    /\ logs p' = logs p
    /\ match err with
       | None => failed = [] /\ rest = []
       | Some _ => length failed = 1
       end.
Proof.
  revert p. induction names as [|name names IH]; intros p.
  - intros [= <- <-]. exists [], [], []. cbn. rewrite !app_nil_r. now repeat split.
  - cbn [deleteLoop].
    destruct (CertificatesDelete (cluster p) (GetNamespace vs) name) as [w' [e|]].
    + intros [= <- <-]. exists [], [name], names. cbn. rewrite !app_nil_r. now repeat split.
    + intros Hrest. destruct (IH _ Hrest) as (done & failed & rest & -> & Hcalls & Hevents & Hlogs & Herr).
      exists (name :: done), failed, rest. cbn in *.
      rewrite Hcalls, Hevents, Hlogs, <- !app_assoc. now repeat split.
Qed.

(** Equality of two lists built with [++] and [map]. *)
Ltac lists_equal :=
  cbn [app List.map];
  repeat (rewrite ?map_app, ?app_nil_r, <- ?app_assoc; cbn [app List.map]);
  reflexivity.

(** The stages of a pass whose issuer is resolved. *)
Lemma SyncFnFor_stages (libraries : GoLibraries) (W : Type) (C : Cluster W)
    (defaults : controller.IngressShimOptions.t) (w : W) (vs : vsapi.VirtualServer.t)
    (issuerName issuerKind issuerGroup : string) (p : Pass W) (err : option error) :
  issuerForIngressLike defaults vs = Returns (issuerName, issuerKind, issuerGroup, None) ->
  SyncFnFor defaults w vs = Returns (p, err) ->
  exists (lines : list LogLine) (newCrts updateCrts : list cmapi.Certificate.t)
         (buildErr : option error),
    buildCertificates w vs issuerName issuerKind issuerGroup
    = Returns (lines, (newCrts, updateCrts, buildErr))
    /\ logs p = lines
    /\ match buildErr with
       | Some e => err = Some e /\ calls p = [] /\ events p = [] /\ cluster p = w
       | None =>
           exists (sentCreate sentUpdate : list cmapi.Certificate.t)
                  (sentDelete : list string) (done failed : list StoreCall),
             calls p = List.map createCallFor sentCreate
                       ++ List.map updateCallFor sentUpdate
                       ++ List.map (DeleteCall (GetNamespace vs)) sentDelete
             /\ (exists rest, newCrts = sentCreate ++ rest)
             /\ (exists rest, updateCrts = sentUpdate ++ rest)
             /\ (sentDelete = []
                 \/ exists (w' : W) (certs : list cmapi.Certificate.t) (rest : list string),
                      CertificatesList w' (GetNamespace vs) = (certs, None)
                      /\ findCertificatesToBeRemoved certs vs = sentDelete ++ rest)
             /\ calls p = done ++ failed
             /\ events p = List.map (eventFor vs) done
             /\ match err with
                | None => failed = []
                | Some _ => length failed <= 1
                end
       end.
Proof.
  intros Hissuer. unfold SyncFnFor. rewrite Hissuer, outcome_bind_Returns.
  cbv beta iota zeta. change (cluster (startPass w)) with w.
  destruct (buildCertificates w vs issuerName issuerKind issuerGroup)
    as [[lines [[newCrts updateCrts] [e|]]]|r] eqn:Hbuild; [| |discriminate].
  { rewrite outcome_bind_Returns. intros [= <- <-].
    exists lines, newCrts, updateCrts, (Some e). split; [reflexivity|].
    split; [reflexivity|]. now repeat split. }
  rewrite outcome_bind_Returns. cbv beta iota zeta. intros Hsync.
  exists lines, newCrts, updateCrts, None. split; [reflexivity|].
  destruct (createLoop vs newCrts _) as [p1 e1] eqn:Hcreate.
  destruct (createLoop_trace _ _ _ _ _ _ _ Hcreate)
    as (done1 & failed1 & rest1 & Hnew & Hcalls1 & Hevents1 & Hlogs1 & Herr1).
  cbn in Hcalls1, Hevents1, Hlogs1.
  destruct e1 as [e1|].
  { injection Hsync as <- <-. split; [exact Hlogs1|].
    exists (done1 ++ failed1), [], [], (List.map createCallFor done1),
      (List.map createCallFor failed1).
    split; [|split; [|split; [|split; [|split; [|split]]]]].
    - rewrite Hcalls1. lists_equal.
    - exists rest1. now rewrite <- app_assoc.
    - now exists updateCrts.
    - now left.
    - rewrite Hcalls1. lists_equal.
    - rewrite Hevents1. lists_equal.
    - rewrite length_map. lia. }
  destruct Herr1 as [-> ->]. rewrite !app_nil_r in *. subst done1.
  destruct (updateLoop vs updateCrts p1) as [p2 e2] eqn:Hupdate.
  destruct (updateLoop_trace _ _ _ _ _ _ _ Hupdate)
    as (done2 & failed2 & rest2 & Hupd & Hcalls2 & Hevents2 & Hlogs2 & Herr2).
  rewrite Hcalls1 in Hcalls2. rewrite Hevents1 in Hevents2. rewrite Hlogs1 in Hlogs2.
  destruct e2 as [e2|].
  { injection Hsync as <- <-. split; [exact Hlogs2|].
    exists newCrts, (done2 ++ failed2), [],
      (List.map createCallFor newCrts ++ List.map updateCallFor done2),
      (List.map updateCallFor failed2).
    split; [|split; [|split; [|split; [|split; [|split]]]]].
    - rewrite Hcalls2. lists_equal.
    - exists []. now rewrite app_nil_r.
    - exists rest2. now rewrite <- app_assoc.
    - now left.
    - rewrite Hcalls2. lists_equal.
    - rewrite Hevents2. lists_equal.
    - rewrite length_map. lia. }
  destruct Herr2 as [-> ->]. rewrite !app_nil_r in *. subst done2.
  destruct (CertificatesList (cluster p2) (GetNamespace vs)) as [certs [e3|]] eqn:Hlist.
  { injection Hsync as <- <-. split; [exact Hlogs2|].
    exists newCrts, updateCrts, [],
      (List.map createCallFor newCrts ++ List.map updateCallFor updateCrts), [].
    split; [|split; [|split; [|split; [|split; [|split]]]]].
    - rewrite Hcalls2. lists_equal.
    - exists []. now rewrite app_nil_r.
    - exists []. now rewrite app_nil_r.
    - now left.
    - rewrite Hcalls2. lists_equal.
    - rewrite Hevents2. lists_equal.
    - cbn. lia. }
  injection Hsync as Hdelete.
  destruct (deleteLoop_trace _ _ _ _ _ _ _ Hdelete)
    as (done3 & failed3 & rest3 & Hnames & Hcalls3 & Hevents3 & Hlogs3 & Herr3).
  rewrite Hcalls2 in Hcalls3. rewrite Hevents2 in Hevents3. rewrite Hlogs2 in Hlogs3.
  split; [exact Hlogs3|].
  exists newCrts, updateCrts, (done3 ++ failed3),
    (List.map createCallFor newCrts ++ List.map updateCallFor updateCrts
     ++ List.map (DeleteCall (GetNamespace vs)) done3),
    (List.map (DeleteCall (GetNamespace vs)) failed3).
  split; [|split; [|split; [|split; [|split; [|split]]]]].
  - rewrite Hcalls3. lists_equal.
  - exists []. now rewrite app_nil_r.
  - exists []. now rewrite app_nil_r.
  - right. exists (cluster p2), certs, rest3. split; [exact Hlist|].
    now rewrite Hnames, <- app_assoc.
  - rewrite Hcalls3. lists_equal.
  - rewrite Hevents3. lists_equal.
  - destruct err; [rewrite length_map; lia | now destruct Herr3 as [-> _]].
Qed.

(** A prefix of a list of at most one element is empty or the list itself. *)
Lemma prefix_of_short {A : Type} (sent rest l : list A) :
  l = sent ++ rest -> length l <= 1 -> sent = [] \/ sent = l.
Proof.
  intros -> Hlen. destruct sent as [|x sent]; [now left|right].
  rewrite length_app in Hlen. cbn in Hlen.
  destruct sent; [|cbn in Hlen; lia]. destruct rest; [reflexivity|cbn in Hlen; lia].
Qed.

(** The certificate of a successful [buildCertificates], with the namespace
    and the name its request will carry. *)
Lemma buildCertificates_candidates (libraries : GoLibraries) (W : Type) (C : Cluster W)
    (w : W) (vs : vsapi.VirtualServer.t) (issuerName issuerKind issuerGroup : string)
    (lines : list LogLine) (newCrts updateCrts : list cmapi.Certificate.t) :
  buildCertificates w vs issuerName issuerKind issuerGroup
  = Returns (lines, (newCrts, updateCrts, None)) ->
  exists crt : cmapi.Certificate.t,
    match fst (CertificatesGet w (GetNamespace vs) (secretOf vs)) with
    | None =>
        newCrts = [crt] /\ updateCrts = []
        /\ GetNamespace crt = GetNamespace vs /\ GetName crt = secretOf vs
    | Some existingCrt =>
        newCrts = [] /\ updateCrts = [crt]
        /\ GetNamespace crt = GetNamespace existingCrt
        /\ GetName crt = GetName existingCrt
    end.
Proof.
  intros Hbuild. apply buildCertificates_results in Hbuild.
  destruct Hbuild as (crt & (a & _ & Htranslate) & Hcase).
  destruct (translateAnnotations_untouched _ _ _ _ _ Htranslate)
    as (after & [= <-] & (Hmeta & _) & _).
  destruct (fst _) as [existingCrt|]; destruct Hcase as (_ & -> & ->).
  - eexists. repeat split.
  - exists crt. unfold GetNamespace, GetName. cbn. rewrite Hmeta. repeat split.
Qed.

(** X19. The write requests of a pass are at most one create or one update,
    never both, followed by deletes.  The create goes to the namespace of the
    VirtualServer, for a certificate of that namespace named after the secret,
    and only when the lister returned no certificate; the update goes to the
    namespace of the certificate the lister returned, under its name; the
    deletes go to the namespace of the VirtualServer.  So when the lister
    returns a certificate of the namespace it was asked for, every request of
    the pass is sent to the namespace of the VirtualServer. *)
Theorem SyncFnFor_call_order (libraries : GoLibraries) (W : Type) (C : Cluster W)
    (defaults : controller.IngressShimOptions.t) (w : W) (vs : vsapi.VirtualServer.t)
    (p : Pass W) (err : option error) :
  SyncFnFor defaults w vs = Returns (p, err) ->
  exists (writes : list StoreCall) (names : list string),
    calls p = writes ++ List.map (DeleteCall (GetNamespace vs)) names
    /\ (writes = []
        \/ (exists crt : cmapi.Certificate.t,
              writes = [CreateCall (GetNamespace vs) crt]
              /\ fst (CertificatesGet w (GetNamespace vs) (secretOf vs)) = None
              /\ GetNamespace crt = GetNamespace vs
              /\ GetName crt = secretOf vs)
        \/ (exists existingCrt crt : cmapi.Certificate.t,
              writes = [UpdateCall (GetNamespace existingCrt) crt]
              /\ fst (CertificatesGet w (GetNamespace vs) (secretOf vs)) = Some existingCrt
              /\ GetNamespace crt = GetNamespace existingCrt
              /\ GetName crt = GetName existingCrt))
    /\ ((forall existingCrt : cmapi.Certificate.t,
            fst (CertificatesGet w (GetNamespace vs) (secretOf vs)) = Some existingCrt ->
            GetNamespace existingCrt = GetNamespace vs) ->
        forall call : StoreCall, In call (calls p) -> callNamespace call = GetNamespace vs).
Proof.
  intros Hsync.
  assert (Hshape :
    exists (writes : list StoreCall) (names : list string),
      calls p = writes ++ List.map (DeleteCall (GetNamespace vs)) names
      /\ (writes = []
          \/ (exists crt : cmapi.Certificate.t,
                writes = [CreateCall (GetNamespace vs) crt]
                /\ fst (CertificatesGet w (GetNamespace vs) (secretOf vs)) = None
                /\ GetNamespace crt = GetNamespace vs
                /\ GetName crt = secretOf vs)
          \/ (exists existingCrt crt : cmapi.Certificate.t,
                writes = [UpdateCall (GetNamespace existingCrt) crt]
                /\ fst (CertificatesGet w (GetNamespace vs) (secretOf vs))
                   = Some existingCrt
                /\ GetNamespace crt = GetNamespace existingCrt
                /\ GetName crt = GetName existingCrt))).
  { destruct (issuerForIngressLike defaults vs) as [[[[n k] g] [e|]]|r] eqn:Hissuer.
    - rewrite (SyncFnFor_issuer_error _ _ _ _ _ _ _ _ _ _ Hissuer) in Hsync.
      injection Hsync as <- <-. exists [], []. split; [reflexivity | now left].
    - destruct (SyncFnFor_stages _ _ _ _ _ _ _ _ _ _ _ Hissuer Hsync)
        as (lines & newCrts & updateCrts & buildErr & Hbuild & _ & Hcase).
      destruct buildErr as [e|].
      { destruct Hcase as (_ & -> & _). exists [], []. split; [reflexivity | now left]. }
      destruct (buildCertificates_candidates _ _ _ _ _ _ _ _ _ _ _ Hbuild) as (crt & Hone).
      destruct Hcase as (sentC & sentU & sentD & _ & _ & -> & [restC HC] & [restU HU] & _).
      exists (List.map createCallFor sentC ++ List.map updateCallFor sentU), sentD.
      split; [now rewrite <- app_assoc|].
      destruct (fst (CertificatesGet w (GetNamespace vs) (secretOf vs)))
        as [existingCrt|] eqn:Hget; destruct Hone as (-> & -> & Hns & Hname).
      + symmetry in HC. apply app_eq_nil in HC as [-> _].
        destruct (prefix_of_short _ _ _ HU ltac:(cbn; lia)) as [->| ->]; [now left|].
        right. right. exists existingCrt, crt. cbn. unfold updateCallFor.
        rewrite Hns. now repeat split.
      + symmetry in HU. apply app_eq_nil in HU as [-> _].
        destruct (prefix_of_short _ _ _ HC ltac:(cbn; lia)) as [->| ->]; [now left|].
        right. left. exists crt. cbn. unfold createCallFor.
        rewrite Hns. now repeat split.
    - unfold SyncFnFor in Hsync. rewrite Hissuer in Hsync. discriminate Hsync. }
  destruct Hshape as (writes & names & Hcalls & Hwrites).
  exists writes, names. split; [exact Hcalls|]. split; [exact Hwrites|].
  intros Hlister call Hin. rewrite Hcalls, in_app_iff, in_map_iff in Hin.
  destruct Hin as [Hin|(name & <- & _)]; [|reflexivity].
  destruct Hwrites as [->|[(crt & -> & _)|(existingCrt & crt & -> & Hget & _)]].
  - destruct Hin.
  - destruct Hin as [<-|[]]. reflexivity.
  - destruct Hin as [<-|[]]. cbn. now apply Hlister.
Qed.

(** X20. A pass deletes only in the namespace of the VirtualServer, and only
    the name of a certificate that the lister listed, that the VirtualServer
    controls and whose secret name is not the declared one. *)
Theorem SyncFnFor_deletes_only_owned (libraries : GoLibraries) (W : Type) (C : Cluster W)
    (defaults : controller.IngressShimOptions.t) (w : W) (vs : vsapi.VirtualServer.t)
    (p : Pass W) (err : option error) (namespace name : string) :
  SyncFnFor defaults w vs = Returns (p, err) ->
  In (DeleteCall namespace name) (calls p) ->
  namespace = GetNamespace vs
  /\ exists (w' : W) (certs : list cmapi.Certificate.t) (crt : cmapi.Certificate.t),
       CertificatesList w' (GetNamespace vs) = (certs, None)
       /\ In crt certs
       /\ GetName crt = name
       /\ IsControlledBy crt vs = true
       /\ cmapi.CertificateSpec.SecretName (cmapi.Certificate.Spec crt) <> secretOf vs.
Proof.
  intros Hsync Hin.
  destruct (issuerForIngressLike defaults vs) as [[[[n k] g] [e|]]|r] eqn:Hissuer.
  - rewrite (SyncFnFor_issuer_error _ _ _ _ _ _ _ _ _ _ Hissuer) in Hsync.
    injection Hsync as <- <-. destruct Hin.
  - destruct (SyncFnFor_stages _ _ _ _ _ _ _ _ _ _ _ Hissuer Hsync)
      as (lines & newCrts & updateCrts & buildErr & Hbuild & _ & Hcase).
    destruct buildErr as [e|].
    { destruct Hcase as (_ & Hcalls & _). rewrite Hcalls in Hin. destruct Hin. }
    destruct Hcase as (sentC & sentU & sentD & _ & _ & Hcalls & _ & _ & Hdelete & _).
    rewrite Hcalls, !in_app_iff, !in_map_iff in Hin.
    destruct Hin as [(c & Hc & _)|[(u & Hu & _)|(deleted & [= Hns Hname] & Hdeleted)]];
      [discriminate Hc | discriminate Hu |].
    subst namespace deleted. split; [reflexivity|].
    destruct Hdelete as [-> | (w' & certs & rest & Hlist & Hremoved)]; [destruct Hdeleted|].
    assert (Hfound : In name (findCertificatesToBeRemoved certs vs)).
    { rewrite Hremoved, in_app_iff. now left. }
    unfold findCertificatesToBeRemoved in Hfound.
    rewrite removalLoop_filter in Hfound. cbn [app] in Hfound.
    apply in_map_iff in Hfound as (crt & Hname & Hcrt).
    apply filter_In in Hcrt as [Hcrt Hkeep]. apply andb_prop in Hkeep as [Howned Hunused].
    exists w', certs, crt. repeat split; try assumption.
    unfold secretNameUsedIn in Hunused.
    now apply negb_true_iff, String.eqb_neq in Hunused.
  - unfold SyncFnFor in Hsync. rewrite Hissuer in Hsync. discriminate Hsync.
Qed.

(** Requests that all succeed can be followed by further ones. *)
Lemma performAll_app (W : Type) (C : Cluster W) (w w1 : W) (done more : list StoreCall) :
  performAll w done = (w1, None) -> performAll w (done ++ more) = performAll w1 more.
Proof.
  revert w. induction done as [|call done IH]; intros w; cbn [performAll app].
  - now intros [= ->].
  - destruct (perform w call) as [w' [e|]]; [discriminate | apply IH].
Qed.

(** What a loop of the sync function has done when it returns: the requests
    it sent succeeded one after the other, each followed by its event, but for
    the last one when the loop returns its error. *)
Lemma createLoop_performed (W : Type) (C : Cluster W) (vs : vsapi.VirtualServer.t)
    (newCrts : list cmapi.Certificate.t) (p p' : Pass W) (err : option error) :
  createLoop vs newCrts p = (p', err) ->
  exists (done failed : list StoreCall) (w1 : W),
    calls p' = calls p ++ done ++ failed
    /\ events p' = events p ++ List.map (eventFor vs) done
    /\ performAll (cluster p) done = (w1, None)
    /\ match err with
       | None => failed = [] /\ cluster p' = w1
       | Some e => exists call : StoreCall,
                     failed = [call] /\ perform w1 call = (cluster p', Some e)
       end.
Proof.
  revert p. induction newCrts as [|crt crts IH]; intros p.
  - intros [= <- <-]. exists [], [], (cluster p). cbn. rewrite !app_nil_r. now repeat split.
  - cbn [createLoop].
    destruct (CertificatesCreate (cluster p) (GetNamespace crt) crt) as [w' [e|]] eqn:Hcall.
    + intros [= <- <-]. exists [], [createCallFor crt], (cluster p). cbn.
      split; [reflexivity|]. split; [now rewrite app_nil_r|]. split; [reflexivity|].
      exists (createCallFor crt). split; [reflexivity | exact Hcall].
    + intros Hrest.
      destruct (IH _ Hrest) as (done & failed & w1 & Hcalls & Hevents & Hdone & Herr).
      exists (createCallFor crt :: done), failed, w1. cbn in *.
      rewrite Hcalls, Hevents, Hcall, <- !app_assoc. now repeat split.
Qed.

Lemma updateLoop_performed (W : Type) (C : Cluster W) (vs : vsapi.VirtualServer.t)
    (updateCrts : list cmapi.Certificate.t) (p p' : Pass W) (err : option error) :
  updateLoop vs updateCrts p = (p', err) ->
  exists (done failed : list StoreCall) (w1 : W),
    calls p' = calls p ++ done ++ failed
    /\ events p' = events p ++ List.map (eventFor vs) done
    /\ performAll (cluster p) done = (w1, None)
    /\ match err with
       | None => failed = [] /\ cluster p' = w1
       | Some e => exists call : StoreCall,
                     failed = [call] /\ perform w1 call = (cluster p', Some e)
       end.
Proof.
  revert p. induction updateCrts as [|crt crts IH]; intros p.
  - intros [= <- <-]. exists [], [], (cluster p). cbn. rewrite !app_nil_r. now repeat split.
  - cbn [updateLoop].
    destruct (CertificatesUpdate (cluster p) (GetNamespace crt) crt) as [w' [e|]] eqn:Hcall.
    + intros [= <- <-]. exists [], [updateCallFor crt], (cluster p). cbn.
      split; [reflexivity|]. split; [now rewrite app_nil_r|]. split; [reflexivity|].
      exists (updateCallFor crt). split; [reflexivity | exact Hcall].
    + intros Hrest.
      destruct (IH _ Hrest) as (done & failed & w1 & Hcalls & Hevents & Hdone & Herr).
      exists (updateCallFor crt :: done), failed, w1. cbn in *.
      rewrite Hcalls, Hevents, Hcall, <- !app_assoc. now repeat split.
Qed.

Lemma deleteLoop_performed (W : Type) (C : Cluster W) (vs : vsapi.VirtualServer.t)
    (names : list string) (p p' : Pass W) (err : option error) :
  deleteLoop vs names p = (p', err) ->
  exists (done failed : list StoreCall) (w1 : W),
    calls p' = calls p ++ done ++ failed
    /\ events p' = events p ++ List.map (eventFor vs) done
    /\ performAll (cluster p) done = (w1, None)
    /\ match err with
       | None => failed = [] /\ cluster p' = w1
       | Some e => exists call : StoreCall,
                     failed = [call] /\ perform w1 call = (cluster p', Some e)
       end.
Proof.
  revert p. induction names as [|name names IH]; intros p.
  - intros [= <- <-]. exists [], [], (cluster p). cbn. rewrite !app_nil_r. now repeat split.
  - cbn [deleteLoop].
    destruct (CertificatesDelete (cluster p) (GetNamespace vs) name) as [w' [e|]] eqn:Hcall.
    + intros [= <- <-]. exists [], [DeleteCall (GetNamespace vs) name], (cluster p). cbn.
      split; [reflexivity|]. split; [now rewrite app_nil_r|]. split; [reflexivity|].
      exists (DeleteCall (GetNamespace vs) name). split; [reflexivity | exact Hcall].
    + intros Hrest.
      destruct (IH _ Hrest) as (done & failed & w1 & Hcalls & Hevents & Hdone & Herr).
      exists (DeleteCall (GetNamespace vs) name :: done), failed, w1. cbn in *.
      rewrite Hcalls, Hevents, Hcall, <- !app_assoc. now repeat split.
Qed.

(** X21. Once the issuer is resolved, the requests of a pass are a list of
    requests that the client answered without error, one after the other from
    the cluster the pass started on, followed by at most one request that the
    client answered with an error, which is then the error of the pass.  The
    events of the pass are the success events of the former, in order: a
    request has its event exactly when it succeeded. *)
Theorem SyncFnFor_events_follow_calls (libraries : GoLibraries) (W : Type) (C : Cluster W)
    (defaults : controller.IngressShimOptions.t) (w : W) (vs : vsapi.VirtualServer.t)
    (issuerName issuerKind issuerGroup : string) (p : Pass W) (err : option error) :
  issuerForIngressLike defaults vs = Returns (issuerName, issuerKind, issuerGroup, None) ->
  SyncFnFor defaults w vs = Returns (p, err) ->
  exists (done failed : list StoreCall) (w1 : W),
    calls p = done ++ failed
    /\ events p = List.map (eventFor vs) done
    /\ performAll w done = (w1, None)
    /\ match failed with
       | [] => cluster p = w1
       | call :: others =>
           others = []
           /\ exists e : error, perform w1 call = (cluster p, Some e) /\ err = Some e
       end
    /\ length failed <= 1
    /\ (err = None -> failed = []).
Proof.
  intros Hissuer. unfold SyncFnFor. rewrite Hissuer, outcome_bind_Returns.
  cbv beta iota zeta. change (cluster (startPass w)) with w.
  destruct (buildCertificates w vs issuerName issuerKind issuerGroup)
    as [[lines [[newCrts updateCrts] [e|]]]|r]; [| |discriminate].
  { rewrite outcome_bind_Returns. intros [= <- <-].
    exists [], [], w. cbn. repeat split; try reflexivity. lia. }
  rewrite outcome_bind_Returns. cbv beta iota zeta. intros Hsync.
  destruct (createLoop vs newCrts _) as [p1 e1] eqn:Hcreate.
  destruct (createLoop_performed _ _ _ _ _ _ _ Hcreate)
    as (done1 & failed1 & w1 & Hcalls1 & Hevents1 & Hdone1 & Herr1).
  cbn in Hcalls1, Hevents1, Hdone1.
  destruct e1 as [e1|].
  { injection Hsync as <- <-. destruct Herr1 as (call & -> & Hcall).
    exists done1, [call], w1. cbn. repeat split; try assumption; try lia; try discriminate.
    exists e1. now split. }
  destruct Herr1 as [-> Hw1]. rewrite app_nil_r in Hcalls1.
  destruct (updateLoop vs updateCrts p1) as [p2 e2] eqn:Hupdate.
  destruct (updateLoop_performed _ _ _ _ _ _ _ Hupdate)
    as (done2 & failed2 & w2 & Hcalls2 & Hevents2 & Hdone2 & Herr2).
  rewrite Hcalls1 in Hcalls2. rewrite Hevents1 in Hevents2. rewrite Hw1 in Hdone2.
  assert (Hboth : performAll w (done1 ++ done2) = (w2, None))
    by now rewrite (performAll_app _ _ _ _ _ _ Hdone1).
  destruct e2 as [e2|].
  { injection Hsync as <- <-. destruct Herr2 as (call & -> & Hcall).
    exists (done1 ++ done2), [call], w2. cbn.
    split; [rewrite Hcalls2; now rewrite app_assoc|].
    split; [rewrite Hevents2; now rewrite map_app|].
    split; [exact Hboth|]. split; [|split; [lia | discriminate]].
    split; [reflexivity|]. exists e2. now split. }
  destruct Herr2 as [-> Hw2]. rewrite app_nil_r in Hcalls2.
  destruct (CertificatesList (cluster p2) (GetNamespace vs)) as [certs [e3|]] eqn:Hlist.
  { injection Hsync as <- <-. exists (done1 ++ done2), [], w2. cbn.
    split; [rewrite Hcalls2; now rewrite app_nil_r|].
    split; [rewrite Hevents2; now rewrite map_app|].
    split; [exact Hboth|]. split; [exact Hw2|]. split; [lia | reflexivity]. }
  injection Hsync as Hdelete.
  destruct (deleteLoop_performed _ _ _ _ _ _ _ Hdelete)
    as (done3 & failed3 & w3 & Hcalls3 & Hevents3 & Hdone3 & Herr3).
  rewrite Hcalls2 in Hcalls3. rewrite Hevents2 in Hevents3. rewrite Hw2 in Hdone3.
  assert (Hall : performAll w ((done1 ++ done2) ++ done3) = (w3, None))
    by now rewrite (performAll_app _ _ _ _ _ _ Hboth).
  exists ((done1 ++ done2) ++ done3), failed3, w3.
  split; [rewrite Hcalls3; now rewrite <- !app_assoc|].
  split; [rewrite Hevents3; now rewrite !map_app, <- !app_assoc|].
  split; [exact Hall|].
  destruct err as [e|].
  - destruct Herr3 as (call & -> & Hcall). cbn.
    split; [|split; [lia | discriminate]].
    split; [reflexivity|]. exists e. now split.
  - destruct Herr3 as [-> Hw3]. cbn. repeat split; try assumption. lia.
Qed.

(** X22. When the issuer is resolved, the lister answers not found, the
    translation succeeds and the create succeeds, the pass is the create with
    its event followed by the deletes of what [findCertificatesToBeRemoved]
    selects from the list; with nothing selected it is that one create, its
    event, and no error. *)
Theorem SyncFnFor_create_pass (libraries : GoLibraries) (W : Type) (C : Cluster W)
    (defaults : controller.IngressShimOptions.t) (w w' : W) (vs : vsapi.VirtualServer.t)
    (issuerName issuerKind issuerGroup : string) (found : option error)
    (crt : cmapi.Certificate.t) (certs : list cmapi.Certificate.t) :
  issuerForIngressLike defaults vs = Returns (issuerName, issuerKind, issuerGroup, None) ->
  CertificatesGet w (GetNamespace vs) (secretOf vs) = (None, found) ->
  IsNotFound found = true ->
  translatesTo vs (desiredCertificate vs [hostOf vs] issuerName issuerKind issuerGroup) crt ->
  CertificatesCreate w (GetNamespace crt) crt = (w', None) ->
  CertificatesList w' (GetNamespace vs) = (certs, None) ->
  SyncFnFor defaults w vs
  = Returns
      (deleteLoop vs (findCertificatesToBeRemoved certs vs)
         (Build_Pass w' [createCallFor crt] [eventFor vs (createCallFor crt)] []))
  /\ (findCertificatesToBeRemoved certs vs = [] ->
      SyncFnFor defaults w vs
      = Returns
          (Build_Pass w' [createCallFor crt] [eventFor vs (createCallFor crt)] [], None)).
Proof.
  intros Hissuer Hget Hfound Htranslates Hcreate Hlist.
  assert (Hsync :
            SyncFnFor defaults w vs
            = Returns
                (deleteLoop vs (findCertificatesToBeRemoved certs vs)
                   (Build_Pass w' [createCallFor crt] [eventFor vs (createCallFor crt)] []))).
  { unfold SyncFnFor. rewrite Hissuer, outcome_bind_Returns. cbv beta iota zeta.
    change (cluster (startPass w)) with w.
    rewrite (buildCertificates_translated libraries W C w vs issuerName issuerKind
               issuerGroup None found crt Hget);
      [|now rewrite Hfound | exact Htranslates].
    rewrite outcome_bind_Returns. cbv beta iota zeta.
    cbn [createLoop updateLoop logged startPass cluster calls events logs app].
    rewrite Hcreate.
    cbn [createLoop updateLoop sent recorded cluster calls events logs app].
    rewrite Hlist. reflexivity. }
  split; [exact Hsync|]. intros Hnone. rewrite Hsync, Hnone. reflexivity.
Qed.



(** *** The work queue and the event handlers *)

(** [strings.Split] and the separator. *)
Lemma Split_length_positive (s : string) (sep : ascii) : 0 < length (Split s sep).
Proof.
  induction s as [|c s IH]; cbn [Split]; [cbn; lia|].
  destruct (Ascii.eqb c sep); [cbn; lia|].
  destruct (Split s sep); cbn in *; lia.
Qed.

Lemma Split_length_append (a b : string) (sep : ascii) :
  length (Split (a +:+ String sep b) sep) = length (Split a sep) + length (Split b sep).
Proof.
  induction a as [|c a IH].
  - change ("" +:+ String sep b) with (String sep b). cbn [Split].
    now rewrite Ascii.eqb_refl.
  - rewrite append_cons. cbn [Split]. destruct (Ascii.eqb c sep).
    + cbn [length]. now rewrite IH.
    + pose proof (Split_length_positive (a +:+ String sep b) sep) as Hpos.
      pose proof (Split_length_positive a sep) as Hpos'.
      destruct (Split (a +:+ String sep b) sep); destruct (Split a sep);
        cbn in *; lia.
Qed.

Lemma not_Contains_cons (c sep : ascii) (s : string) :
  ~ Contains (String c s) (String sep "") ->
  Ascii.eqb c sep = false /\ ~ Contains s (String sep "").
Proof.
  intros Hnot. split.
  - destruct (Ascii.eqb c sep) eqn:Hc; [|reflexivity].
    apply Ascii.eqb_eq in Hc as ->. exfalso. apply Hnot. exists "", s. reflexivity.
  - intros (before & after & ->). apply Hnot. exists (String c before), after. reflexivity.
Qed.

Lemma Split_without_separator (s : string) (sep : ascii) :
  ~ Contains s (String sep "") -> Split s sep = [s].
Proof.
  induction s as [|c s IH]; intros Hnot; [reflexivity|].
  apply not_Contains_cons in Hnot as [Hc Hs].
  cbn [Split]. now rewrite Hc, (IH Hs).
Qed.

Lemma Split_at_first_separator (a b : string) (sep : ascii) :
  ~ Contains a (String sep "") -> Split (a +:+ String sep b) sep = a :: Split b sep.
Proof.
  induction a as [|c a IH]; intros Hnot.
  - change ("" +:+ String sep b) with (String sep b). cbn [Split].
    now rewrite Ascii.eqb_refl.
  - apply not_Contains_cons in Hnot as [Hc Ha].
    rewrite append_cons. cbn [Split]. now rewrite Hc, (IH Ha).
Qed.

(** A string that [strings.Split] leaves in one piece does not hold the
    separator. *)
Lemma not_Contains_one_piece (s : string) (sep : ascii) :
  length (Split s sep) = 1 -> ~ Contains s (String sep "").
Proof.
  intros Hone (before & after & ->).
  change (before +:+ String sep "" +:+ after) with (before +:+ String sep after) in Hone.
  rewrite Split_length_append in Hone.
  pose proof (Split_length_positive before sep).
  pose proof (Split_length_positive after sep). lia.
Qed.

(** The two shapes of key that matter to [ProcessItem]. *)
Lemma SplitMetaNamespaceKey_namespaced (namespace name : string) :
  ~ Contains namespace "/" -> ~ Contains name "/" ->
  SplitMetaNamespaceKey (namespace +:+ "/" +:+ name) = Some (namespace, name).
Proof.
  intros Hns Hname. unfold SplitMetaNamespaceKey.
  change (namespace +:+ "/" +:+ name) with (namespace +:+ String "/" name).
  now rewrite (Split_at_first_separator _ _ _ Hns), (Split_without_separator _ _ Hname).
Qed.

Lemma SplitMetaNamespaceKey_two_separators (a b c : string) :
  SplitMetaNamespaceKey (a +:+ "/" +:+ b +:+ "/" +:+ c) = None.
Proof.
  unfold SplitMetaNamespaceKey.
  pose proof (Split_length_append a (b +:+ String "/" c) "/") as Hlen.
  rewrite (Split_length_append b c "/") in Hlen.
  pose proof (Split_length_positive a "/").
  pose proof (Split_length_positive b "/").
  pose proof (Split_length_positive c "/").
  change (a +:+ "/" +:+ b +:+ "/" +:+ c) with (a +:+ String "/" (b +:+ String "/" c)).
  destruct (Split _ "/") as [|x [|y [|z rest]]]; cbn in Hlen; try lia. reflexivity.
Qed.

(** X25. The key [certificateHandler] enqueues for a Certificate controlled by
    a VirtualServer is one [ProcessItem] resolves to that VirtualServer: it
    reads the VirtualServer of the Certificate's namespace and the controller's
    name from the lister and runs the sync function on it. *)
Theorem certificate_notification_reaches_sync (W : Type) (C : Cluster W)
    (sync : W -> vsapi.VirtualServer.t -> outcome (Pass W * option error))
    (w : W) (crt : cmapi.Certificate.t) (ref : metav1.OwnerReference.t)
    (vs : vsapi.VirtualServer.t) :
  GetControllerOf crt = Some ref ->
  metav1.OwnerReference.Kind ref = "VirtualServer" ->
  ~ Contains (GetNamespace crt) "/" ->
  ~ Contains (metav1.OwnerReference.Name ref) "/" ->
  VirtualServersGet w (GetNamespace crt) (metav1.OwnerReference.Name ref) = (Some vs, None) ->
  exists key : string,
    certificateHandler (CertificateObj crt) = [KeyItem key]
    /\ ProcessItem sync w key = sync w vs.
Proof.
  intros Hcontroller Hkind Hns Hname Hget.
  exists (GetNamespace crt +:+ "/" +:+ metav1.OwnerReference.Name ref). split.
  - cbn [certificateHandler]. now rewrite Hcontroller, Hkind.
  - unfold ProcessItem.
    rewrite (SplitMetaNamespaceKey_namespaced _ _ Hns Hname), Hget. reflexivity.
Qed.

(** X26. [ProcessItem] returns no error and runs nothing for a key with two
    "/" separators; when the lister fails it does not run the sync function
    either, and returns the lister's error unless it is not-found, which it
    swallows. *)
Theorem ProcessItem_drops_the_key (W : Type) (C : Cluster W)
    (sync : W -> vsapi.VirtualServer.t -> outcome (Pass W * option error)) (w : W) :
  (forall a b c : string,
      ProcessItem sync w (a +:+ "/" +:+ b +:+ "/" +:+ c) = Returns (startPass w, None))
  /\ (forall (key namespace name : string) (crt : option vsapi.VirtualServer.t)
             (err : error),
        SplitMetaNamespaceKey key = Some (namespace, name) ->
        VirtualServersGet w namespace name = (crt, Some err) ->
        ProcessItem sync w key
        = Returns (startPass w, if IsNotFound (Some err) then None else Some err)).
Proof.
  unfold ProcessItem. split.
  - intros a b c. now rewrite SplitMetaNamespaceKey_two_separators.
  - intros key namespace name crt err -> ->. destruct (IsNotFound (Some err)); reflexivity.
Qed.

(** X27. [DeleteFunc] returns on every object, and what it enqueues is
    decided by the object alone: for a VirtualServer and for a tombstone that
    holds one, exactly that VirtualServer; for any other object, nothing. *)
Theorem DeleteFunc_never_panics (obj : Obj) :
  exists items : list QueueItem,
    DeleteFunc createVirtualServerHandlers obj = Returns items
    /\ ((exists vs : vsapi.VirtualServer.t,
           (obj = VirtualServerObj vs
            \/ exists key : string,
                 obj = DeletedFinalStateUnknownObj key (VirtualServerObj vs))
           /\ items = [VirtualServerItem vs])
        \/ ((forall vs : vsapi.VirtualServer.t, obj <> VirtualServerObj vs)
            /\ (forall (key : string) (vs : vsapi.VirtualServer.t),
                   obj <> DeletedFinalStateUnknownObj key (VirtualServerObj vs))
            /\ items = [])).
Proof.
  destruct obj as [crt|vs|key inner|]; cbn.
  - eexists. split; [reflexivity|]. right. repeat split; discriminate.
  - eexists. split; [reflexivity|]. left. exists vs. split; [now left | reflexivity].
  - destruct inner as [crt|vs|key' inner'|]; eexists; (split; [reflexivity|]);
      try (right; repeat split; discriminate).
    left. exists vs. split; [right; now exists key | reflexivity].
  - eexists. split; [reflexivity|]. right. repeat split; discriminate.
Qed.

(** X28. On an update of a VirtualServer, [UpdateFunc] enqueues nothing when
    the cert-manager block is unchanged, whatever else changed (host, secret,
    labels), and the current object when the block changed. *)
Theorem UpdateFunc_enqueues_iff_block_changed (oldVs curVs : vsapi.VirtualServer.t) :
  exists items : list QueueItem,
    UpdateFunc createVirtualServerHandlers (VirtualServerObj oldVs) (VirtualServerObj curVs)
    = Returns items
    /\ (configOf oldVs = configOf curVs -> items = [])
    /\ (configOf oldVs <> configOf curVs -> items = [VirtualServerItem curVs]).
Proof.
  cbn. fold (configOf oldVs) (configOf curVs).
  destruct (decide (configOf oldVs = configOf curVs)) as [Hsame|Hchanged].
  - rewrite bool_decide_eq_true_2 by exact Hsame. eexists. split; [reflexivity|].
    split; [reflexivity | contradiction].
  - rewrite bool_decide_eq_false_2 by exact Hchanged. eexists. split; [reflexivity|].
    split; [contradiction | reflexivity].
Qed.

(** ** The statements on the example resources *)

#[local] Existing Instance referenceLibraries.
#[local] Existing Instance Fake.fakeCluster.

(** The translation fails for the duration "abc". *)
Lemma badDuration_translation_fails :
  translationFails Examples.vsBadDuration (Examples.desiredFor Examples.vsBadDuration)
    Examples.invalidDurationAbc.
Proof. eexists _, _. split; [reflexivity | vm_compute; reflexivity]. Defined.

(** The empty block leaves the desired Certificate as it is. *)
Lemma emptyConfig_translates :
  translatesTo Examples.vsEmptyBlock (Examples.desiredFor Examples.vsEmptyBlock)
    (Examples.desiredFor Examples.vsEmptyBlock).
Proof. eexists. split; [reflexivity | vm_compute; reflexivity]. Defined.

(** Witness of C3: the block with issuer my-issuer and cluster issuer
    my-cluster-issuer. *)
Lemma issuerForIngressLike_issuer_and_clusterIssuer_witness :
  configOf Examples.vsConflict = Some Examples.conflictingConfig
  /\ vsapi.CertManager.Issuer Examples.conflictingConfig <> ""
  /\ vsapi.CertManager.ClusterIssuer Examples.conflictingConfig <> ""
  /\ exists text : string,
       issuerForIngressLike Examples.defaults Examples.vsConflict
       = Returns ("", "", "", Some (errorsNew text))
       /\ Contains text (quote cmapi.IngressIssuerNameAnnotationKey)
       /\ Contains text (quote cmapi.IngressClusterIssuerNameAnnotationKey)
       /\ SyncFnFor Examples.defaults Examples.emptyWorld Examples.vsConflict
          = Returns
              (Build_Pass Examples.emptyWorld []
                 [Eventf Examples.vsConflict EventTypeWarning reasonBadConfig
                    "Could not determine issuer for ingress due to bad annotations: %s"
                    [ArgError (errorsNew text)]]
                 [LogError (errorsNew text)
                    "failed to determine issuer to be used for ingress resource"],
               None).
Proof.
  split; [reflexivity|]. split; [discriminate|]. split; [discriminate|].
  apply (issuerForIngressLike_issuer_and_clusterIssuer referenceLibraries Fake.World
           Fake.fakeCluster Examples.defaults Examples.emptyWorld
           Examples.vsConflict Examples.conflictingConfig);
    [reflexivity | discriminate | discriminate].
Defined.

(** What the builder returns for the duration "abc", with and without a
    stored Certificate. *)
Lemma buildCertificates_bad_duration (w : Fake.World) :
  buildCertificates w Examples.vsBadDuration "letsencrypt" "ClusterIssuer" ""
  = Returns ([], ([], [], Some Examples.invalidDurationAbc)).
Proof.
  destruct (CertificatesGet w (GetNamespace Examples.vsBadDuration)
              (secretOf Examples.vsBadDuration)) as [existingCrt found] eqn:Hget.
  apply (buildCertificates_translation_error referenceLibraries Fake.World Fake.fakeCluster
           w Examples.vsBadDuration "letsencrypt" "ClusterIssuer" "" existingCrt found
           Examples.invalidDurationAbc Hget).
  - revert Hget. simpl. unfold Fake.get.
    destruct (find _ _); intros [= <- <-]; reflexivity.
  - exact badDuration_translation_fails.
Qed.

(** Counterexample to C4 as stated: the Certificate example-tls exists, the
    block of the VirtualServer asks for the duration "abc";
    [buildCertificates] returns the translation error and no certificate to
    update. *)
Lemma buildCertificates_existing_certificate_bad_duration :
  CertificatesGet Examples.worldWithCertificate (GetNamespace Examples.vsBadDuration)
    (secretOf Examples.vsBadDuration)
  = (Some Examples.storedCertificate, None)
  /\ buildCertificates Examples.worldWithCertificate Examples.vsBadDuration
       "letsencrypt" "ClusterIssuer" ""
     = Returns ([], ([], [], Some Examples.invalidDurationAbc))
  /\ ~ (exists (lines : list LogLine) (updateCrt : cmapi.Certificate.t),
          buildCertificates Examples.worldWithCertificate Examples.vsBadDuration
            "letsencrypt" "ClusterIssuer" ""
          = Returns (lines, ([], [updateCrt], None))).
Proof.
  split; [reflexivity|].
  split; [apply buildCertificates_bad_duration|].
  intros (lines & updateCrt & Hone).
  rewrite buildCertificates_bad_duration in Hone. discriminate Hone.
Qed.

(** Witness of C4 as amended: the Certificate example-tls exists with the
    very fields the VirtualServer asks for, and is still returned for update;
    with the duration "abc" in the block, the translation error is returned
    and nothing else. *)
Lemma buildCertificates_existing_certificate_witness :
  CertificatesGet Examples.worldWithCertificate (GetNamespace Examples.vsEmptyBlock)
    (secretOf Examples.vsEmptyBlock)
  = (Some Examples.storedCertificate, None)
  /\ translatesTo Examples.vsEmptyBlock (Examples.desiredFor Examples.vsEmptyBlock)
       (Examples.desiredFor Examples.vsEmptyBlock)
  /\ certNeedsUpdate Examples.storedCertificate (Examples.desiredFor Examples.vsEmptyBlock)
     = false
  /\ buildCertificates Examples.worldWithCertificate Examples.vsEmptyBlock
       "letsencrypt" "ClusterIssuer" ""
     = Returns
         (existingLogLines Examples.storedCertificate
            (Examples.desiredFor Examples.vsEmptyBlock) Examples.vsEmptyBlock,
          ([], [setLabels
                  (setSpec Examples.storedCertificate
                     (cmapi.Certificate.Spec (Examples.desiredFor Examples.vsEmptyBlock)))
                  (GetLabels (Examples.desiredFor Examples.vsEmptyBlock))],
           None))
  /\ In (LogInfo DebugLevel "certificate resource is already up to date for object")
       (existingLogLines Examples.storedCertificate
          (Examples.desiredFor Examples.vsEmptyBlock) Examples.vsEmptyBlock)
  /\ CertificatesGet Examples.worldWithCertificate (GetNamespace Examples.vsBadDuration)
       (secretOf Examples.vsBadDuration)
     = (Some Examples.storedCertificate, None)
  /\ translationFails Examples.vsBadDuration (Examples.desiredFor Examples.vsBadDuration)
       Examples.invalidDurationAbc
  /\ buildCertificates Examples.worldWithCertificate Examples.vsBadDuration
       "letsencrypt" "ClusterIssuer" ""
     = Returns ([], ([], [], Some Examples.invalidDurationAbc)).
Proof.
  assert (Hsame : certNeedsUpdate Examples.storedCertificate
                    (Examples.desiredFor Examples.vsEmptyBlock) = false)
    by (vm_compute; reflexivity).
  split; [reflexivity|]. split; [exact emptyConfig_translates|].
  split; [exact Hsame|].
  destruct (proj1 (buildCertificates_existing_certificate referenceLibraries Fake.World
                     Fake.fakeCluster Examples.worldWithCertificate Examples.vsEmptyBlock
                     "letsencrypt" "ClusterIssuer" "" Examples.storedCertificate eq_refl)
              (Examples.desiredFor Examples.vsEmptyBlock) emptyConfig_translates)
    as [Hbuild Hline].
  split; [exact Hbuild|]. split; [exact (Hline Hsame)|].
  split; [reflexivity|]. split; [exact badDuration_translation_fails|].
  exact (proj2 (buildCertificates_existing_certificate referenceLibraries Fake.World
                  Fake.fakeCluster Examples.worldWithCertificate Examples.vsBadDuration
                  "letsencrypt" "ClusterIssuer" "" Examples.storedCertificate eq_refl)
           Examples.invalidDurationAbc badDuration_translation_fails).
Defined.

(** Counterexample to C5 as stated: no Certificate exists, the block of the
    VirtualServer asks for the duration "abc"; [buildCertificates] returns
    the translation error and no certificate to create. *)
Lemma buildCertificates_no_certificate_bad_duration :
  CertificatesGet Examples.emptyWorld (GetNamespace Examples.vsBadDuration)
    (secretOf Examples.vsBadDuration)
  = (None, Some (Fake.errNotFound "example-tls"))
  /\ IsNotFound (Some (Fake.errNotFound "example-tls")) = true
  /\ buildCertificates Examples.emptyWorld Examples.vsBadDuration
       "letsencrypt" "ClusterIssuer" ""
     = Returns ([], ([], [], Some Examples.invalidDurationAbc))
  /\ ~ (exists (lines : list LogLine) (crt : cmapi.Certificate.t),
          buildCertificates Examples.emptyWorld Examples.vsBadDuration
            "letsencrypt" "ClusterIssuer" ""
          = Returns (lines, ([crt], [], None))).
Proof.
  split; [reflexivity|]. split; [reflexivity|].
  split; [apply buildCertificates_bad_duration|].
  intros (lines & crt & Hone).
  rewrite buildCertificates_bad_duration in Hone. discriminate Hone.
Qed.

(** Witness of C5 as amended: no Certificate exists and the block is empty;
    with the duration "abc" in the block, the translation error is returned
    and nothing else. *)
Lemma buildCertificates_no_certificate_witness :
  CertificatesGet Examples.emptyWorld (GetNamespace Examples.vsEmptyBlock)
    (secretOf Examples.vsEmptyBlock)
  = (None, Some (Fake.errNotFound "example-tls"))
  /\ IsNotFound (Some (Fake.errNotFound "example-tls")) = true
  /\ translatesTo Examples.vsEmptyBlock (Examples.desiredFor Examples.vsEmptyBlock)
       (Examples.desiredFor Examples.vsEmptyBlock)
  /\ buildCertificates Examples.emptyWorld Examples.vsEmptyBlock
       "letsencrypt" "ClusterIssuer" ""
     = Returns ([], ([Examples.desiredFor Examples.vsEmptyBlock], [], None))
  /\ GetName (Examples.desiredFor Examples.vsEmptyBlock) = "example-tls"
  /\ cmapi.CertificateSpec.DNSNames
       (cmapi.Certificate.Spec (Examples.desiredFor Examples.vsEmptyBlock))
     = ["example.com"]
  /\ cmapi.CertificateSpec.Usages
       (cmapi.Certificate.Spec (Examples.desiredFor Examples.vsEmptyBlock))
     = ["digital signature"; "key encipherment"]
  /\ CertificatesGet Examples.emptyWorld (GetNamespace Examples.vsBadDuration)
       (secretOf Examples.vsBadDuration)
     = (None, Some (Fake.errNotFound "example-tls"))
  /\ translationFails Examples.vsBadDuration (Examples.desiredFor Examples.vsBadDuration)
       Examples.invalidDurationAbc
  /\ buildCertificates Examples.emptyWorld Examples.vsBadDuration
       "letsencrypt" "ClusterIssuer" ""
     = Returns ([], ([], [], Some Examples.invalidDurationAbc)).
Proof.
  split; [reflexivity|]. split; [reflexivity|]. split; [exact emptyConfig_translates|].
  destruct (proj1 (buildCertificates_no_certificate referenceLibraries Fake.World
                     Fake.fakeCluster Examples.emptyWorld Examples.vsEmptyBlock
                     "letsencrypt" "ClusterIssuer" ""
                     (Some (Fake.errNotFound "example-tls")) eq_refl eq_refl)
              (Examples.desiredFor Examples.vsEmptyBlock) emptyConfig_translates)
    as (Hbuild & Hname & Hdns & _ & Husages).
  split; [exact Hbuild|]. split; [exact Hname|]. split; [exact Hdns|].
  split; [exact (Husages Examples.emptyConfig eq_refl eq_refl)|].
  split; [reflexivity|]. split; [exact badDuration_translation_fails|].
  exact (proj2 (buildCertificates_no_certificate referenceLibraries Fake.World
                  Fake.fakeCluster Examples.emptyWorld Examples.vsBadDuration
                  "letsencrypt" "ClusterIssuer" ""
                  (Some (Fake.errNotFound "example-tls")) eq_refl eq_refl)
           Examples.invalidDurationAbc badDuration_translation_fails).
Defined.

(** Counterexample to C7 as stated: on an empty cluster, for the duration
    "abc", the issuer is resolved, the translation fails, no request is
    sent, and the pass returns the translation error to its caller. *)
Lemma SyncFnFor_returns_translation_error :
  issuerForIngressLike Examples.defaults Examples.vsBadDuration
  = Returns ("letsencrypt", "ClusterIssuer", "", None)
  /\ translationFails Examples.vsBadDuration (Examples.desiredFor Examples.vsBadDuration)
       Examples.invalidDurationAbc
  /\ SyncFnFor Examples.defaults Examples.emptyWorld Examples.vsBadDuration
     = Returns (Build_Pass Examples.emptyWorld [] [] [], Some Examples.invalidDurationAbc)
  /\ ~ (exists p : Pass Fake.World,
          SyncFnFor Examples.defaults Examples.emptyWorld Examples.vsBadDuration
          = Returns (p, None)).
Proof.
  split; [vm_compute; reflexivity|].
  split; [exact badDuration_translation_fails|].
  assert (Hsync :
            SyncFnFor Examples.defaults Examples.emptyWorld Examples.vsBadDuration
            = Returns (Build_Pass Examples.emptyWorld [] [] [],
                       Some Examples.invalidDurationAbc))
    by (vm_compute; reflexivity).
  split; [exact Hsync|].
  intros (p & Hnone). rewrite Hsync in Hnone. discriminate Hnone.
Qed.

(** Witness of C7 as amended: the conflicting block for the first part, the
    duration "abc" for the second and the third. *)
Lemma SyncFnFor_failures_witness :
  SyncFnFor Examples.defaults Examples.emptyWorld Examples.vsConflict
  = Returns
      (Build_Pass Examples.emptyWorld []
         [Eventf Examples.vsConflict EventTypeWarning reasonBadConfig
            "Could not determine issuer for ingress due to bad annotations: %s"
            [ArgError
               (errorsNew (bothMayNotBeSet cmapi.IngressIssuerNameAnnotationKey
                             cmapi.IngressClusterIssuerNameAnnotationKey))]]
         [LogError
            (errorsNew (bothMayNotBeSet cmapi.IngressIssuerNameAnnotationKey
                          cmapi.IngressClusterIssuerNameAnnotationKey))
            "failed to determine issuer to be used for ingress resource"],
       None)
  /\ SyncFnFor Examples.defaults Examples.emptyWorld Examples.vsBadDuration
     = Returns (Build_Pass Examples.emptyWorld [] [] [], Some Examples.invalidDurationAbc)
  /\ (storeFailure Examples.invalidDurationAbc
      \/ exists issuerName issuerKind issuerGroup : string,
           issuerForIngressLike Examples.defaults Examples.vsBadDuration
           = Returns (issuerName, issuerKind, issuerGroup, None)
           /\ translationFails Examples.vsBadDuration
                (desiredCertificate Examples.vsBadDuration
                   [hostOf Examples.vsBadDuration] issuerName issuerKind issuerGroup)
                Examples.invalidDurationAbc).
Proof.
  assert (Hbad :
            SyncFnFor Examples.defaults Examples.emptyWorld Examples.vsBadDuration
            = Returns (Build_Pass Examples.emptyWorld [] [] [],
                       Some Examples.invalidDurationAbc)).
  { apply (proj1 (proj2 (SyncFnFor_failures referenceLibraries Fake.World Fake.fakeCluster
                          Examples.defaults Examples.emptyWorld Examples.vsBadDuration))
             "letsencrypt" "ClusterIssuer" "" None
             (Some (Fake.errNotFound "example-tls")) Examples.invalidDurationAbc);
      [vm_compute; reflexivity | reflexivity | reflexivity
      | exact badDuration_translation_fails]. }
  split; [|split].
  - apply (proj1 (SyncFnFor_failures referenceLibraries Fake.World Fake.fakeCluster
                    Examples.defaults Examples.emptyWorld Examples.vsConflict)
             "" "" "").
    vm_compute. reflexivity.
  - exact Hbad.
  - exact (proj2 (proj2 (SyncFnFor_failures referenceLibraries Fake.World Fake.fakeCluster
                           Examples.defaults Examples.emptyWorld Examples.vsBadDuration))
             _ _ Hbad).
Defined.

(** Witness of C8: a Certificate without owner, one controlled by an Ingress,
    one controlled by the VirtualServer vs1. *)
Lemma certificateHandler_enqueues_owner_witness :
  certificateHandler (CertificateObj (Examples.certificate "orphan" "orphan" [])) = []
  /\ certificateHandler
       (CertificateObj (Examples.certificate "other" "other" Examples.ownedByIngress))
     = []
  /\ certificateHandler (CertificateObj Examples.storedCertificate)
     = [KeyItem "default/vs1"].
Proof.
  split; [|split].
  - apply (proj1 (certificateHandler_enqueues_owner
                    (Examples.certificate "orphan" "orphan" []))).
    reflexivity.
  - apply (proj1 (proj2 (certificateHandler_enqueues_owner
                           (Examples.certificate "other" "other" Examples.ownedByIngress)))
             (Examples.ownerRef "Ingress" "ing1" "uid-ing1" (Some true)));
      [reflexivity | discriminate].
  - exact (proj2 (proj2 (certificateHandler_enqueues_owner Examples.storedCertificate))
             (Examples.ownerRef "VirtualServer" "vs1" "uid-vs1" (Some true))
             eq_refl eq_refl).
Defined.

(** ** The further properties on the example resources *)

(** Witness of X1: a map that only carries the ingress class. *)
Lemma translateAnnotations_unrecognised_keys_witness :
  Scenarios.ingressClassAnnotations !! cmapi.CommonNameAnnotationKey = None
  /\ Scenarios.ingressClassAnnotations !! cmapi.DurationAnnotationKey = None
  /\ Scenarios.ingressClassAnnotations !! cmapi.RenewBeforeAnnotationKey = None
  /\ Scenarios.ingressClassAnnotations !! cmapi.UsagesAnnotationKey = None
  /\ translateAnnotations (Some Examples.storedCertificate) Scenarios.ingressClassAnnotations
     = (Some Examples.storedCertificate, None).
Proof.
  split; [reflexivity|]. split; [reflexivity|]. split; [reflexivity|].
  split; [reflexivity|].
  apply (translateAnnotations_unrecognised_keys referenceLibraries
           Examples.storedCertificate Scenarios.ingressClassAnnotations);
    reflexivity.
Defined.

(** Witness of X3: the duration abc, beside a common name. *)
Lemma translateAnnotations_duration_error_witness :
  Scenarios.badDurationAnnotations !! cmapi.DurationAnnotationKey = Some "abc"
  /\ ParseDuration "abc" = (0%Z, Some (Scenarios.invalidDuration "abc"))
  /\ translateAnnotations (Some Examples.storedCertificate) Scenarios.badDurationAnnotations
     = (Some (setCommonName Examples.storedCertificate "example.com"),
        Some Examples.invalidDurationAbc).
Proof.
  split; [reflexivity|]. split; [vm_compute; reflexivity|].
  apply (translateAnnotations_duration_error referenceLibraries
           Examples.storedCertificate Scenarios.badDurationAnnotations
           "abc" 0%Z (Scenarios.invalidDuration "abc"));
    vm_compute; reflexivity.
Defined.

(** Witness of X4: the duration 2160h and the renew-before value soon. *)
Lemma translateAnnotations_renewBefore_error_witness :
  Scenarios.badRenewBeforeAnnotations !! cmapi.CommonNameAnnotationKey = None
  /\ Scenarios.badRenewBeforeAnnotations !! cmapi.DurationAnnotationKey = Some "2160h"
  /\ ParseDuration "2160h" = (7776000000000000%Z, None)
  /\ Scenarios.badRenewBeforeAnnotations !! cmapi.RenewBeforeAnnotationKey = Some "soon"
  /\ ParseDuration "soon" = (0%Z, Some (Scenarios.invalidDuration "soon"))
  /\ translateAnnotations (Some Examples.storedCertificate)
       Scenarios.badRenewBeforeAnnotations
     = (Some (setDuration Examples.storedCertificate (Some 7776000000000000%Z)),
        Some (fmtErrorf "%w %q: %v"
                [ArgError errInvalidIngressAnnotation;
                 ArgString cmapi.RenewBeforeAnnotationKey;
                 ArgError (Scenarios.invalidDuration "soon")])).
Proof.
  split; [reflexivity|]. split; [reflexivity|]. split; [vm_compute; reflexivity|].
  split; [reflexivity|]. split; [vm_compute; reflexivity|].
  apply (translateAnnotations_renewBefore_error referenceLibraries
           Examples.storedCertificate Scenarios.badRenewBeforeAnnotations
           "2160h" "soon" 7776000000000000%Z 0%Z (Scenarios.invalidDuration "soon"));
    vm_compute; reflexivity.
Defined.

(** Witness of X6: the four keys of the documented example. *)
Lemma translateAnnotations_success_fields_witness :
  translateAnnotations (Some Examples.storedCertificate) Scenarios.documentedAnnotations
  = (Some Scenarios.documentedCertificate, None)
  /\ cmapi.CertificateSpec.CommonName (cmapi.Certificate.Spec Scenarios.documentedCertificate)
     = "example.com"
  /\ cmapi.CertificateSpec.Duration (cmapi.Certificate.Spec Scenarios.documentedCertificate)
     = Some 7776000000000000%Z
  /\ cmapi.CertificateSpec.RenewBefore
       (cmapi.Certificate.Spec Scenarios.documentedCertificate)
     = Some 5184000000000000%Z
  /\ cmapi.CertificateSpec.Usages (cmapi.Certificate.Spec Scenarios.documentedCertificate)
     = ["digital signature"; "key encipherment"].
Proof.
  split; [vm_compute; reflexivity|].
  apply (translateAnnotations_success_fields referenceLibraries
           Examples.storedCertificate Scenarios.documentedCertificate
           Scenarios.documentedAnnotations).
  vm_compute; reflexivity.
Defined.

(** Witness of X7: the usages digital signature and bogus. *)
Lemma translateAnnotations_unknown_usage_witness :
  Scenarios.badUsagesAnnotations !! cmapi.UsagesAnnotationKey
  = Some "digital signature,bogus"
  /\ In "bogus" (Split "digital signature,bogus" ",")
  /\ knownUsage "bogus" = false
  /\ exists (after : cmapi.Certificate.t) (err : error),
       translateAnnotations (Some Examples.storedCertificate) Scenarios.badUsagesAnnotations
       = (Some after, Some err)
       /\ cmapi.CertificateSpec.Usages (cmapi.Certificate.Spec after)
          = cmapi.CertificateSpec.Usages (cmapi.Certificate.Spec Examples.storedCertificate).
Proof.
  split; [reflexivity|]. split; [vm_compute; right; left; reflexivity|].
  split; [vm_compute; reflexivity|].
  apply (translateAnnotations_unknown_usage referenceLibraries
           Examples.storedCertificate Scenarios.badUsagesAnnotations
           "digital signature,bogus" "bogus");
    [reflexivity | vm_compute; right; left; reflexivity | vm_compute; reflexivity].
Defined.

(** Witness of X9: a block that only sets issuer my-issuer. *)
Lemma issuerForIngressLike_resolves_witness :
  configOf (Examples.vs1 (Some Scenarios.issuerOnly)) = Some Scenarios.issuerOnly
  /\ issuerForIngressLike Examples.defaults (Examples.vs1 (Some Scenarios.issuerOnly))
     = Returns ("my-issuer", "Issuer", "", None).
Proof.
  split; [reflexivity|].
  apply (proj2 (issuerForIngressLike_resolves Examples.defaults
                  (Examples.vs1 (Some Scenarios.issuerOnly)) Scenarios.issuerOnly
                  "my-issuer" "Issuer" "" eq_refl)).
  split; [reflexivity|]. split; [reflexivity|]. split; [reflexivity|].
  split; [discriminate|]. split; right; [|split]; reflexivity.
Defined.

(** Witness of X10: the block with both issuer and clusterIssuer. *)
Lemma issuerForIngressLike_error_results_witness :
  issuerForIngressLike Examples.defaults Examples.vsConflict
  = Returns ("", "", "",
             Some (errorsNew (bothMayNotBeSet cmapi.IngressIssuerNameAnnotationKey
                                cmapi.IngressClusterIssuerNameAnnotationKey)))
  /\ exists text : string,
       errorsNew (bothMayNotBeSet cmapi.IngressIssuerNameAnnotationKey
                    cmapi.IngressClusterIssuerNameAnnotationKey) = errorsNew text
       /\ text <> "".
Proof.
  split; [vm_compute; reflexivity|].
  apply (issuerForIngressLike_error_results Examples.defaults Examples.vsConflict
           "" "" ""
           (errorsNew (bothMayNotBeSet cmapi.IngressIssuerNameAnnotationKey
                         cmapi.IngressClusterIssuerNameAnnotationKey))).
  vm_compute; reflexivity.
Defined.

(** Witness of X11: clusterIssuer with issuerGroup example.org. *)
Lemma issuerForIngressLike_clusterIssuer_conflicts_witness :
  configOf (Examples.vs1 (Some Scenarios.clusterIssuerWithGroup))
  = Some Scenarios.clusterIssuerWithGroup
  /\ vsapi.CertManager.ClusterIssuer Scenarios.clusterIssuerWithGroup <> ""
  /\ vsapi.CertManager.IssuerGroup Scenarios.clusterIssuerWithGroup <> ""
  /\ exists text : string,
       issuerForIngressLike Examples.defaults
         (Examples.vs1 (Some Scenarios.clusterIssuerWithGroup))
       = Returns ("", "", "", Some (errorsNew text))
       /\ Contains text (quote cmapi.IngressClusterIssuerNameAnnotationKey)
       /\ Contains text (quote cmapi.IssuerGroupAnnotationKey).
Proof.
  split; [reflexivity|]. split; [discriminate|]. split; [discriminate|].
  apply (proj1 (issuerForIngressLike_clusterIssuer_conflicts Examples.defaults
                  (Examples.vs1 (Some Scenarios.clusterIssuerWithGroup))
                  Scenarios.clusterIssuerWithGroup eq_refl
                  ltac:(discriminate))).
  discriminate.
Defined.

(** Witness of X12: the empty block under defaults without an issuer name. *)
Lemma issuerForIngressLike_no_issuer_name_witness :
  configOf Examples.vsEmptyBlock = Some Examples.emptyConfig
  /\ controller.IngressShimOptions.DefaultIssuerName Scenarios.noDefaultIssuer = ""
  /\ vsapi.CertManager.Issuer Examples.emptyConfig = ""
  /\ vsapi.CertManager.ClusterIssuer Examples.emptyConfig = ""
  /\ issuerForIngressLike Scenarios.noDefaultIssuer Examples.vsEmptyBlock
     = Returns ("", "", "",
                Some (errorsNew
                        "failed to determine issuer name to be used for virtualserver resource")).
Proof.
  split; [reflexivity|]. split; [reflexivity|]. split; [reflexivity|].
  split; [reflexivity|].
  apply (issuerForIngressLike_no_issuer_name Scenarios.noDefaultIssuer
           Examples.vsEmptyBlock Examples.emptyConfig);
    reflexivity.
Defined.

(** Witness of X13: the block with the four overrides. *)
Lemma issuerForIngressLike_all_violations_witness :
  configOf (Examples.vs1 (Some Scenarios.allOverrides)) = Some Scenarios.allOverrides
  /\ vsapi.CertManager.Issuer Scenarios.allOverrides <> ""
  /\ vsapi.CertManager.ClusterIssuer Scenarios.allOverrides <> ""
  /\ vsapi.CertManager.IssuerKind Scenarios.allOverrides <> ""
  /\ vsapi.CertManager.IssuerGroup Scenarios.allOverrides <> ""
  /\ issuerForIngressLike Examples.defaults (Examples.vs1 (Some Scenarios.allOverrides))
     = Returns ("", "", "",
                Some (errorsNew
                        (Join
                           [bothMayNotBeSet cmapi.IngressIssuerNameAnnotationKey
                              cmapi.IngressClusterIssuerNameAnnotationKey;
                            bothMayNotBeSet cmapi.IngressClusterIssuerNameAnnotationKey
                              cmapi.IssuerGroupAnnotationKey;
                            bothMayNotBeSet cmapi.IngressClusterIssuerNameAnnotationKey
                              cmapi.IssuerKindAnnotationKey]
                           ", "))).
Proof.
  split; [reflexivity|]. split; [discriminate|]. split; [discriminate|].
  split; [discriminate|]. split; [discriminate|].
  apply (issuerForIngressLike_all_violations Examples.defaults
           (Examples.vs1 (Some Scenarios.allOverrides)) Scenarios.allOverrides);
    [reflexivity | discriminate..].
Defined.

(** Witness of X16: vs1 on a cluster without Certificates. *)
Lemma buildCertificates_one_candidate_witness :
  buildCertificates Examples.emptyWorld Examples.vsEmptyBlock "letsencrypt" "ClusterIssuer" ""
  = Returns ([], ([Scenarios.desired], [], None))
  /\ length [Scenarios.desired] + length (@nil cmapi.Certificate.t) = 1.
Proof.
  split; [vm_compute; reflexivity|].
  apply (proj2 (buildCertificates_one_candidate referenceLibraries Fake.World
                  Fake.fakeCluster Examples.emptyWorld Examples.vsEmptyBlock
                  "letsencrypt" "ClusterIssuer" "" [] [Scenarios.desired] [] None
                  ltac:(vm_compute; reflexivity))).
  reflexivity.
Defined.

(** Witness of X17: the cluster holds example-tls, controlled by vs2; the
    builder hands it over for update on behalf of vs1, owner references kept. *)
Lemma buildCertificates_update_candidate_witness :
  CertificatesGet Scenarios.worldWithForeign (GetNamespace Examples.vsEmptyBlock)
    (secretOf Examples.vsEmptyBlock)
  = (Some Scenarios.foreignCertificate, None)
  /\ buildCertificates Scenarios.worldWithForeign Examples.vsEmptyBlock
       "letsencrypt" "ClusterIssuer" ""
     = Returns
         (existingLogLines Scenarios.foreignCertificate Scenarios.desired
            Examples.vsEmptyBlock,
          ([], [Scenarios.updated Scenarios.foreignCertificate], None))
  /\ IsControlledBy Scenarios.foreignCertificate Examples.vsEmptyBlock = false
  /\ GetName (Scenarios.updated Scenarios.foreignCertificate) = "example-tls"
  /\ GetOwnerReferences (Scenarios.updated Scenarios.foreignCertificate)
     = Examples.ownedByVs2
  /\ cmapi.CertificateSpec.SecretName
       (cmapi.Certificate.Spec (Scenarios.updated Scenarios.foreignCertificate))
     = secretOf Examples.vsEmptyBlock.
Proof.
  split; [reflexivity|]. split; [vm_compute; reflexivity|]. split; [reflexivity|].
  destruct (buildCertificates_update_candidate referenceLibraries Fake.World
              Fake.fakeCluster Scenarios.worldWithForeign Examples.vsEmptyBlock
              "letsencrypt" "ClusterIssuer" ""
              (existingLogLines Scenarios.foreignCertificate Scenarios.desired
                 Examples.vsEmptyBlock)
              [] Scenarios.foreignCertificate
              (Scenarios.updated Scenarios.foreignCertificate) None
              eq_refl ltac:(vm_compute; reflexivity))
    as (Hname & _ & _ & _ & _ & Howners & _ & _ & Hsecret & _).
  split; [exact Hname|]. split; [exact Howners | exact Hsecret].
Defined.

(** Witness of X18: vs1 on a cluster without Certificates. *)
Lemma buildCertificates_create_candidate_witness :
  buildCertificates Examples.emptyWorld Examples.vsEmptyBlock "letsencrypt" "ClusterIssuer" ""
  = Returns ([], ([Scenarios.desired], [], None))
  /\ IsControlledBy Scenarios.desired Examples.vsEmptyBlock = true
  /\ findCertificatesToBeRemoved [Scenarios.desired] Examples.vsEmptyBlock = []
  /\ certificateHandler (CertificateObj Scenarios.desired) = [KeyItem "default/vs1"].
Proof.
  split; [vm_compute; reflexivity|].
  destruct (buildCertificates_create_candidate referenceLibraries Fake.World
              Fake.fakeCluster Examples.emptyWorld Examples.vsEmptyBlock
              "letsencrypt" "ClusterIssuer" "" [] [] Scenarios.desired
              ltac:(vm_compute; reflexivity))
    as (_ & Hcontrolled & _ & _ & _ & Hkept & Hkey).
  split; [exact Hcontrolled|]. split; [exact Hkept | exact Hkey].
Defined.

(** Witness of X19: on the cluster that holds example-tls of vs2 and the
    stale old-tls, the pass updates the former and deletes the latter, both in
    the namespace default. *)
Lemma SyncFnFor_call_order_witness :
  SyncFnFor Examples.defaults Scenarios.worldWithForeignAndStale Examples.vsEmptyBlock
  = Returns (Scenarios.takeoverPass, None)
  /\ (forall existingCrt : cmapi.Certificate.t,
        fst (CertificatesGet Scenarios.worldWithForeignAndStale
               (GetNamespace Examples.vsEmptyBlock) (secretOf Examples.vsEmptyBlock))
        = Some existingCrt ->
        GetNamespace existingCrt = GetNamespace Examples.vsEmptyBlock)
  /\ (forall call : StoreCall,
        In call (calls Scenarios.takeoverPass) -> callNamespace call = "default").
Proof.
  assert (Hsync :
            SyncFnFor Examples.defaults Scenarios.worldWithForeignAndStale
              Examples.vsEmptyBlock
            = Returns (Scenarios.takeoverPass, None)) by (vm_compute; reflexivity).
  assert (Hlister :
            forall existingCrt : cmapi.Certificate.t,
              fst (CertificatesGet Scenarios.worldWithForeignAndStale
                     (GetNamespace Examples.vsEmptyBlock) (secretOf Examples.vsEmptyBlock))
              = Some existingCrt ->
              GetNamespace existingCrt = GetNamespace Examples.vsEmptyBlock)
    by (intros existingCrt [= <-]; reflexivity).
  split; [exact Hsync|]. split; [exact Hlister|].
  destruct (SyncFnFor_call_order referenceLibraries Fake.World Fake.fakeCluster
              Examples.defaults Scenarios.worldWithForeignAndStale Examples.vsEmptyBlock
              Scenarios.takeoverPass None Hsync)
    as (writes & names & _ & _ & Hnamespaces).
  exact (Hnamespaces Hlister).
Defined.

(** Witness of X20: the delete of old-tls in the pass that creates
    example-tls on a cluster holding the stale old-tls. *)
Lemma SyncFnFor_deletes_only_owned_witness :
  SyncFnFor Examples.defaults Scenarios.worldWithStale Examples.vsEmptyBlock
  = Returns (Scenarios.cleanupPass, None)
  /\ In (DeleteCall "default" "old-tls") (calls Scenarios.cleanupPass)
  /\ "default" = GetNamespace Examples.vsEmptyBlock
  /\ exists (w' : Fake.World) (certs : list cmapi.Certificate.t) (crt : cmapi.Certificate.t),
       CertificatesList w' (GetNamespace Examples.vsEmptyBlock) = (certs, None)
       /\ In crt certs
       /\ GetName crt = "old-tls"
       /\ IsControlledBy crt Examples.vsEmptyBlock = true
       /\ cmapi.CertificateSpec.SecretName (cmapi.Certificate.Spec crt)
          <> secretOf Examples.vsEmptyBlock.
Proof.
  split; [vm_compute; reflexivity|]. split; [right; left; reflexivity|].
  apply (SyncFnFor_deletes_only_owned referenceLibraries Fake.World Fake.fakeCluster
           Examples.defaults Scenarios.worldWithStale Examples.vsEmptyBlock
           Scenarios.cleanupPass None "default" "old-tls");
    [vm_compute; reflexivity | right; left; reflexivity].
Defined.

(** Witness of X21: the pass that creates example-tls and deletes old-tls,
    both requests answered without error and both with their events. *)
Lemma SyncFnFor_events_follow_calls_witness :
  issuerForIngressLike Examples.defaults Examples.vsEmptyBlock
  = Returns ("letsencrypt", "ClusterIssuer", "", None)
  /\ SyncFnFor Examples.defaults Scenarios.worldWithStale Examples.vsEmptyBlock
     = Returns (Scenarios.cleanupPass, None)
  /\ exists (done failed : list StoreCall) (w1 : Fake.World),
       calls Scenarios.cleanupPass = done ++ failed
       /\ events Scenarios.cleanupPass = List.map (eventFor Examples.vsEmptyBlock) done
       /\ performAll Scenarios.worldWithStale done = (w1, None)
       /\ match failed with
          | [] => cluster Scenarios.cleanupPass = w1
          | call :: others =>
              others = []
              /\ exists e : error,
                   perform w1 call = (cluster Scenarios.cleanupPass, Some e)
                   /\ @None error = Some e
          end
       /\ length failed <= 1
       /\ (@None error = None -> failed = []).
Proof.
  split; [vm_compute; reflexivity|]. split; [vm_compute; reflexivity|].
  apply (SyncFnFor_events_follow_calls referenceLibraries Fake.World Fake.fakeCluster
           Examples.defaults Scenarios.worldWithStale Examples.vsEmptyBlock
           "letsencrypt" "ClusterIssuer" "" Scenarios.cleanupPass None);
    vm_compute; reflexivity.
Defined.

(** Witness of X22: vs1 on a cluster without Certificates. *)
Lemma SyncFnFor_create_pass_witness :
  issuerForIngressLike Examples.defaults Examples.vsEmptyBlock
  = Returns ("letsencrypt", "ClusterIssuer", "", None)
  /\ CertificatesGet Examples.emptyWorld (GetNamespace Examples.vsEmptyBlock)
       (secretOf Examples.vsEmptyBlock)
     = (None, Some (Fake.errNotFound "example-tls"))
  /\ IsNotFound (Some (Fake.errNotFound "example-tls")) = true
  /\ translatesTo Examples.vsEmptyBlock Scenarios.desired Scenarios.desired
  /\ CertificatesCreate Examples.emptyWorld (GetNamespace Scenarios.desired)
       Scenarios.desired
     = (Scenarios.afterCreate Examples.emptyWorld, None)
  /\ CertificatesList (Scenarios.afterCreate Examples.emptyWorld)
       (GetNamespace Examples.vsEmptyBlock)
     = ([Scenarios.desired], None)
  /\ findCertificatesToBeRemoved [Scenarios.desired] Examples.vsEmptyBlock = []
  /\ SyncFnFor Examples.defaults Examples.emptyWorld Examples.vsEmptyBlock
     = Returns
         (Build_Pass (Scenarios.afterCreate Examples.emptyWorld)
            [createCallFor Scenarios.desired]
            [eventFor Examples.vsEmptyBlock (createCallFor Scenarios.desired)] [],
          None).
Proof.
  split; [vm_compute; reflexivity|]. split; [reflexivity|]. split; [reflexivity|].
  split; [exact emptyConfig_translates|]. split; [reflexivity|].
  split; [reflexivity|]. split; [reflexivity|].
  apply (proj2 (SyncFnFor_create_pass referenceLibraries Fake.World Fake.fakeCluster
                  Examples.defaults Examples.emptyWorld
                  (Scenarios.afterCreate Examples.emptyWorld) Examples.vsEmptyBlock
                  "letsencrypt" "ClusterIssuer" ""
                  (Some (Fake.errNotFound "example-tls"))
                  Scenarios.desired [Scenarios.desired]
                  ltac:(vm_compute; reflexivity) eq_refl eq_refl
                  emptyConfig_translates eq_refl eq_refl)).
  reflexivity.
Defined.



(** Witness of X25: the stored Certificate of vs1, with vs1 in the lister. *)
Lemma certificate_notification_reaches_sync_witness :
  GetControllerOf Examples.storedCertificate
  = Some (Examples.ownerRef "VirtualServer" "vs1" "uid-vs1" (Some true))
  /\ ~ Contains (GetNamespace Examples.storedCertificate) "/"
  /\ ~ Contains "vs1" "/"
  /\ VirtualServersGet Scenarios.worldWithVs1 (GetNamespace Examples.storedCertificate) "vs1"
     = (Some Examples.vsEmptyBlock, None)
  /\ exists key : string,
       certificateHandler (CertificateObj Examples.storedCertificate) = [KeyItem key]
       /\ ProcessItem (SyncFnFor Examples.defaults) Scenarios.worldWithVs1 key
          = SyncFnFor Examples.defaults Scenarios.worldWithVs1 Examples.vsEmptyBlock.
Proof.
  assert (Hnamespace : ~ Contains (GetNamespace Examples.storedCertificate) "/")
    by (apply not_Contains_one_piece; reflexivity).
  assert (Hname : ~ Contains "vs1" "/") by (apply not_Contains_one_piece; reflexivity).
  split; [reflexivity|]. split; [exact Hnamespace|]. split; [exact Hname|].
  split; [reflexivity|].
  apply (certificate_notification_reaches_sync Fake.World Fake.fakeCluster
           (SyncFnFor Examples.defaults) Scenarios.worldWithVs1
           Examples.storedCertificate
           (Examples.ownerRef "VirtualServer" "vs1" "uid-vs1" (Some true))
           Examples.vsEmptyBlock);
    [reflexivity | reflexivity | exact Hnamespace | exact Hname | reflexivity].
Defined.

(** Witness of X26: the key of a VirtualServer the lister does not know. *)
Lemma ProcessItem_drops_the_key_witness :
  SplitMetaNamespaceKey "default/vs1" = Some ("default", "vs1")
  /\ VirtualServersGet Examples.emptyWorld "default" "vs1"
     = (None, Some (Fake.errNotFound "vs1"))
  /\ ProcessItem (SyncFnFor Examples.defaults) Examples.emptyWorld "default/vs1"
     = Returns (startPass Examples.emptyWorld, None).
Proof.
  split; [vm_compute; reflexivity|]. split; [reflexivity|].
  apply (proj2 (ProcessItem_drops_the_key Fake.World Fake.fakeCluster
                  (SyncFnFor Examples.defaults) Examples.emptyWorld)
           "default/vs1" "default" "vs1" None (Fake.errNotFound "vs1"));
    [vm_compute; reflexivity | reflexivity].
Defined.

(** Witness of X28: an update that sets the duration of the block. *)
Lemma UpdateFunc_enqueues_iff_block_changed_witness :
  configOf Examples.vsEmptyBlock <> configOf Examples.vsBadDuration
  /\ exists items : list QueueItem,
       UpdateFunc createVirtualServerHandlers (VirtualServerObj Examples.vsEmptyBlock)
         (VirtualServerObj Examples.vsBadDuration)
       = Returns items
       /\ items = [VirtualServerItem Examples.vsBadDuration].
Proof.
  assert (Hchanged : configOf Examples.vsEmptyBlock <> configOf Examples.vsBadDuration)
    by discriminate.
  split; [exact Hchanged|].
  destruct (UpdateFunc_enqueues_iff_block_changed Examples.vsEmptyBlock
              Examples.vsBadDuration) as (items & Hreturns & _ & Hitems).
  exists items. split; [exact Hreturns | exact (Hitems Hchanged)].
Defined.
